(** * finance_tracker: ledger filters, aggregates and the analysis report

    A shallow embedding of [src/finance_tracker.py]: the [Transaction]
    value, the [FinanceTracker] ledger with its balance and filter methods,
    [Storage.read_transaction], and the aggregates and the analysis export
    of [ReportingAndAnalysis]; then [yes_or_no],
    [Storage.append_transaction] over a model of the files,
    [export_filters] and [_chart_basis]. The menu loop of [main] and the
    matplotlib charts are not modelled.

    Conventions.
    - Python exceptions are the [Raise] results of an error monad; code that
      mutates [tracker.transactions] runs in a state-and-error monad whose
      state is the tracker.
    - A [dict] is an association list in insertion order with unique keys,
      as Python's dict iterates; [sorted] is a stable sort.
    - An amount is whatever number the caller stores in a [Transaction]
      (a float on both paths of [main] and [Storage]); the operations used
      on it are collected in the class [Amount], with the binary64 and the
      int instance given below.
    - A [str] is a Rocq [string]: text is ASCII.
    - What [strftime] writes for a year below 1000 depends on the C
      library; the class [Libc] holds that choice, and the properties hold
      for either. *)

From Stdlib Require Import ZArith List String Ascii Bool Lia.
From Stdlib Require Import Permutation Sorted DecimalString Floats.
Import ListNotations.

Local Open Scope string_scope.
Local Open Scope list_scope.
Local Open Scope Z_scope.

(* ================================================================== *)
(** * Exceptions and results *)

Inductive exn : Type :=
| ValueError
| IndexError
| StopIteration
| FileNotFoundError
| AttributeError.

Inductive result (X : Type) : Type :=
| Ok (x : X)
| Raise (e : exn).

Arguments Ok {X} x.
Arguments Raise {X} e.

Definition rbind {X Y} (c : result X) (k : X -> result Y) : result Y :=
  match c with
  | Ok x => k x
  | Raise e => Raise e
  end.

Definition of_option {X} (e : exn) (o : option X) : result X :=
  match o with
  | Some x => Ok x
  | None => Raise e
  end.

(** [for x in l: s = body s x], stopping at the first exception. *)
Fixpoint for_each {X S} (body : S -> X -> result S) (l : list X) (s : S)
  : result S :=
  match l with
  | [] => Ok s
  | x :: rest => rbind (body s x) (for_each body rest)
  end.

(* ================================================================== *)
(** * Strings *)

Definition is_upper (c : ascii) : bool :=
  ((65 <=? nat_of_ascii c) && (nat_of_ascii c <=? 90))%nat.

Definition lower_ascii (c : ascii) : ascii :=
  if is_upper c then ascii_of_nat (nat_of_ascii c + 32) else c.

(** [str.lower()]. *)
Fixpoint lower (s : string) : string :=
  match s with
  | EmptyString => EmptyString
  | String c rest => String (lower_ascii c) (lower rest)
  end.

(** The characters [str.strip()] removes: tab to carriage return, the four
    separators 0x1c-0x1f and the space. *)
Definition is_space (c : ascii) : bool :=
  let n := nat_of_ascii c in
  (((9 <=? n) && (n <=? 13)) || ((28 <=? n) && (n <=? 32)))%nat.

Fixpoint lstrip (s : string) : string :=
  match s with
  | EmptyString => EmptyString
  | String c rest => if is_space c then lstrip rest else s
  end.

Fixpoint rstrip (s : string) : string :=
  match s with
  | EmptyString => EmptyString
  | String c rest =>
      match rstrip rest with
      | EmptyString => if is_space c then EmptyString else String c EmptyString
      | r => String c r
      end
  end.

(** [str.strip()]. *)
Definition strip (s : string) : string := rstrip (lstrip s).

(** [s.endswith(suffix)]. *)
Definition endswith (s suffix : string) : bool :=
  let n := String.length s in
  let k := String.length suffix in
  (k <=? n)%nat && String.eqb (substring (n - k) k s) suffix.

(** [str(n)] for an int. *)
Definition str_of_int (n : Z) : string :=
  NilZero.string_of_int (Z.to_int n).

(* ================================================================== *)
(** * Dates *)

(** A [datetime] as [strptime] with the format [%Y-%m-%d] builds it: the
    time of day is midnight and is left out. *)
Record datetime : Type := mkDate {
  year : Z;
  month : Z;
  day : Z
}.

Definition date_eqb (a b : datetime) : bool :=
  (year a =? year b) && (month a =? month b) && (day a =? day b).

(** [a <= b] on datetimes: lexicographic on (year, month, day). *)
Definition date_leb (a b : datetime) : bool :=
  (year a <? year b)
  || ((year a =? year b)
      && ((month a <? month b)
          || ((month a =? month b) && (day a <=? day b)))).

Definition is_leap (y : Z) : bool :=
  (y mod 4 =? 0) && (negb (y mod 100 =? 0) || (y mod 400 =? 0)).

Definition days_in_month (y m : Z) : Z :=
  if m =? 2 then (if is_leap y then 29 else 28)
  else if (m =? 4) || (m =? 6) || (m =? 9) || (m =? 11) then 30
  else 31.

Definition valid_date (d : datetime) : bool :=
  (1 <=? year d) && (year d <=? 9999)
  && (1 <=? month d) && (month d <=? 12)
  && (1 <=? day d) && (day d <=? days_in_month (year d) (month d)).

Definition digit_of (c : ascii) : option Z :=
  let n := nat_of_ascii c in
  if ((48 <=? n) && (n <=? 57))%nat then Some (Z.of_nat n - 48) else None.

(** The directive [%m]: the alternatives [1[0-2]], [0[1-9]], [[1-9]], each
    followed by the [-] of the format. Returns the month and what follows
    the [-]. *)
Definition parse_month (l : list ascii) : option (Z * list ascii) :=
  match l with
  | c1 :: "-"%char :: rest =>
      match digit_of c1 with
      | Some d => if 1 <=? d then Some (d, rest) else None
      | None => None
      end
  | c1 :: c2 :: "-"%char :: rest =>
      match digit_of c1, digit_of c2 with
      | Some 1, Some d => if d <=? 2 then Some (10 + d, rest) else None
      | Some 0, Some d => if 1 <=? d then Some (d, rest) else None
      | _, _ => None
      end
  | _ => None
  end.

(** The directive [%d] at the end of the string: [3[01]], [[12]\d],
    [0[1-9]], [[1-9]] or a space and [[1-9]]. *)
Definition parse_day (l : list ascii) : option Z :=
  match l with
  | [c1] =>
      match digit_of c1 with
      | Some d => if 1 <=? d then Some d else None
      | None => None
      end
  | [c1; c2] =>
      match digit_of c1, digit_of c2 with
      | Some 3, Some d => if d <=? 1 then Some (30 + d) else None
      | Some 1, Some d => Some (10 + d)
      | Some 2, Some d => Some (20 + d)
      | Some 0, Some d => if 1 <=? d then Some d else None
      | None, Some d =>
          if Ascii.eqb c1 " "%char && (1 <=? d) then Some d else None
      | _, _ => None
      end
  | _ => None
  end.

(** [datetime.strptime(s, "%Y-%m-%d")]; [None] is its ValueError. *)
Definition strptime (s : string) : option datetime :=
  match list_ascii_of_string s with
  | y1 :: y2 :: y3 :: y4 :: "-"%char :: rest =>
      match digit_of y1, digit_of y2, digit_of y3, digit_of y4 with
      | Some a, Some b, Some c, Some d =>
          match parse_month rest with
          | Some (m, rest') =>
              match parse_day rest' with
              | Some dd =>
                  let r := mkDate (1000 * a + 100 * b + 10 * c + d) m dd in
                  if valid_date r then Some r else None
              | None => None
              end
          | None => None
          end
      | _, _, _, _ => None
      end
  | _ => None
  end.

Definition month_names : list string :=
  [""; "January"; "February"; "March"; "April"; "May"; "June"; "July";
   "August"; "September"; "October"; "November"; "December"].

(** [calendar.month_name[m]] for the month of a datetime (1 to 12). *)
Definition month_name (m : Z) : string :=
  nth (Z.to_nat m) month_names "".

(* ================================================================== *)
(** * Keys, [sorted] and dicts *)

(** What a dict key must offer: [==] for the lookup and [<=] for
    [sorted]. *)
Class Key (K : Type) : Type := {
  keqb : K -> K -> bool;
  kleb : K -> K -> bool
}.

(** A (year, month) tuple of ints. *)
Definition MonthKey : Type := (Z * Z)%type.

#[export] Instance MonthKey_Key : Key MonthKey := {
  keqb a b := (fst a =? fst b) && (snd a =? snd b);
  kleb a b := (fst a <? fst b) || ((fst a =? fst b) && (snd a <=? snd b))
}.

#[export] Instance string_Key : Key string := {
  keqb := String.eqb;
  kleb := String.leb
}.

(** A tuple compares by its first component, then by its second. *)
#[export] Instance pair_Key {K1 K2} `{Key K1} `{Key K2} : Key (K1 * K2) := {
  keqb a b := keqb (fst a) (fst b) && keqb (snd a) (snd b);
  kleb a b :=
    if keqb (fst a) (fst b) then kleb (snd a) (snd b)
    else kleb (fst a) (fst b)
}.

Section Sorted.
Context {X K : Type}.
Variable leb : K -> K -> bool.
Variable key : X -> K.

(** [x] goes in front of the first element whose key is not below its
    own, so elements with equal keys keep their order. *)
Fixpoint insert_by (x : X) (l : list X) : list X :=
  match l with
  | [] => [x]
  | y :: rest =>
      if leb (key x) (key y) then x :: l else y :: insert_by x rest
  end.

(** [sorted(l, key=key)]: a stable sort. *)
Fixpoint sorted_by (l : list X) : list X :=
  match l with
  | [] => []
  | x :: rest => insert_by x (sorted_by rest)
  end.
End Sorted.

Definition dict (K V : Type) : Type := list (K * V).

Section Dict.
Context {K V : Type} `{Key K}.

(** [d.get(k)]. *)
Fixpoint dict_get (k : K) (d : dict K V) : option V :=
  match d with
  | [] => None
  | (k', v) :: rest => if keqb k k' then Some v else dict_get k rest
  end.

(** [k in d]. *)
Definition dict_mem (k : K) (d : dict K V) : bool :=
  match dict_get k d with
  | Some _ => true
  | None => false
  end.

(** [d[k] = v]: an existing key keeps its place, a new one goes last. *)
Fixpoint dict_set (k : K) (v : V) (d : dict K V) : dict K V :=
  match d with
  | [] => [(k, v)]
  | (k', v') :: rest =>
      if keqb k k' then (k', v) :: rest else (k', v') :: dict_set k v rest
  end.

Definition keys (d : dict K V) : list K := map fst d.
Definition values (d : dict K V) : list V := map snd d.

(** [dict(sorted(d.items()))]. The items are (key, value) tuples; the keys
    of a dict are pairwise different, so the comparison of two items is
    decided by their keys. *)
Definition sorted_items (d : dict K V) : dict K V :=
  sorted_by kleb fst d.
End Dict.

(* ================================================================== *)
(** * Amounts *)

(** The operations the program applies to an amount: the int literal [0]
    the accumulators start from, [+], [-] and the format [f"{x:.2f}"]. *)
Class Amount (A : Type) : Type := {
  azero : A;
  aadd : A -> A -> A;
  asub : A -> A -> A;
  fmt2 : A -> string
}.

(** ** Python floats: binary64, round to nearest even *)

(** [n / d] rounded to the nearest integer, ties to the even one
    ([0 <= n], [0 < d]). *)
Definition round_half_even (n d : Z) : Z :=
  let q := n / d in
  let r := n mod d in
  if 2 * r <? d then q
  else if d <? 2 * r then q + 1
  else if Z.even q then q else q + 1.

(** The hundredths in [m * 2^e], correctly rounded. *)
Definition hundredths (m : positive) (e : Z) : Z :=
  if 0 <=? e then Z.pos m * 2 ^ e * 100
  else round_half_even (Z.pos m * 100) (2 ^ (- e)).

Definition two_digits (n : Z) : string :=
  ((if (n <? 10)%Z then "0" else "") ++ str_of_int n)%string.

Definition fixed2 (negative : bool) (h : Z) : string :=
  ((if negative then "-" else "") ++ str_of_int (h / 100)%Z ++ "."
   ++ two_digits (h mod 100)%Z)%string.

(** [f"{x:.2f}"] for a float: the decimal expansion of the exact binary
    value, correctly rounded to two places. *)
Definition fmt2_float (x : float) : string :=
  match Prim2SF x with
  | S754_zero s => fixed2 s 0
  | S754_infinity s => ((if s then "-" else "") ++ "inf")%string
  | S754_nan => "nan"
  | S754_finite s m e => fixed2 s (hundredths m e)
  end.

#[export] Instance float_Amount : Amount float := {
  azero := 0%float;
  aadd := PrimFloat.add;
  asub := PrimFloat.sub;
  fmt2 := fmt2_float
}.

(** ** Python ints *)

(** [float(n)] for an int: the nearest binary64. *)
Definition float_of_int (n : Z) : float :=
  SF2Prim (binary_normalize prec emax n 0 false).

(** Int amounts add and subtract exactly; the format goes through
    [float], as Python's does for an int within the range of a float
    (beyond it Python raises OverflowError). *)
#[export] Instance int_Amount : Amount Z := {
  azero := 0;
  aadd := Z.add;
  asub := Z.sub;
  fmt2 n := fmt2_float (float_of_int n)
}.

(* ================================================================== *)
(** * Transaction *)

Record Transaction (A : Type) : Type := mkTransaction {
  date : datetime;
  txn_type : string;
  amount : A;
  category : string
}.

Arguments mkTransaction {A} date txn_type amount category.
Arguments date {A} t.
Arguments txn_type {A} t.
Arguments amount {A} t.
Arguments category {A} t.

(** [Transaction.__init__]: the date string is parsed and the type is
    stripped and lower-cased; amount and category are stored as given. *)
Definition Transaction_init {A} (date_str type_str : string) (amount : A)
    (category : string) : result (Transaction A) :=
  rbind (of_option ValueError (strptime date_str)) (fun d =>
  Ok (mkTransaction d (lower (strip type_str)) amount category)).

(* ================================================================== *)
(** * FinanceTracker *)

Record FinanceTracker (A : Type) : Type := mkTracker {
  transactions : list (Transaction A)
}.

Arguments mkTracker {A} transactions.
Arguments transactions {A} _.

Section Tracker.
Context {A : Type} `{Amount A}.

Definition add_transaction (self : FinanceTracker A)
    (transaction : Transaction A) : FinanceTracker A :=
  mkTracker (transactions self ++ [transaction]).

(** One turn of the loop of [calc_current_balance] on the pair
    (income, expense). *)
Definition balance_step (acc : A * A) (transaction : Transaction A)
  : A * A :=
  let '(income, expense) := acc in
  if String.eqb (txn_type transaction) "income"
  then (aadd income (amount transaction), expense)
  else if String.eqb (txn_type transaction) "expense"
  then (income, aadd expense (amount transaction))
  else (income, expense).

Definition calc_current_balance (self : FinanceTracker A) : string :=
  let '(income, expense) :=
    fold_left balance_step (transactions self) (azero, azero) in
  fmt2 (asub income expense).

(** The loop shared by [get_total_income] and [get_total_expenses]: the
    sum, from [0], of the amounts whose type is [kind]. *)
Definition total_of (kind : string) (txns : list (Transaction A)) : A :=
  fold_left
    (fun acc transaction =>
       if String.eqb (txn_type transaction) kind
       then aadd acc (amount transaction) else acc)
    txns azero.

Definition get_total_income (self : FinanceTracker A) : string :=
  fmt2 (total_of "income" (transactions self)).

Definition get_total_expenses (self : FinanceTracker A) : string :=
  fmt2 (total_of "expense" (transactions self)).

Definition category_filter (self : FinanceTracker A) (category_arg : string)
  : list (Transaction A) :=
  fold_left
    (fun category_list transaction =>
       if String.eqb (category transaction) category_arg
       then category_list ++ [transaction] else category_list)
    (transactions self) [].

(** The date test the three date filters share. Both strings are parsed
    anew for every transaction the test is applied to. *)
Definition date_test (date1 : string) (date2 : option string)
    (date_list : list (Transaction A)) (transaction : Transaction A)
  : result (list (Transaction A)) :=
  match date2 with
  | None =>
      rbind (of_option ValueError (strptime date1)) (fun d =>
      Ok (if date_eqb (date transaction) d
          then date_list ++ [transaction] else date_list))
  | Some date2 =>
      rbind (of_option ValueError (strptime date1)) (fun start =>
      rbind (of_option ValueError (strptime date2)) (fun end_ =>
      Ok (if date_leb start (date transaction)
             && date_leb (date transaction) end_
          then date_list ++ [transaction] else date_list)))
  end.

Definition sorted_by_date (l : list (Transaction A))
  : list (Transaction A) :=
  sorted_by date_leb date l.

Definition date_filter (self : FinanceTracker A) (date1 : string)
    (date2 : option string) : result (list (Transaction A)) :=
  rbind (for_each (date_test date1 date2) (transactions self) [])
    (fun date_list => Ok (sorted_by_date date_list)).

Definition _date_filter_by_type (self : FinanceTracker A) (date1 : string)
    (date2 : option string) (filter : string)
  : result (list (Transaction A)) :=
  rbind
    (for_each
       (fun date_list transaction =>
          if String.eqb (txn_type transaction) filter
          then date_test date1 date2 date_list transaction
          else Ok date_list)
       (transactions self) [])
    (fun date_list => Ok (sorted_by_date date_list)).

Definition date_income_filter (self : FinanceTracker A) (date1 : string)
    (date2 : option string) : result (list (Transaction A)) :=
  _date_filter_by_type self date1 date2 "income".

Definition date_expense_filter (self : FinanceTracker A) (date1 : string)
    (date2 : option string) : result (list (Transaction A)) :=
  _date_filter_by_type self date1 date2 "expense".

Definition date_category_filter (self : FinanceTracker A) (date1 : string)
    (date2 : option string) (category_arg : string)
  : result (list (Transaction A)) :=
  rbind
    (for_each
       (fun date_list transaction =>
          if String.eqb (category transaction) category_arg
          then date_test date1 date2 date_list transaction
          else Ok date_list)
       (transactions self) [])
    (fun date_list => Ok (sorted_by_date date_list)).
End Tracker.

(* ================================================================== *)
(** * The state-and-error monad of the tracker *)

(** A computation that reads and replaces the tracker and may raise. *)
Definition Run (A X : Type) : Type :=
  FinanceTracker A -> result (X * FinanceTracker A).

Definition ret {A X} (x : X) : Run A X := fun tr => Ok (x, tr).

Definition bind {A X Y} (c : Run A X) (k : X -> Run A Y) : Run A Y :=
  fun tr =>
    match c tr with
    | Ok (x, tr') => k x tr'
    | Raise e => Raise e
    end.

Declare Scope run_scope.
Delimit Scope run_scope with run.
Notation "x <- c ;; k" := (bind c (fun x => k))
  (at level 61, c at next level, right associativity) : run_scope.
Notation "c ;;; k" := (bind c (fun _ => k))
  (at level 61, right associativity) : run_scope.

(** [self.tracker.transactions]. *)
Definition get_transactions {A} : Run A (list (Transaction A)) :=
  fun tr => Ok (transactions tr, tr).

(* ================================================================== *)
(** * Storage *)

(** What [Storage.read_transaction] takes from outside the program: the
    rows [csv.reader] yields for a file opened with a delimiter ([None]
    when [open] fails), and [round(float(s), 2)] ([None] when [float]
    raises ValueError). *)
Record World (A : Type) : Type := mkWorld {
  csv_rows : string -> ascii -> option (list (list string));
  float_round2 : string -> option A
}.

Arguments mkWorld {A} csv_rows float_round2.
Arguments csv_rows {A} w filename delimiter.
Arguments float_round2 {A} w s.

Section Storage.
Context {A : Type}.
Variable w : World A.

(** [line[i]]. *)
Definition item (line : list string) (i : nat) : result string :=
  of_option IndexError (nth_error line i).

(** The body of the loop over the rows: build the Transaction and add it
    to the tracker. *)
Definition read_line (tr : FinanceTracker A) (line : list string)
  : result (FinanceTracker A) :=
  rbind (item line 0) (fun date_str =>
  rbind (item line 1) (fun type_str =>
  rbind (item line 2) (fun amount_str =>
  rbind (of_option ValueError (float_round2 w amount_str)) (fun amount =>
  rbind (item line 3) (fun category =>
  rbind (Transaction_init date_str type_str amount category) (fun read_txn =>
  Ok (add_transaction tr read_txn))))))).

Definition read_delimited (filename : string) (delimiter : ascii)
  : Run A unit :=
  fun tr =>
    match csv_rows w filename delimiter with
    | None => Raise FileNotFoundError
    | Some [] => Raise StopIteration
    | Some (_ :: lines) =>
        rbind (for_each read_line lines tr) (fun tr' => Ok (tt, tr'))
    end.

(** [Storage.read_transaction]; the file name of a report built without a
    file is [None]. *)
Definition read_transaction (filename : option string) : Run A unit :=
  match filename with
  | None => fun _ => Raise AttributeError
  | Some filename =>
      if endswith (lower filename) ".csv"
      then read_delimited filename ","%char
      else if endswith (lower filename) ".tsv"
      then read_delimited filename "009"%char
      else ret tt
  end.
End Storage.

(* ================================================================== *)
(** * ReportingAndAnalysis *)

(** The report object; its [tracker] is the state of the monad. *)
Record ReportingAndAnalysis : Type := mkReport {
  filename : option string;
  use_file : bool
}.

(** A cell handed to the csv writer: a string or an amount. *)
Inductive cell (A : Type) : Type :=
| Str (s : string)
| Num (a : A).

Arguments Str {A} s.
Arguments Num {A} a.

Section Report.
Context {A : Type} `{Amount A}.
Variable w : World A.

Definition _sync_transactions (self : ReportingAndAnalysis) : Run A unit :=
  if use_file self
  then fun _ => read_transaction w (filename self) (mkTracker [])
  else ret tt.

(** [d[k] += a] when [k] is in [d], [d[k] = a] otherwise. *)
Definition accumulate {K} `{Key K} (k : K) (a : A) (d : dict K A)
  : dict K A :=
  match dict_get k d with
  | Some total => dict_set k (aadd total a) d
  | None => dict_set k a d
  end.

(** The loop of [_monthly_basis]. *)
Definition monthly_basis_loop (kind : string)
    (all_txn : list (Transaction A)) : dict MonthKey A :=
  fold_left
    (fun months_dict txn =>
       let tuple_date := (year (date txn), month (date txn)) in
       if String.eqb (txn_type txn) kind
       then accumulate tuple_date (amount txn) months_dict
       else months_dict)
    all_txn [].

Definition _monthly_basis (self : ReportingAndAnalysis) (kind : string)
  : Run A (dict MonthKey A) :=
  (_sync_transactions self ;;;
   all_txn <- get_transactions ;;
   ret (sorted_items (monthly_basis_loop kind all_txn)))%run.

Definition monthly_income (self : ReportingAndAnalysis)
  : Run A (dict MonthKey A) :=
  _monthly_basis self "income".

Definition monthly_expenses (self : ReportingAndAnalysis)
  : Run A (dict MonthKey A) :=
  _monthly_basis self "expense".

(** The two nested loops of [monthly_net_savings]. *)
Definition net_savings_loop (income_dict expenses_dict : dict MonthKey A)
  : dict MonthKey A :=
  fold_left
    (fun months_dict item1 =>
       let '(tuple_1, income) := item1 in
       fold_left
         (fun months_dict item2 =>
            let '(tuple_2, expense) := item2 in
            if keqb tuple_1 tuple_2
            then dict_set tuple_1 (asub income expense) months_dict
            else months_dict)
         expenses_dict months_dict)
    income_dict [].

Definition monthly_net_savings (self : ReportingAndAnalysis)
  : Run A (dict MonthKey A) :=
  (income_dict <- monthly_income self ;;
   expenses_dict <- monthly_expenses self ;;
   ret (sorted_items (net_savings_loop income_dict expenses_dict)))%run.

(** The loop of [_monthly_categories_basis]. *)
Definition monthly_categories_loop (kind : string)
    (all_txn : list (Transaction A)) : dict (MonthKey * string) A :=
  fold_left
    (fun months_dict txn =>
       let tuple_1 := (year (date txn), month (date txn)) in
       let tuple_2 := (tuple_1, category txn) in
       if String.eqb (txn_type txn) kind
       then accumulate tuple_2 (amount txn) months_dict
       else months_dict)
    all_txn [].

Definition _monthly_categories_basis (self : ReportingAndAnalysis)
    (kind : string) : Run A (dict (MonthKey * string) A) :=
  (_sync_transactions self ;;;
   all_txn <- get_transactions ;;
   ret (sorted_items (monthly_categories_loop kind all_txn)))%run.

Definition monthly_income_categories (self : ReportingAndAnalysis)
  : Run A (dict (MonthKey * string) A) :=
  _monthly_categories_basis self "income".

Definition monthly_expenses_categories (self : ReportingAndAnalysis)
  : Run A (dict (MonthKey * string) A) :=
  _monthly_categories_basis self "expense".

(** The loop of [_totals_each_txn_type_category]. *)
Definition totals_loop (kind : string) (all_txn : list (Transaction A))
  : dict string A :=
  fold_left
    (fun txn_dict txn =>
       if String.eqb (txn_type txn) kind
       then accumulate (category txn) (amount txn) txn_dict
       else txn_dict)
    all_txn [].

Definition _totals_each_txn_type_category (self : ReportingAndAnalysis)
    (kind : string) : Run A (dict string A) :=
  (_sync_transactions self ;;;
   all_txn <- get_transactions ;;
   ret (sorted_items (totals_loop kind all_txn)))%run.

Definition totals_each_income_category (self : ReportingAndAnalysis)
  : Run A (dict string A) :=
  _totals_each_txn_type_category self "income".

Definition totals_each_expense_category (self : ReportingAndAnalysis)
  : Run A (dict string A) :=
  _totals_each_txn_type_category self "expense".
End Report.

(** ** The analysis export *)

Definition row (A : Type) : Type := list (cell A).

(** [f"{calendar.month_name[tuple_month]} {tuple_year}"]. *)
Definition month_year (tuple_date : MonthKey) : string :=
  (month_name (snd tuple_date) ++ " " ++ str_of_int (fst tuple_date))%string.

Section ExportAnalysis.
Context {A : Type} `{Amount A}.
Variable w : World A.

(** [csv_writer.writerow(r)]: the rows written so far, then [r]. *)
Definition writerow (out : list (row A)) (r : row A) : list (row A) :=
  out ++ [r].

(** The rows [export_analysis] writes to [analysis.tsv], in the order of
    its [writerow] calls; opening the file is taken to succeed. *)
Definition export_analysis (self : ReportingAndAnalysis)
  : Run A (list (row A)) :=
  (_sync_transactions w self ;;;
   monthly_net_savings_txns <- monthly_net_savings w self ;;
   monthly_income_txns <- monthly_income w self ;;
   monthly_expenses_txns <- monthly_expenses w self ;;
   monthly_income_categories_txns <- monthly_income_categories w self ;;
   monthly_expenses_categories_txns <- monthly_expenses_categories w self ;;
   totals_each_income_category_txns <- totals_each_income_category w self ;;
   totals_each_expense_category_txns <- totals_each_expense_category w self ;;
   fun tracker =>
     let out := [] in
     let out :=
       writerow out [Str "Current Balance:";
                     Str (calc_current_balance tracker)] in
     let out :=
       writerow out [Str "Total Income:"; Str (get_total_income tracker)] in
     let out :=
       writerow out [Str "Total Expenses:";
                     Str (get_total_expenses tracker)] in
     let out := writerow out [] in
     let out := writerow out [Str "Monthly Net Savings"] in
     let out :=
       fold_left
         (fun out item =>
            let '(tuple_date, total) := item in
            writerow out
              [Str (month_year tuple_date ++ ":")%string; Num total])
         monthly_net_savings_txns out in
     let out := writerow out [] in
     let out := writerow out [Str "Monthly Income"] in
     let out :=
       fold_left
         (fun out item =>
            let '(tuple_date, total) := item in
            writerow out
              [Str (month_year tuple_date ++ ":")%string; Num total])
         monthly_income_txns out in
     let out := writerow out [] in
     let out := writerow out [Str "Monthly Expenses"] in
     let out :=
       fold_left
         (fun out item =>
            let '(tuple_date, total) := item in
            writerow out [Str (month_year tuple_date); Num total])
         monthly_expenses_txns out in
     let out := writerow out [] in
     let out := writerow out [Str "Totals for Each Income Category"] in
     let out :=
       fold_left
         (fun out item =>
            let '(cat, total) := item in
            writerow out [Str cat; Str (fmt2 total)])
         totals_each_income_category_txns out in
     let out := writerow out [] in
     let out := writerow out [Str "Totals for Each Expense Category"] in
     let out :=
       fold_left
         (fun out item =>
            let '(cat, total) := item in
            writerow out [Str cat; Str (fmt2 total)])
         totals_each_expense_category_txns out in
     let out := writerow out [] in
     let out := writerow out [Str "Monthly Income by Category"] in
     let out :=
       fold_left
         (fun out item =>
            let '(combined_tuple, total) := item in
            writerow out
              [Str (snd combined_tuple);
               Str (month_year (fst combined_tuple)); Num total])
         monthly_income_categories_txns out in
     let out := writerow out [] in
     let out := writerow out [Str "Monthly Expenses by Category"] in
     let out :=
       fold_left
         (fun out item =>
            let '(combined_tuple, total) := item in
            writerow out
              [Str (snd combined_tuple);
               Str (month_year (fst combined_tuple)); Num total])
         monthly_expenses_categories_txns out in
     Ok (out, tracker))%run.
End ExportAnalysis.

(* ================================================================== *)
(** * The rest of the program *)

(** ** [strftime] and [capitalize] *)

Definition digit_char (d : Z) : ascii := ascii_of_nat (48 + Z.to_nat d).

Definition pad2 (n : Z) : list ascii :=
  [digit_char (n / 10); digit_char (n mod 10)].

Definition pad4 (n : Z) : list ascii :=
  [digit_char (n / 1000); digit_char (n / 100 mod 10);
   digit_char (n / 10 mod 10); digit_char (n mod 10)].

(** The C library under [strftime]. From the year 1000 on [%Y] is the
    four digits of the year everywhere; below, the library decides: some
    zero-fill it to four digits ("0999"), glibc writes the bare number
    ("999"). *)
Class Libc : Type := mkLibc { zero_fill_year : bool }.

(** [%Y] for the years of a [datetime], 1 to 9999. *)
Definition year_chars {libc : Libc} (y : Z) : list ascii :=
  if zero_fill_year || (1000 <=? y) then pad4 y
  else if 100 <=? y
  then [digit_char (y / 100); digit_char (y / 10 mod 10);
        digit_char (y mod 10)]
  else if 10 <=? y then pad2 y
  else [digit_char y].

(** [d.strftime("%Y-%m-%d")]: the year as the library writes it, month and
    day on two digits. *)
Definition strftime {libc : Libc} (d : datetime) : string :=
  string_of_list_ascii
    (year_chars (year d) ++ "-"%char :: pad2 (month d)
     ++ "-"%char :: pad2 (day d)).

Definition is_lower (c : ascii) : bool :=
  ((97 <=? nat_of_ascii c) && (nat_of_ascii c <=? 122))%nat.

Definition upper_ascii (c : ascii) : ascii :=
  if is_lower c then ascii_of_nat (nat_of_ascii c - 32) else c.

(** [str.capitalize()]: the first character upper-cased, the others
    lower-cased. *)
Definition capitalize (s : string) : string :=
  match s with
  | EmptyString => EmptyString
  | String c rest => String (upper_ascii c) (lower rest)
  end.

(** ** [yes_or_no] *)

(** The terminal: the lines still to be typed and what was written, the
    oldest first. *)
Record Console : Type := mkConsole {
  stdin : list string;
  stdout : list string
}.

(** [yes_or_no(prompt)]: one turn of the loop for each line typed.
    [None] is the EOFError of [input] when no line is left. *)
Fixpoint yes_or_no_loop (prompt : string) (lines : list string)
    (out : list string) : option bool * Console :=
  match lines with
  | [] => (None, mkConsole [] (out ++ [(prompt ++ ", yes or no? ")%string]))
  | user_input :: rest =>
      let out := out ++ [(prompt ++ ", yes or no? ")%string] in
      if String.eqb (lower user_input) "yes"
      then (Some true, mkConsole rest out)
      else if String.eqb (lower user_input) "no"
      then (Some false, mkConsole rest out)
      else yes_or_no_loop prompt rest (out ++ ["Invalid response"])
  end.

Definition yes_or_no (prompt : string) (console : Console)
  : option bool * Console :=
  yes_or_no_loop prompt (stdin console) (stdout console).

(** ** [Storage.append_transaction] *)

(** The files of the program: for a name, the rows [csv.reader] yields
    from it ([None]: no such file). A row written by [csv.writer] is read
    back as written when the delimiter is the same, which the extension of
    the name settles, and when the file ends with the end of a row, as an
    empty file and a file written by [csv.writer] do. *)
Definition FileSystem : Type := string -> option (list (list string)).

Definition titlenames : list string :=
  ["Date"; "Txn Type"; "Amount"; "Category"].

(** The four cells written for a transaction, here and by
    [export_filters]. *)
Definition txn_cells {A} `{Amount A} {libc : Libc}
    (transaction : Transaction A)
  : list string :=
  [strftime (date transaction); txn_type transaction;
   fmt2 (amount transaction); category transaction].

(** The file after its rows are appended; it is created when missing. *)
Definition append_rows (fs : FileSystem) (filename : string)
    (rows : list (list string)) : FileSystem :=
  fun name =>
    if String.eqb name filename
    then Some (match fs filename with
               | Some old => old ++ rows
               | None => rows
               end)
    else fs name.

(** [Storage.append_transaction]: the header row first when the file is
    new; nothing is written for a name that ends neither in [.csv] nor in
    [.tsv]. Opening the file is taken to succeed. *)
Definition append_transaction {A} `{Amount A} {libc : Libc}
    (fs : FileSystem) (filename : string) (transaction : Transaction A)
  : FileSystem :=
  let file_is_new :=
    match fs filename with
    | Some _ => false
    | None => true
    end in
  if endswith (lower filename) ".csv" || endswith (lower filename) ".tsv"
  then append_rows fs filename
         ((if file_is_new then [titlenames] else [])
          ++ [txn_cells transaction])
  else fs.

(** The world in which the files are those of [fs]. *)
Definition world_of {A} (fs : FileSystem) (to_amount : string -> option A)
  : World A :=
  mkWorld (fun name _ => fs name) to_amount.

(** ** [export_filters] and [_chart_basis] *)

Section ExportFilters.
Context {A : Type} `{Amount A} {libc : Libc}.
Variable w : World A.

(** A filter of the tracker run in the monad: its exception is raised, its
    list returned. *)
Definition run_filter
    (f : FinanceTracker A -> result (list (Transaction A)))
  : Run A (list (Transaction A)) :=
  fun tracker =>
    match f tracker with
    | Ok l => Ok (l, tracker)
    | Raise e => Raise e
    end.

Definition write_txns (out : list (row A)) (txns : list (Transaction A))
  : list (row A) :=
  fold_left (fun out txn => writerow out (map Str (txn_cells txn))) txns out.

(** The rows [export_filters] writes to [filter.tsv]; the five filters run
    before the file is opened. *)
Definition export_filters (self : ReportingAndAnalysis)
    (category_arg date1 : string) (date2 : option string)
  : Run A (list (row A)) :=
  (_sync_transactions w self ;;;
   category_filter_txns <-
     run_filter (fun tracker => Ok (category_filter tracker category_arg)) ;;
   date_filter_txns <-
     run_filter (fun tracker => date_filter tracker date1 date2) ;;
   date_income_filter_txns <-
     run_filter (fun tracker => date_income_filter tracker date1 date2) ;;
   date_expense_filter_txns <-
     run_filter (fun tracker => date_expense_filter tracker date1 date2) ;;
   date_category_filter_txns <-
     run_filter
       (fun tracker =>
          date_category_filter tracker date1 date2 category_arg) ;;
   fun tracker =>
     let out := [] in
     let out :=
       writerow out
         [Str ("Transactions filter: " ++ category_arg)%string] in
     let out := write_txns out category_filter_txns in
     let out := writerow out [] in
     let out :=
       match date2 with
       | None => writerow out [Str ("Transactions on " ++ date1)%string]
       | Some date2 =>
           writerow out
             [Str ("Transactions from " ++ date1 ++ " to " ++ date2)%string]
       end in
     let out := write_txns out date_filter_txns in
     let out := writerow out [] in
     let out :=
       match date2 with
       | None =>
           writerow out [Str ("Income transactions on " ++ date1)%string]
       | Some date2 =>
           writerow out
             [Str ("Income transactions from " ++ date1 ++ " to "
                   ++ date2)%string]
       end in
     let out := write_txns out date_income_filter_txns in
     let out := writerow out [] in
     let out :=
       match date2 with
       | None =>
           writerow out [Str ("Expense transactions on " ++ date1)%string]
       | Some date2 =>
           writerow out
             [Str ("Expense transactions from " ++ date1 ++ " to "
                   ++ date2)%string]
       end in
     let out := write_txns out date_expense_filter_txns in
     let out := writerow out [] in
     let capital_category := capitalize category_arg in
     let out :=
       match date2 with
       | None =>
           writerow out
             [Str (capital_category ++ " transactions on " ++ date1)%string]
       | Some date2 =>
           writerow out
             [Str (capital_category ++ " transactions from " ++ date1
                   ++ " to " ++ date2)%string]
       end in
     let out := write_txns out date_category_filter_txns in
     Ok (out, tracker))%run.

(** [_chart_basis]: the capitalized categories and their totals, as two
    lists. *)
Definition _chart_basis (method : dict string A) : list string * list A :=
  fold_left
    (fun lists item =>
       let '(category_list, totals_list) := lists in
       let '(cat, total) := item in
       (category_list ++ [capitalize cat], totals_list ++ [total]))
    method ([], []).
End ExportFilters.

(* ================================================================== *)
(** * Vocabulary of the properties *)

(** ** Orders *)

(** [==] decides equality and [<=] is a total, antisymmetric order: what
    ints, strings and tuples of them give. *)
Class KeyLaws (K : Type) `{Key K} : Prop := {
  keqb_eq : forall a b : K, keqb a b = true <-> a = b;
  kleb_total : forall a b : K, kleb a b = true \/ kleb b a = true;
  kleb_antisym : forall a b : K, kleb a b = true -> kleb b a = true -> a = b
}.

(** The order [sorted] establishes between neighbours. *)
Definition key_le {X K} (leb : K -> K -> bool) (key : X -> K) (x y : X)
  : Prop :=
  leb (key x) (key y) = true.

(** Strictly below: in order and different. *)
Definition klt {K} `{Key K} (a b : K) : Prop := kleb a b = true /\ a <> b.

(** (year, month) strictly before (year, month), lexicographically. *)
Definition month_lt (a b : MonthKey) : Prop :=
  fst a < fst b \/ (fst a = fst b /\ snd a < snd b).

(** Strictly before in the order of [str]: code point by code point. *)
Definition string_lt (a b : string) : Prop := String.ltb a b = true.

(** Alphabetical order of the case-normalized strings. *)
Definition case_normalized_le (a b : string) : Prop :=
  String.leb (lower a) (lower b) = true.

(** [a <= b] on dates, as a proposition. *)
Definition date_le (a b : datetime) : Prop :=
  year a < year b
  \/ (year a = year b
      /\ (month a < month b \/ (month a = month b /\ day a <= day b))).

(** Ascending by date. *)
Definition by_date {A} (a b : Transaction A) : Prop :=
  date_le (date a) (date b).

(** ** Date ranges *)

(** The test of the date filters once both strings are parsed: the day
    itself without an end date, the closed range with one. *)
Definition in_range {A} (start : datetime) (stop : option datetime)
    (t : Transaction A) : bool :=
  match stop with
  | None => date_eqb (date t) start
  | Some end_ => date_leb start (date t) && date_leb (date t) end_
  end.

(** The end date as the filters read it: absent, or parsed. *)
Definition parse_end (date2 : option string) : option (option datetime) :=
  match date2 with
  | None => Some None
  | Some s => option_map Some (strptime s)
  end.

(** ** Sums *)

(** Exact addition: what ints have and binary64 floats lack. *)
Class AmountLaws (A : Type) `{Amount A} : Prop := {
  aadd_assoc : forall a b c : A, aadd a (aadd b c) = aadd (aadd a b) c;
  aadd_comm : forall a b : A, aadd a b = aadd b a
}.

(** [sum(d.values())]. *)
Definition sum_values {K A} `{Amount A} (d : dict K A) : A :=
  fold_left aadd (values d) azero.

(** ** The aggregates as functions of the ledger *)

(** The shape shared by the three [_..._basis] methods. *)
Definition synced {A X} (w : World A) (f : list (Transaction A) -> X)
    (self : ReportingAndAnalysis) : Run A X :=
  (_sync_transactions w self ;;;
   all_txn <- get_transactions ;;
   ret (f all_txn))%run.

(** One turn of a grouping loop: the key [kf txn] collects the amounts of
    the transactions of the kind. *)
Definition group_step {A} `{Amount A} {K} `{Key K} (kf : Transaction A -> K)
    (kind : string) (d : dict K A) (txn : Transaction A) : dict K A :=
  if String.eqb (txn_type txn) kind
  then accumulate (kf txn) (amount txn) d else d.

Definition month_of {A} (txn : Transaction A) : MonthKey :=
  (year (date txn), month (date txn)).

(** What [monthly_net_savings] computes from the ledger its first sync
    leaves. *)
Definition net_savings_of {A} `{Amount A} (txns : list (Transaction A))
  : dict MonthKey A :=
  sorted_items
    (net_savings_loop
       (sorted_items (monthly_basis_loop "income" txns))
       (sorted_items (monthly_basis_loop "expense" txns))).

(** ** The layout of the analysis report *)

Section Layout.
Context {A : Type} `{Amount A}.

(** A section of the report: the blank row, the header row, the body. *)
Definition section_rows (title : string) (body : list (row A))
  : list (row A) :=
  [] :: [Str title] :: body.

Definition month_row (label : MonthKey -> string) (item : MonthKey * A)
  : row A :=
  [Str (label (fst item)); Num (snd item)].

Definition category_row (item : string * A) : row A :=
  [Str (fst item); Str (fmt2 (snd item))].

Definition month_category_row (item : (MonthKey * string) * A) : row A :=
  [Str (snd (fst item)); Str (month_year (fst (fst item))); Num (snd item)].

(** The month label followed by a colon. *)
Definition month_year_colon (tuple_date : MonthKey) : string :=
  (month_year tuple_date ++ ":")%string.

(** The report as a list of sections, with the month labels of the three
    monthly sections as parameters. *)
Definition analysis_layout
    (savings_label income_label expenses_label : MonthKey -> string)
    (tracker : FinanceTracker A)
    (net_savings incomes expenses : dict MonthKey A)
    (income_totals expense_totals : dict string A)
    (income_categories expense_categories : dict (MonthKey * string) A)
  : list (row A) :=
  [[Str "Current Balance:"; Str (calc_current_balance tracker)];
   [Str "Total Income:"; Str (get_total_income tracker)];
   [Str "Total Expenses:"; Str (get_total_expenses tracker)]]
  ++ section_rows "Monthly Net Savings"
       (map (month_row savings_label) net_savings)
  ++ section_rows "Monthly Income" (map (month_row income_label) incomes)
  ++ section_rows "Monthly Expenses"
       (map (month_row expenses_label) expenses)
  ++ section_rows "Totals for Each Income Category"
       (map category_row income_totals)
  ++ section_rows "Totals for Each Expense Category"
       (map category_row expense_totals)
  ++ section_rows "Monthly Income by Category"
       (map month_category_row income_categories)
  ++ section_rows "Monthly Expenses by Category"
       (map month_category_row expense_categories).

(** The rows of the export, computed from the ledger the sync leaves. *)
Definition analysis_of (tracker : FinanceTracker A) : list (row A) :=
  let txns := transactions tracker in
  analysis_layout month_year_colon month_year_colon month_year tracker
    (net_savings_of txns)
    (sorted_items (monthly_basis_loop "income" txns))
    (sorted_items (monthly_basis_loop "expense" txns))
    (sorted_items (totals_loop "income" txns))
    (sorted_items (totals_loop "expense" txns))
    (sorted_items (monthly_categories_loop "income" txns))
    (sorted_items (monthly_categories_loop "expense" txns)).
End Layout.

(** ** Concrete ledgers *)

(** A run of the program without a file: there is nothing to read. *)
Definition no_files {A : Type} : World A :=
  mkWorld (fun _ _ => None) (fun _ => None).

(** [ReportingAndAnalysis(None, tracker, use_file=False)]. *)
Definition in_memory : ReportingAndAnalysis := mkReport None false.

Definition salary_jan : Transaction float :=
  mkTransaction (mkDate 2024 1 5) "income" 1000%float "salary".

Definition food_jan : Transaction float :=
  mkTransaction (mkDate 2024 1 10) "expense" 200%float "food".

Definition salary_feb : Transaction float :=
  mkTransaction (mkDate 2024 2 1) "income" 1000%float "salary".

(** The ledger of the first end-to-end scenario of the specification. *)
Definition ledger1 : FinanceTracker float :=
  mkTracker [salary_jan; food_jan; salary_feb].

(** Int amounts: two salaries and a bonus. *)
Definition ledger_int : FinanceTracker Z :=
  mkTracker
    [mkTransaction (mkDate 2024 1 5) "income" 1000 "salary";
     mkTransaction (mkDate 2024 2 5) "income" 500 "salary";
     mkTransaction (mkDate 2024 2 9) "income" 300 "bonus"].

(** One very large income and two of one dollar: above 2^53 a binary64
    float has no odd integers. *)
Definition ledger_big : FinanceTracker float :=
  mkTracker
    [mkTransaction (mkDate 2024 1 5) "income" 1e16%float "a";
     mkTransaction (mkDate 2024 1 6) "income" 1%float "b";
     mkTransaction (mkDate 2024 1 7) "income" 1%float "b"].

(** Amounts below a cent, as [main] takes them from [float(input(...))]:
    the floats nearest to 0.001, 0.004 and 0.03. *)
Definition ledger_small : FinanceTracker float :=
  mkTracker
    [mkTransaction (mkDate 2024 1 5) "income" 0x1.0624dd2f1a9fcp-10%float "a";
     mkTransaction (mkDate 2024 1 6) "income" 0x1.0624dd2f1a9fcp-8%float "b";
     mkTransaction (mkDate 2024 1 7) "income" 0x1.eb851eb851eb8p-6%float "b"].

(** The C library of the runs below: glibc, which does not zero-fill the
    year. *)
Definition glibc : Libc := mkLibc false.

(** A file of one row under its header, as a user may have written it. *)
Definition demo_fs : FileSystem :=
  fun name =>
    if String.eqb name "ledger.csv"
    then Some [titlenames; ["2024-03-01"; " INCOME"; "5.00"; "Zebra"]]
    else None.

(** [round(float(s), 2)] on the two strings the runs below meet. *)
Definition demo_amount (s : string) : option Z :=
  if String.eqb s "5.00" then Some 5
  else if String.eqb s "1000.00" then Some 1000
  else None.

(** [ReportingAndAnalysis("ledger.csv", tracker, use_file=True)]. *)
Definition file_report : ReportingAndAnalysis :=
  mkReport (Some "ledger.csv") true.

Definition salary_int : Transaction Z :=
  mkTransaction (mkDate 2024 1 5) "income" 1000 "salary".

(** Two transactions of one day around one of the day before. *)
Definition ledger_days : FinanceTracker Z :=
  mkTracker
    [mkTransaction (mkDate 2024 1 6) "income" 1 "first";
     mkTransaction (mkDate 2024 1 5) "expense" 2 "rent";
     mkTransaction (mkDate 2024 1 6) "expense" 3 "second"].

(** A rent of the year 999, as [Transaction("0999-01-01", ...)] gives. *)
Definition ledger_old : FinanceTracker float :=
  mkTracker [mkTransaction (mkDate 999 1 1) "expense" 200%float "rent"].

(** Categories as a file may hold them: one capitalized. *)
Definition ledger_case : FinanceTracker float :=
  mkTracker
    [mkTransaction (mkDate 2024 3 1) "income" 5%float "apple";
     mkTransaction (mkDate 2024 3 2) "income" 7%float "Zebra"].

(** ** More vocabulary *)

(** The sum of a list in its order, without a starting value: nothing for
    the empty list. *)
Definition sum_in_order {A} `{Amount A} (l : list A) : option A :=
  match l with
  | [] => None
  | a :: rest => Some (fold_left aadd rest a)
  end.

(** The amounts, in ledger order, of the transactions of a kind whose
    grouping key is [k]. *)
Definition amounts_of {A K} `{Key K} (kf : Transaction A -> K)
    (kind : string) (k : K) (txns : list (Transaction A)) : list A :=
  map amount
    (filter (fun t => String.eqb (txn_type t) kind && keqb (kf t) k) txns).

(** The key of [_monthly_categories_basis]. *)
Definition month_category_of {A} (txn : Transaction A)
  : MonthKey * string :=
  (month_of txn, category txn).

(** (month, category) strictly before (month, category): by month, then by
    category. *)
Definition month_category_lt (a b : MonthKey * string) : Prop :=
  month_lt (fst a) (fst b)
  \/ (fst a = fst b /\ string_lt (snd a) (snd b)).

(** What [Transaction.__init__] establishes: a date of the calendar and a
    type that is stripped and lower-case. *)
Definition well_formed {A} (t : Transaction A) : Prop :=
  valid_date (date t) = true /\ lower (strip (txn_type t)) = txn_type t.

(** Both date strings of a filter parse. *)
Definition dates_parse (date1 : string) (date2 : option string) : bool :=
  match strptime date1, parse_end date2 with
  | Some _, Some _ => true
  | _, _ => false
  end.

(** The transactions dated [d]. *)
Definition dated {A} (d : datetime) (l : list (Transaction A))
  : list (Transaction A) :=
  filter (fun t => date_eqb (date t) d) l.

(** The delimiter [Storage] picks for a file name: a comma for [.csv], a
    tab for [.tsv], none for any other name. *)
Definition delimiter_of (name : string) : option ascii :=
  if endswith (lower name) ".csv" then Some ","%char
  else if endswith (lower name) ".tsv" then Some "009"%char
  else None.

(** A string of printable ASCII characters only: such a cell is read back
    by [csv.reader] as [csv.writer] wrote it, whatever the delimiter and
    the encoding of the platform. *)
Definition plain (s : string) : bool :=
  forallb
    (fun c => ((32 <=? nat_of_ascii c) && (nat_of_ascii c <=? 126))%nat)
    (list_ascii_of_string s).

(** A transaction whose row in a file gives it back: built as by
    [Transaction.__init__], of a year that [strftime] writes on four
    digits, with an amount that its two-decimal form determines, and with
    cells that the file keeps. *)
Definition storable {A} `{Amount A} (to_amount : string -> option A)
    (t : Transaction A) : Prop :=
  well_formed t /\ 1000 <= year (date t)
  /\ to_amount (fmt2 (amount t)) = Some (amount t)
  /\ plain (txn_type t) = true /\ plain (category t) = true.

(** [append_transaction] called for each transaction of a list in turn. *)
Definition append_all {A} `{Amount A} {libc : Libc} (fs : FileSystem)
    (filename : string) (txns : list (Transaction A)) : FileSystem :=
  fold_left (fun fs t => append_transaction fs filename t) txns fs.

(** A line [yes_or_no] takes for an answer. *)
Definition is_answer (line : string) : bool :=
  String.eqb (lower line) "yes" || String.eqb (lower line) "no".

(** What [yes_or_no] writes while it skips the lines [skipped] and asks
    once more. *)
Definition asked (prompt : string) (skipped : list string) : list string :=
  flat_map
    (fun _ => [(prompt ++ ", yes or no? ")%string; "Invalid response"])
    skipped
  ++ [(prompt ++ ", yes or no? ")%string].

(** "on DATE" without an end date, "from DATE to DATE" with one. *)
Definition span (date1 : string) (date2 : option string) : string :=
  match date2 with
  | None => ("on " ++ date1)%string
  | Some date2 => ("from " ++ date1 ++ " to " ++ date2)%string
  end.

(** A section of the filter report: its header row, then a row of four
    cells for each transaction. *)
Definition filter_section {A} `{Amount A} {libc : Libc} (header : string)
    (txns : list (Transaction A)) : list (row A) :=
  [Str header] :: map (fun txn => map Str (txn_cells txn)) txns.

(** The filter report: five sections, a blank row between two of them. *)
Definition filters_layout {A} `{Amount A} {libc : Libc}
    (category_arg date1 : string) (date2 : option string)
    (by_category by_date incomes expenses by_both : list (Transaction A))
  : list (row A) :=
  filter_section ("Transactions filter: " ++ category_arg)%string
    by_category
  ++ [] :: filter_section ("Transactions " ++ span date1 date2)%string
             by_date
  ++ [] :: filter_section
             ("Income transactions " ++ span date1 date2)%string incomes
  ++ [] :: filter_section
             ("Expense transactions " ++ span date1 date2)%string expenses
  ++ [] :: filter_section
             (capitalize category_arg ++ " transactions "
              ++ span date1 date2)%string
             by_both.

(** The two types the balance counts. *)
Definition counted {A} (t : Transaction A) : bool :=
  String.eqb (txn_type t) "income" || String.eqb (txn_type t) "expense".

(* ================================================================== *)
(** * Laws of keys *)

#[export] Instance MonthKey_KeyLaws : KeyLaws MonthKey.
Proof.
  split.
  - intros [y1 m1] [y2 m2]; cbn. rewrite andb_true_iff, !Z.eqb_eq.
    split; [intros [-> ->]; reflexivity | intros E; inversion E; auto].
  - intros [y1 m1] [y2 m2]; cbn.
    destruct (Z.ltb_spec y1 y2), (Z.ltb_spec y2 y1),
      (Z.eqb_spec y1 y2), (Z.eqb_spec y2 y1),
      (Z.leb_spec m1 m2), (Z.leb_spec m2 m1); cbn; auto; lia.
  - intros [y1 m1] [y2 m2]; cbn.
    destruct (Z.ltb_spec y1 y2), (Z.ltb_spec y2 y1),
      (Z.eqb_spec y1 y2), (Z.eqb_spec y2 y1),
      (Z.leb_spec m1 m2), (Z.leb_spec m2 m1); cbn;
      intros; try discriminate; try lia; f_equal; lia.
Qed.

#[export] Instance string_KeyLaws : KeyLaws string.
Proof.
  split.
  - exact String.eqb_eq.
  - exact String.leb_total.
  - exact String.leb_antisym.
Qed.

#[export] Instance pair_KeyLaws {K1 K2} `{KeyLaws K1} `{KeyLaws K2}
  : KeyLaws (K1 * K2).
Proof.
  split.
  - intros [a1 a2] [b1 b2]; cbn.
    rewrite andb_true_iff, !keqb_eq.
    split; [intros [-> ->]; reflexivity | intros E; inversion E; auto].
  - intros [a1 a2] [b1 b2]; cbn.
    destruct (keqb a1 b1) eqn:E1.
    + apply keqb_eq in E1; subst b1.
      replace (keqb a1 a1) with true
        by (symmetry; apply keqb_eq; reflexivity).
      apply kleb_total.
    + destruct (keqb b1 a1) eqn:E2.
      * apply keqb_eq in E2; subst b1.
        assert (keqb a1 a1 = true) by (apply keqb_eq; reflexivity).
        congruence.
      * apply kleb_total.
  - intros [a1 a2] [b1 b2]; cbn.
    destruct (keqb a1 b1) eqn:E1.
    + apply keqb_eq in E1; subst b1.
      replace (keqb a1 a1) with true
        by (symmetry; apply keqb_eq; reflexivity).
      intros L1 L2. f_equal. apply kleb_antisym; assumption.
    + destruct (keqb b1 a1) eqn:E2.
      * apply keqb_eq in E2; subst b1.
        assert (keqb a1 a1 = true) by (apply keqb_eq; reflexivity).
        congruence.
      * intros L1 L2. pose proof (kleb_antisym _ _ L1 L2) as E; subst b1.
        assert (keqb a1 a1 = true) by (apply keqb_eq; reflexivity).
        congruence.
Qed.

Lemma keqb_refl {K} `{KeyLaws K} (k : K) : keqb k k = true.
Proof. apply keqb_eq; reflexivity. Qed.

Lemma keqb_neq {K} `{KeyLaws K} (a b : K) : keqb a b = false <-> a <> b.
Proof.
  split.
  - intros E Heq. apply keqb_eq in Heq. congruence.
  - intros N. destruct (keqb a b) eqn:E; [|reflexivity].
    apply keqb_eq in E. contradiction.
Qed.

Lemma keqb_sym_bool {K} `{KeyLaws K} (a b : K) : keqb a b = keqb b a.
Proof.
  destruct (keqb a b) eqn:E1, (keqb b a) eqn:E2; try reflexivity.
  - apply keqb_eq in E1. subst b. rewrite keqb_refl in E2. discriminate.
  - apply keqb_eq in E2. subst b. rewrite keqb_refl in E1. discriminate.
Qed.

(* ================================================================== *)
(** * [sorted] *)

Section SortedFacts.
Context {X K : Type}.
Variable leb : K -> K -> bool.
Variable key : X -> K.
Hypothesis leb_total : forall a b, leb a b = true \/ leb b a = true.

Lemma insert_by_perm (x : X) (l : list X) :
  Permutation (insert_by leb key x l) (x :: l).
Proof.
  induction l as [|y l IH]; cbn.
  - reflexivity.
  - destruct (leb (key x) (key y)).
    + reflexivity.
    + rewrite IH. apply perm_swap.
Qed.

Lemma sorted_by_perm (l : list X) : Permutation (sorted_by leb key l) l.
Proof.
  induction l as [|x l IH]; cbn.
  - reflexivity.
  - rewrite insert_by_perm. constructor. exact IH.
Qed.

Lemma insert_by_hd (a x : X) (l : list X) :
  key_le leb key a x -> HdRel (key_le leb key) a l ->
  HdRel (key_le leb key) a (insert_by leb key x l).
Proof.
  intros Hax Hal. destruct l as [|y l]; cbn.
  - constructor. exact Hax.
  - destruct (leb (key x) (key y)); constructor.
    + exact Hax.
    + inversion Hal; assumption.
Qed.

Lemma insert_by_sorted (x : X) (l : list X) :
  Sorted (key_le leb key) l -> Sorted (key_le leb key) (insert_by leb key x l).
Proof.
  induction 1 as [|y l Hs IH Hhd]; cbn.
  - repeat constructor.
  - destruct (leb (key x) (key y)) eqn:E.
    + constructor; [constructor; assumption|]. constructor. exact E.
    + constructor; [exact IH|].
      apply insert_by_hd; [|exact Hhd].
      destruct (leb_total (key x) (key y)) as [L|L]; [congruence|exact L].
Qed.

Lemma sorted_by_sorted (l : list X) :
  Sorted (key_le leb key) (sorted_by leb key l).
Proof.
  induction l as [|x l IH]; cbn.
  - constructor.
  - apply insert_by_sorted. exact IH.
Qed.

Lemma sorted_by_nil_iff (l : list X) : sorted_by leb key l = [] <-> l = [].
Proof.
  split; [|intros ->; reflexivity].
  intros E. pose proof (sorted_by_perm l) as P. rewrite E in P.
  apply Permutation_nil in P. exact P.
Qed.
End SortedFacts.

(** Neighbours that are in order and different are strictly in order. *)
Lemma Sorted_strict {X} (R S : X -> X -> Prop) (l : list X) :
  (forall a b, R a b -> a <> b -> S a b) ->
  NoDup l -> Sorted R l -> Sorted S l.
Proof.
  intros HRS Hnd Hs. induction Hs as [|a l Hs IH Hhd].
  - constructor.
  - inversion Hnd as [|? ? Hnotin Hnd']; subst.
    constructor; [apply IH; exact Hnd'|].
    destruct Hhd as [|b l Hab]; constructor.
    apply HRS; [exact Hab|].
    intros ->. apply Hnotin. left. reflexivity.
Qed.

Lemma Sorted_map {X Y} (f : X -> Y) (R : Y -> Y -> Prop) (l : list X) :
  Sorted (fun a b => R (f a) (f b)) l -> Sorted R (map f l).
Proof.
  induction 1 as [|a l Hs IH Hhd]; cbn.
  - constructor.
  - constructor; [exact IH|].
    destruct Hhd; cbn; constructor; assumption.
Qed.

(* ================================================================== *)
(** * Dicts *)

Section DictFacts.
Context {K V : Type} `{KeyLaws K}.
Implicit Types (k : K) (v : V) (d : dict K V).

Lemma dict_get_In k v d : dict_get k d = Some v -> In (k, v) d.
Proof.
  induction d as [|[k' v'] d IH]; cbn; [discriminate|].
  destruct (keqb k k') eqn:E.
  - apply keqb_eq in E; subst k'. intros [= ->]. left; reflexivity.
  - intros G. right. apply IH. exact G.
Qed.

Lemma dict_get_None k d : dict_get k d = None <-> ~ In k (keys d).
Proof.
  induction d as [|[k' v'] d IH]; cbn.
  - split; auto.
  - destruct (keqb k k') eqn:E.
    + apply keqb_eq in E; subst k'. split; [discriminate|].
      intros N. exfalso. apply N. left; reflexivity.
    + apply keqb_neq in E. rewrite IH. split.
      * intros N [Heq|Hin]; [congruence|contradiction].
      * intros N Hin. apply N. right. exact Hin.
Qed.

Lemma In_dict_get k v d :
  NoDup (keys d) -> In (k, v) d -> dict_get k d = Some v.
Proof.
  induction d as [|[k' v'] d IH]; cbn; [contradiction|].
  intros Hnd [Heq|Hin].
  - inversion Heq; subst. rewrite keqb_refl. reflexivity.
  - inversion Hnd as [|? ? Hnotin Hnd']; subst.
    destruct (keqb k k') eqn:E.
    + apply keqb_eq in E; subst k'. exfalso. apply Hnotin.
      change (In (fst (k, v)) (map fst d)). apply in_map. exact Hin.
    + apply IH; assumption.
Qed.

(** With unique keys a lookup does not depend on the order of the
    items. *)
Lemma dict_get_perm k d d' :
  NoDup (keys d) -> Permutation d d' -> dict_get k d' = dict_get k d.
Proof.
  intros Hnd P.
  assert (Hnd' : NoDup (keys d')).
  { eapply Permutation_NoDup; [|exact Hnd]. apply Permutation_map. exact P. }
  destruct (dict_get k d) as [v|] eqn:G.
  - apply In_dict_get; [exact Hnd'|].
    eapply Permutation_in; [exact P|]. apply dict_get_In. exact G.
  - apply dict_get_None. apply dict_get_None in G.
    intros Hin. apply G.
    eapply Permutation_in; [|exact Hin].
    apply Permutation_map. symmetry. exact P.
Qed.

Lemma dict_get_set_eq k v d : dict_get k (dict_set k v d) = Some v.
Proof.
  induction d as [|[k' v'] d IH]; cbn.
  - rewrite keqb_refl. reflexivity.
  - destruct (keqb k k') eqn:E; cbn; rewrite E; [reflexivity|exact IH].
Qed.

Lemma dict_get_set_neq k k' v d :
  k <> k' -> dict_get k (dict_set k' v d) = dict_get k d.
Proof.
  intros N. induction d as [|[k0 v0] d IH]; cbn.
  - apply keqb_neq in N. rewrite N. reflexivity.
  - destruct (keqb k' k0) eqn:E; cbn.
    + apply keqb_eq in E; subst k0.
      apply keqb_neq in N. rewrite N. reflexivity.
    + rewrite IH. reflexivity.
Qed.

Lemma keys_dict_set k v d :
  keys (dict_set k v d)
  = if dict_mem k d then keys d else keys d ++ [k].
Proof.
  unfold dict_mem, keys. induction d as [|[k' v'] d IH]; cbn.
  - reflexivity.
  - destruct (keqb k k') eqn:E; cbn.
    + reflexivity.
    + rewrite IH. destruct (dict_get k d); reflexivity.
Qed.

Lemma In_keys_dict_set k k' v d :
  In k (keys (dict_set k' v d)) <-> k = k' \/ In k (keys d).
Proof.
  rewrite keys_dict_set. unfold dict_mem.
  destruct (dict_get k' d) as [v0|] eqn:G.
  - split; [auto|]. intros [->|Hin]; [|exact Hin].
    apply dict_get_In in G.
    change (In (fst (k', v0)) (map fst d)). apply in_map. exact G.
  - rewrite in_app_iff; cbn. intuition.
Qed.

Lemma NoDup_keys_dict_set k v d :
  NoDup (keys d) -> NoDup (keys (dict_set k v d)).
Proof.
  intros Hnd. rewrite keys_dict_set. unfold dict_mem.
  destruct (dict_get k d) eqn:G; [exact Hnd|].
  apply dict_get_None in G.
  apply NoDup_app; [exact Hnd | repeat constructor; auto |].
  intros a Ha [<-|[]]. contradiction.
Qed.

Lemma sorted_items_perm d : Permutation (sorted_items d) d.
Proof. apply sorted_by_perm. Qed.

Lemma NoDup_keys_sorted_items d :
  NoDup (keys d) -> NoDup (keys (sorted_items d)).
Proof.
  intros Hnd. eapply Permutation_NoDup; [|exact Hnd].
  apply Permutation_map. symmetry. apply sorted_items_perm.
Qed.

Lemma dict_get_sorted_items k d :
  NoDup (keys d) -> dict_get k (sorted_items d) = dict_get k d.
Proof.
  intros Hnd. apply dict_get_perm; [exact Hnd|].
  symmetry. apply sorted_items_perm.
Qed.

Lemma In_keys_sorted_items k d :
  In k (keys (sorted_items d)) <-> In k (keys d).
Proof.
  split; apply Permutation_in, Permutation_map;
    [|symmetry]; apply sorted_items_perm.
Qed.

(** The keys of [dict(sorted(d.items()))] are strictly increasing. *)
Lemma keys_sorted_items_increasing d :
  NoDup (keys d) -> Sorted klt (keys (sorted_items d)).
Proof.
  intros Hnd.
  apply Sorted_strict with (R := fun a b => kleb a b = true).
  - intros a b L N. split; assumption.
  - apply NoDup_keys_sorted_items. exact Hnd.
  - apply Sorted_map. apply (sorted_by_sorted kleb fst kleb_total).
Qed.
End DictFacts.

(* ================================================================== *)
(** * The aggregates: running a sync, then a loop over the ledger *)

Section AggregateFacts.
Context {A : Type} `{Amount A}.
Variable w : World A.

Lemma sync_without_file self (tr : FinanceTracker A) :
  use_file self = false -> _sync_transactions w self tr = Ok (tt, tr).
Proof. unfold _sync_transactions. intros ->. reflexivity. Qed.

(** A sync from the state a sync left gives that state again: the file is
    read into an emptied tracker whatever the tracker held. *)
Lemma sync_again self (tr tr' : FinanceTracker A) u :
  _sync_transactions w self tr = Ok (u, tr') ->
  _sync_transactions w self tr' = Ok (u, tr').
Proof.
  unfold _sync_transactions. destruct (use_file self).
  - intros E. exact E.
  - unfold ret. intros [= <- <-]. reflexivity.
Qed.

Lemma synced_run {X} (f : list (Transaction A) -> X) self tr :
  synced w f self tr
  = match _sync_transactions w self tr with
    | Ok (_, tr') => Ok (f (transactions tr'), tr')
    | Raise e => Raise e
    end.
Proof.
  unfold synced, bind, get_transactions, ret.
  destruct (_sync_transactions w self tr) as [[u tr']|e]; reflexivity.
Qed.

Lemma synced_without_file {X} (f : list (Transaction A) -> X) self tr :
  use_file self = false ->
  synced w f self tr = Ok (f (transactions tr), tr).
Proof.
  intros E. rewrite synced_run, sync_without_file by exact E. reflexivity.
Qed.

(** Two aggregates started from the same state see the same ledger, and
    so does one started where the other stopped. *)
Lemma synced_inv {X} (f : list (Transaction A) -> X) self tr x tr' :
  synced w f self tr = Ok (x, tr') ->
  x = f (transactions tr')
  /\ _sync_transactions w self tr = Ok (tt, tr')
  /\ forall Y (g : list (Transaction A) -> Y),
       synced w g self tr = Ok (g (transactions tr'), tr')
       /\ synced w g self tr' = Ok (g (transactions tr'), tr').
Proof.
  rewrite synced_run.
  destruct (_sync_transactions w self tr) as [[[] tr1]|e] eqn:E;
    [|discriminate].
  intros [= <- <-]. split; [reflexivity|]. split; [reflexivity|].
  intros Y g. rewrite !synced_run, E, (sync_again _ _ _ _ E).
  split; reflexivity.
Qed.

(** ** The grouping loop *)

Section Group.
Context {K : Type} `{KeyLaws K}.
Variable kf : Transaction A -> K.
Variable kind : string.

Lemma NoDup_keys_accumulate k a (d : dict K A) :
  NoDup (keys d) -> NoDup (keys (accumulate k a d)).
Proof.
  intros Hnd. unfold accumulate.
  destruct (dict_get k d); apply NoDup_keys_dict_set; exact Hnd.
Qed.

Lemma In_keys_accumulate k k' a (d : dict K A) :
  In k (keys (accumulate k' a d)) <-> k = k' \/ In k (keys d).
Proof.
  unfold accumulate. destruct (dict_get k' d); apply In_keys_dict_set.
Qed.

Lemma NoDup_keys_group txns (d : dict K A) :
  NoDup (keys d) -> NoDup (keys (fold_left (group_step kf kind) txns d)).
Proof.
  revert d. induction txns as [|t txns IH]; cbn [fold_left]; intros d Hnd.
  - exact Hnd.
  - apply IH. unfold group_step.
    destruct (String.eqb (txn_type t) kind);
      [apply NoDup_keys_accumulate|]; exact Hnd.
Qed.

Lemma In_keys_group k txns (d : dict K A) :
  In k (keys (fold_left (group_step kf kind) txns d))
  <-> In k (keys d)
      \/ exists t, In t txns /\ txn_type t = kind /\ kf t = k.
Proof.
  revert d. induction txns as [|t txns IH]; cbn [fold_left In]; intros d.
  - split; [auto|]. intros [Hin|[t [[] _]]]. exact Hin.
  - rewrite IH. unfold group_step.
    destruct (String.eqb_spec (txn_type t) kind) as [E|N].
    + rewrite In_keys_accumulate. split.
      * intros [[->|Hin]|[t' [Hin' Ht']]].
        -- right. exists t. auto.
        -- left. exact Hin.
        -- right. exists t'. tauto.
      * intros [Hin|[t' [[<-|Hin'] [E' Hk]]]].
        -- left. right. exact Hin.
        -- left. left. symmetry. exact Hk.
        -- right. exists t'. auto.
    + split.
      * intros [Hin|[t' [Hin' Ht']]]; [left; exact Hin|].
        right. exists t'. tauto.
      * intros [Hin|[t' [[<-|Hin'] [E' Hk]]]].
        -- left. exact Hin.
        -- contradiction.
        -- right. exists t'. auto.
Qed.

(** No transaction of the kind: the loop leaves the dict as it was. *)
Lemma group_no_match txns (d : dict K A) :
  (forall t, In t txns -> txn_type t <> kind) ->
  fold_left (group_step kf kind) txns d = d.
Proof.
  revert d. induction txns as [|t txns IH]; cbn [fold_left]; intros d Hno.
  - reflexivity.
  - unfold group_step at 2.
    destruct (String.eqb_spec (txn_type t) kind) as [E|N].
    + exfalso. apply (Hno t); [left; reflexivity|exact E].
    + apply IH. intros t' Hin. apply Hno. right. exact Hin.
Qed.
End Group.

Lemma monthly_basis_loop_group kind txns :
  monthly_basis_loop kind txns
  = fold_left (group_step month_of kind) txns [].
Proof. reflexivity. Qed.

Lemma monthly_categories_loop_group kind txns :
  monthly_categories_loop kind txns
  = fold_left (group_step (fun t => (month_of t, category t)) kind) txns [].
Proof. reflexivity. Qed.

Lemma totals_loop_group kind txns :
  totals_loop kind txns = fold_left (group_step category kind) txns [].
Proof. reflexivity. Qed.

Lemma NoDup_keys_monthly_basis_loop kind txns :
  NoDup (keys (monthly_basis_loop kind txns)).
Proof.
  rewrite monthly_basis_loop_group. apply NoDup_keys_group. constructor.
Qed.

Lemma NoDup_keys_totals_loop kind txns :
  NoDup (keys (totals_loop kind txns)).
Proof. rewrite totals_loop_group. apply NoDup_keys_group. constructor. Qed.
End AggregateFacts.

(* ================================================================== *)
(** * Net savings: the join of the two monthly maps *)

Section NetSavings.
Context {A : Type} `{Amount A}.
Implicit Types (income_dict expenses_dict months_dict : dict MonthKey A).

(** The inner loop writes the difference once, when the month has an
    expense total. *)
Lemma net_savings_inner (tuple_1 : MonthKey) (income : A)
    expenses_dict months_dict :
  NoDup (keys expenses_dict) ->
  fold_left
    (fun months_dict (item2 : MonthKey * A) =>
       let '(tuple_2, expense) := item2 in
       if keqb tuple_1 tuple_2
       then dict_set tuple_1 (asub income expense) months_dict
       else months_dict)
    expenses_dict months_dict
  = match dict_get tuple_1 expenses_dict with
    | Some expense => dict_set tuple_1 (asub income expense) months_dict
    | None => months_dict
    end.
Proof.
  revert months_dict.
  induction expenses_dict as [|[tuple_2 expense] rest IH];
    intros months_dict Hnd.
  - reflexivity.
  - inversion Hnd as [|? ? Hnotin Hnd']; subst.
    cbn [fold_left dict_get].
    destruct (keqb tuple_1 tuple_2) eqn:E.
    + apply keqb_eq in E; subst tuple_2.
      rewrite IH by exact Hnd'.
      apply dict_get_None in Hnotin. rewrite Hnotin. reflexivity.
    + apply IH. exact Hnd'.
Qed.

Lemma net_savings_outer (k : MonthKey) income_dict expenses_dict
    months_dict :
  NoDup (keys income_dict) -> NoDup (keys expenses_dict) ->
  dict_get k
    (fold_left
       (fun months_dict (item1 : MonthKey * A) =>
          let '(tuple_1, income) := item1 in
          fold_left
            (fun months_dict (item2 : MonthKey * A) =>
               let '(tuple_2, expense) := item2 in
               if keqb tuple_1 tuple_2
               then dict_set tuple_1 (asub income expense) months_dict
               else months_dict)
            expenses_dict months_dict)
       income_dict months_dict)
  = match dict_get k income_dict, dict_get k expenses_dict with
    | Some income, Some expense => Some (asub income expense)
    | _, _ => dict_get k months_dict
    end.
Proof.
  intros Hinc Hexp. revert months_dict.
  induction income_dict as [|[tuple_1 income] rest IH]; intros months_dict.
  - reflexivity.
  - inversion Hinc as [|? ? Hnotin Hinc']; subst.
    cbn [fold_left dict_get].
    rewrite net_savings_inner by exact Hexp.
    rewrite IH by exact Hinc'.
    destruct (keqb k tuple_1) eqn:E.
    + apply keqb_eq in E; subst tuple_1.
      apply dict_get_None in Hnotin. rewrite Hnotin.
      destruct (dict_get k expenses_dict) as [expense|].
      * apply dict_get_set_eq.
      * reflexivity.
    + apply keqb_neq in E.
      destruct (dict_get tuple_1 expenses_dict) as [expense|].
      * rewrite dict_get_set_neq by exact E. reflexivity.
      * reflexivity.
Qed.

Lemma net_savings_loop_get (k : MonthKey) income_dict expenses_dict :
  NoDup (keys income_dict) -> NoDup (keys expenses_dict) ->
  dict_get k (net_savings_loop income_dict expenses_dict)
  = match dict_get k income_dict, dict_get k expenses_dict with
    | Some income, Some expense => Some (asub income expense)
    | _, _ => None
    end.
Proof.
  intros Hinc Hexp. unfold net_savings_loop.
  rewrite net_savings_outer by assumption.
  destruct (dict_get k income_dict), (dict_get k expenses_dict);
    reflexivity.
Qed.

(** The inner loop only ever sets the month of the outer one, so the keys
    of the result stay unique. *)
Lemma NoDup_keys_net_savings_loop income_dict expenses_dict :
  NoDup (keys (net_savings_loop income_dict expenses_dict)).
Proof.
  unfold net_savings_loop.
  assert (G : forall months_dict,
    NoDup (keys months_dict) ->
    NoDup (keys
      (fold_left
         (fun months_dict (item1 : MonthKey * A) =>
            let '(tuple_1, income) := item1 in
            fold_left
              (fun months_dict (item2 : MonthKey * A) =>
                 let '(tuple_2, expense) := item2 in
                 if keqb tuple_1 tuple_2
                 then dict_set tuple_1 (asub income expense) months_dict
                 else months_dict)
              expenses_dict months_dict)
         income_dict months_dict))).
  { induction income_dict as [|[tuple_1 income] rest IH];
      intros months_dict Hnd; cbn [fold_left].
    - exact Hnd.
    - apply IH. clear IH. revert months_dict Hnd.
      induction expenses_dict as [|[tuple_2 expense] rest2 IH2];
        intros months_dict Hnd; cbn [fold_left].
      + exact Hnd.
      + apply IH2. destruct (keqb tuple_1 tuple_2);
          [apply NoDup_keys_dict_set|]; exact Hnd. }
  apply G. constructor.
Qed.

Lemma dict_get_Some_In_keys {K V} `{KeyLaws K} (k : K) (d : dict K V) :
  In k (keys d) <-> exists v, dict_get k d = Some v.
Proof.
  destruct (dict_get k d) as [v|] eqn:G.
  - split; [eauto|]. intros _. apply dict_get_In in G.
    change (In (fst (k, v)) (map fst d)). apply in_map. exact G.
  - apply dict_get_None in G. split; [contradiction|].
    intros [v [=]].
Qed.
End NetSavings.

(* ================================================================== *)
(** * Orders on the keys of the aggregates *)

Lemma klt_month_lt (a b : MonthKey) : klt a b -> month_lt a b.
Proof.
  destruct a as [y1 m1], b as [y2 m2]. unfold klt, month_lt; cbn.
  intros [L N].
  destruct (Z.ltb_spec y1 y2); [left; assumption|].
  destruct (Z.eqb_spec y1 y2); [|discriminate].
  cbn in L. apply Z.leb_le in L. subst y2. right. split; [reflexivity|].
  assert (m1 <> m2) by congruence. lia.
Qed.

Lemma klt_string_lt (a b : string) : klt a b -> string_lt a b.
Proof.
  unfold klt, string_lt; cbn. unfold String.leb, String.ltb.
  intros [L N]. destruct (String.compare a b) eqn:C.
  - apply String.compare_eq_iff in C. contradiction.
  - reflexivity.
  - discriminate.
Qed.

Lemma string_lt_leb (a b : string) : string_lt a b -> String.leb a b = true.
Proof.
  unfold string_lt, String.ltb, String.leb.
  destruct (String.compare a b); auto; discriminate.
Qed.

Lemma Sorted_impl_In {X} (R S : X -> X -> Prop) (l : list X) :
  (forall a b, In a l -> In b l -> R a b -> S a b) ->
  Sorted R l -> Sorted S l.
Proof.
  intros HRS Hs. induction Hs as [|a l Hs IH Hhd].
  - constructor.
  - constructor.
    + apply IH. intros x y Hx Hy. apply HRS; right; assumption.
    + destruct Hhd as [|b l Hab]; constructor.
      apply HRS; [left; reflexivity|right; left; reflexivity|exact Hab].
Qed.

Section AggregateRuns.
Context {A : Type} `{Amount A}.
Variable w : World A.

Lemma monthly_basis_synced self kind :
  _monthly_basis w self kind
  = synced w (fun all_txn => sorted_items (monthly_basis_loop kind all_txn))
      self.
Proof. reflexivity. Qed.

Lemma monthly_categories_basis_synced self kind :
  _monthly_categories_basis w self kind
  = synced w
      (fun all_txn => sorted_items (monthly_categories_loop kind all_txn))
      self.
Proof. reflexivity. Qed.

Lemma totals_synced self kind :
  _totals_each_txn_type_category w self kind
  = synced w (fun all_txn => sorted_items (totals_loop kind all_txn)) self.
Proof. reflexivity. Qed.

Lemma monthly_net_savings_run self tr :
  monthly_net_savings w self tr
  = match _sync_transactions w self tr with
    | Ok (_, tr') => Ok (net_savings_of (transactions tr'), tr')
    | Raise e => Raise e
    end.
Proof.
  unfold monthly_net_savings, monthly_income, monthly_expenses.
  rewrite !monthly_basis_synced. unfold bind at 1.
  rewrite synced_run.
  destruct (_sync_transactions w self tr) as [[[] tr1]|e] eqn:E;
    [|reflexivity].
  unfold bind. rewrite synced_run, (sync_again _ _ _ _ _ E).
  reflexivity.
Qed.

Lemma net_savings_of_get (k : MonthKey) txns :
  dict_get k (net_savings_of txns)
  = match dict_get k (sorted_items (monthly_basis_loop "income" txns)),
          dict_get k (sorted_items (monthly_basis_loop "expense" txns))
    with
    | Some income, Some expense => Some (asub income expense)
    | _, _ => None
    end.
Proof.
  unfold net_savings_of.
  rewrite dict_get_sorted_items by apply NoDup_keys_net_savings_loop.
  apply net_savings_loop_get;
    apply NoDup_keys_sorted_items, NoDup_keys_monthly_basis_loop.
Qed.
End AggregateRuns.

(* ================================================================== *)
(** * Properties of the aggregates *)

Section AggregateClaims.
Context {A : Type} `{Amount A}.
Variable w : World A.

(** C1. [monthly_net_savings] returns whenever no file has to be read, and
    whenever it returns, its map holds a (year, month) key exactly when
    both [monthly_income] and [monthly_expenses] hold it, with the income
    of the month minus its expenses as the value; a month of only one of
    the two maps is absent. *)
Theorem monthly_net_savings_join self (tr : FinanceTracker A) :
  (use_file self = false ->
   exists net, monthly_net_savings w self tr = Ok (net, tr))
  /\ forall net tr',
       monthly_net_savings w self tr = Ok (net, tr') ->
       exists income_dict expenses_dict,
         monthly_income w self tr = Ok (income_dict, tr')
         /\ monthly_expenses w self tr = Ok (expenses_dict, tr')
         /\ (forall k,
               In k (keys net)
               <-> In k (keys income_dict) /\ In k (keys expenses_dict))
         /\ (forall k income expense,
               dict_get k income_dict = Some income ->
               dict_get k expenses_dict = Some expense ->
               dict_get k net = Some (asub income expense))
         /\ (forall k,
               dict_get k income_dict = None
               \/ dict_get k expenses_dict = None ->
               dict_get k net = None).
Proof.
  split.
  - intros E. rewrite monthly_net_savings_run, sync_without_file by exact E.
    eexists. reflexivity.
  - intros net tr'. rewrite monthly_net_savings_run.
    destruct (_sync_transactions w self tr) as [[[] tr1]|e] eqn:E;
      [|discriminate].
    intros [= <- <-].
    exists (sorted_items (monthly_basis_loop "income" (transactions tr1))),
      (sorted_items (monthly_basis_loop "expense" (transactions tr1))).
    unfold monthly_income, monthly_expenses.
    rewrite !monthly_basis_synced, !synced_run, E.
    split; [reflexivity|]. split; [reflexivity|].
    split; [|split].
    + intros k. rewrite !dict_get_Some_In_keys, net_savings_of_get.
      destruct (dict_get k (sorted_items (monthly_basis_loop "income" _)))
        as [income|];
        destruct (dict_get k (sorted_items (monthly_basis_loop "expense" _)))
        as [expense|].
      * split; eauto.
      * split; [intros [v [=]]|intros [_ [v [=]]]].
      * split; [intros [v [=]]|intros [[v [=]] _]].
      * split; [intros [v [=]]|intros [[v [=]] _]].
    + intros k income expense Gi Ge.
      rewrite net_savings_of_get, Gi, Ge. reflexivity.
    + intros k [G|G]; rewrite net_savings_of_get, G; [reflexivity|].
      destruct (dict_get k (sorted_items (monthly_basis_loop "income" _)));
        reflexivity.
Qed.
End AggregateClaims.

(* ================================================================== *)
(** * Properties of the ledger *)

Lemma date_eqb_eq (a b : datetime) : date_eqb a b = true <-> a = b.
Proof.
  destruct a as [y1 m1 d1], b as [y2 m2 d2]. unfold date_eqb; cbn.
  rewrite !andb_true_iff, !Z.eqb_eq. split.
  - intros [[-> ->] ->]. reflexivity.
  - intros [= -> -> ->]. auto.
Qed.

Lemma date_leb_le (a b : datetime) : date_leb a b = true <-> date_le a b.
Proof.
  unfold date_leb, date_le.
  rewrite !orb_true_iff, !andb_true_iff, !orb_true_iff, !andb_true_iff,
    !Z.ltb_lt, !Z.eqb_eq, Z.leb_le.
  reflexivity.
Qed.

Lemma date_le_trans (a b c : datetime) :
  date_le a b -> date_le b c -> date_le a c.
Proof. unfold date_le. lia. Qed.

Lemma date_leb_total (a b : datetime) :
  date_leb a b = true \/ date_leb b a = true.
Proof. rewrite !date_leb_le. unfold date_le. lia. Qed.

Section LedgerClaims.
Context {A : Type} `{Amount A}.
Implicit Types (self : FinanceTracker A) (t : Transaction A).

(** ** Balance and totals *)

Lemma balance_fold txns (income expense : A) :
  fold_left balance_step txns (income, expense)
  = (fold_left
       (fun acc t =>
          if String.eqb (txn_type t) "income"
          then aadd acc (amount t) else acc)
       txns income,
     fold_left
       (fun acc t =>
          if String.eqb (txn_type t) "expense"
          then aadd acc (amount t) else acc)
       txns expense).
Proof.
  revert income expense.
  induction txns as [|t txns IH]; intros income expense; cbn [fold_left].
  - reflexivity.
  - unfold balance_step at 2.
    destruct (String.eqb_spec (txn_type t) "income") as [E|N].
    + rewrite E. cbn [String.eqb Ascii.eqb Bool.eqb]. apply IH.
    + destruct (String.eqb (txn_type t) "expense"); apply IH.
Qed.

(** C2. The balance string is the two-decimal format of the income total
    minus the expense total, these totals being the numbers
    [get_total_income] and [get_total_expenses] format. *)
Theorem balance_is_income_minus_expenses self :
  calc_current_balance self
  = fmt2 (asub (total_of "income" (transactions self))
               (total_of "expense" (transactions self)))
  /\ get_total_income self = fmt2 (total_of "income" (transactions self))
  /\ get_total_expenses self
     = fmt2 (total_of "expense" (transactions self)).
Proof.
  split; [|split; reflexivity].
  unfold calc_current_balance. rewrite balance_fold. reflexivity.
Qed.

(** ** Filters *)

Lemma for_each_filter (body : list (Transaction A) -> Transaction A ->
                              result (list (Transaction A)))
    (p : Transaction A -> bool) txns acc :
  (forall acc t, In t txns ->
     body acc t = Ok (if p t then acc ++ [t] else acc)) ->
  for_each body txns acc = Ok (acc ++ filter p txns).
Proof.
  revert acc. induction txns as [|t txns IH]; intros acc Hbody; cbn.
  - rewrite app_nil_r. reflexivity.
  - rewrite Hbody by (left; reflexivity). cbn.
    rewrite IH by (intros; apply Hbody; right; assumption).
    destruct (p t); [|reflexivity].
    rewrite <- app_assoc. reflexivity.
Qed.

Lemma fold_filter (p : Transaction A -> bool) txns acc :
  fold_left (fun l t => if p t then l ++ [t] else l) txns acc
  = acc ++ filter p txns.
Proof.
  revert acc. induction txns as [|t txns IH]; intros acc; cbn.
  - rewrite app_nil_r. reflexivity.
  - rewrite IH. destruct (p t); [|reflexivity].
    rewrite <- app_assoc. reflexivity.
Qed.

Lemma category_filter_is_filter self (category_arg : string) :
  category_filter self category_arg
  = filter (fun t => String.eqb (category t) category_arg)
      (transactions self).
Proof. unfold category_filter. rewrite fold_filter. reflexivity. Qed.

(** C6, as the code has it. [category_filter] returns the transactions
    whose stored category is exactly the argument, letter case included,
    in the order of the ledger; nothing is case-normalized on the way.
    Only on a ledger whose stored categories are all lower-case are these
    the transactions whose case-normalized category is the argument. *)
Theorem category_filter_exact self (category_arg : string) :
  category_filter self category_arg
  = filter (fun t => String.eqb (category t) category_arg)
      (transactions self)
  /\ ((forall t, In t (transactions self) ->
         lower (category t) = category t) ->
      category_filter self category_arg
      = filter (fun t => String.eqb (lower (category t)) category_arg)
          (transactions self)).
Proof.
  split; [apply category_filter_is_filter|].
  intros Hnorm. rewrite category_filter_is_filter. apply filter_ext_in.
  intros t Hin. rewrite Hnorm by exact Hin. reflexivity.
Qed.

Lemma date_test_valid date1 date2 start stop acc t :
  strptime date1 = Some start -> parse_end date2 = Some stop ->
  date_test date1 date2 acc t
  = Ok (if in_range start stop t then acc ++ [t] else acc).
Proof.
  intros E1 E2. unfold date_test, in_range.
  destruct date2 as [s|]; cbn in E2.
  - destruct (strptime s) as [end_|] eqn:Es; [|discriminate].
    injection E2 as <-. rewrite E1. reflexivity.
  - injection E2 as <-. rewrite E1. reflexivity.
Qed.

Lemma date_filter_valid self date1 date2 start stop :
  strptime date1 = Some start -> parse_end date2 = Some stop ->
  date_filter self date1 date2
  = Ok (sorted_by_date (filter (in_range start stop) (transactions self))).
Proof.
  intros E1 E2. unfold date_filter.
  rewrite for_each_filter with (p := in_range start stop).
  - reflexivity.
  - intros acc t _. apply date_test_valid; assumption.
Qed.

Lemma guarded_filter_valid (guard : Transaction A -> bool) txns date1 date2
    start stop :
  strptime date1 = Some start -> parse_end date2 = Some stop ->
  for_each
    (fun date_list t =>
       if guard t then date_test date1 date2 date_list t else Ok date_list)
    txns []
  = Ok (filter (fun t => guard t && in_range start stop t) txns).
Proof.
  intros E1 E2.
  rewrite for_each_filter
    with (p := fun t => guard t && in_range start stop t).
  - reflexivity.
  - intros acc t _. destruct (guard t); cbn.
    + apply date_test_valid; assumption.
    + reflexivity.
Qed.

Lemma sorted_by_date_sorted (l : list (Transaction A)) :
  Sorted by_date (sorted_by_date l).
Proof.
  eapply Sorted_impl_In;
    [|apply (sorted_by_sorted date_leb date date_leb_total)].
  intros a b _ _ L. apply date_leb_le. exact L.
Qed.

Lemma sorted_by_date_perm (l : list (Transaction A)) :
  Permutation (sorted_by_date l) l.
Proof. apply sorted_by_perm. Qed.

Lemma empty_range start end_ (txns : list (Transaction A)) :
  date_leb start end_ = false ->
  filter (in_range start (Some end_)) txns = [].
Proof.
  intros E. induction txns as [|t txns IH]; cbn; [reflexivity|].
  destruct (date_leb start (date t)) eqn:L1;
    destruct (date_leb (date t) end_) eqn:L2; cbn; try exact IH.
  exfalso. apply date_leb_le in L1, L2.
  pose proof (date_le_trans _ _ _ L1 L2) as L.
  apply date_leb_le in L. congruence.
Qed.
End LedgerClaims.

Section DateFilterClaims.
Context {A : Type} `{Amount A}.
Implicit Types (self : FinanceTracker A) (t : Transaction A).

(** C4. For valid date strings, [date_filter] without an end date returns
    exactly the transactions dated [start], and with an end date exactly
    those with [start <= date <= end]; either result is ascending by
    date, and a range whose start is after its end gives the empty list,
    not an error. *)
Theorem date_filter_spec self (date1 : string) (start : datetime) :
  strptime date1 = Some start ->
  (exists r,
     date_filter self date1 None = Ok r
     /\ Permutation r
          (filter (fun t => date_eqb (date t) start) (transactions self))
     /\ (forall t, In t r <-> In t (transactions self) /\ date t = start)
     /\ Sorted by_date r)
  /\ forall (date2 : string) (end_ : datetime),
       strptime date2 = Some end_ ->
       exists r,
         date_filter self date1 (Some date2) = Ok r
         /\ Permutation r
              (filter
                 (fun t =>
                    date_leb start (date t) && date_leb (date t) end_)
                 (transactions self))
         /\ (forall t,
               In t r
               <-> In t (transactions self)
                   /\ date_le start (date t) /\ date_le (date t) end_)
         /\ Sorted by_date r
         /\ (~ date_le start end_ -> r = []).
Proof.
  intros E1. split.
  - eexists. split.
    + apply (date_filter_valid self date1 None start None E1 eq_refl).
    + cbn [in_range]. split; [apply sorted_by_date_perm|].
      split; [|apply sorted_by_date_sorted].
      intros t. split.
      * intros Hin.
        apply (Permutation_in _ (sorted_by_date_perm _)) in Hin.
        apply filter_In in Hin. destruct Hin as [Hin E].
        split; [exact Hin|apply date_eqb_eq; exact E].
      * intros [Hin E].
        apply (Permutation_in _ (Permutation_sym (sorted_by_date_perm _))).
        apply filter_In. split; [exact Hin|apply date_eqb_eq; exact E].
  - intros date2 end_ E2. eexists. split.
    + apply (date_filter_valid self date1 (Some date2) start (Some end_) E1).
      cbn. rewrite E2. reflexivity.
    + cbn [in_range]. split; [apply sorted_by_date_perm|].
      split; [|split; [apply sorted_by_date_sorted|]].
      * intros t. rewrite <- !date_leb_le, <- andb_true_iff. split.
        -- intros Hin.
           apply (Permutation_in _ (sorted_by_date_perm _)) in Hin.
           apply filter_In in Hin. exact Hin.
        -- intros Hin.
           apply (Permutation_in _
                    (Permutation_sym (sorted_by_date_perm _))).
           apply filter_In. exact Hin.
      * intros N.
        change (fun t => date_leb start (date t) && date_leb (date t) end_)
          with (in_range (A := A) start (Some end_)).
        rewrite empty_range; [reflexivity|].
        destruct (date_leb start end_) eqn:L; [|reflexivity].
        apply date_leb_le in L. contradiction.
Qed.

Lemma same_day_range (start : datetime) (t : Transaction A) :
  date_leb start (date t) && date_leb (date t) start
  = date_eqb (date t) start.
Proof.
  destruct (date_eqb (date t) start) eqn:E.
  - apply date_eqb_eq in E. rewrite E.
    assert (L : date_leb start start = true)
      by (apply date_leb_le; unfold date_le; lia).
    rewrite L. reflexivity.
  - destruct (date_leb start (date t)) eqn:L1;
      destruct (date_leb (date t) start) eqn:L2; try reflexivity.
    exfalso. apply date_leb_le in L1, L2.
    assert (Heq : date t = start).
    { destruct (date t) as [y m d], start as [y' m' d'].
      unfold date_le in L1, L2; cbn in L1, L2.
      f_equal; lia. }
    apply date_eqb_eq in Heq. congruence.
Qed.

Lemma for_each_ext {X S} (f g : S -> X -> result S) (l : list X) (s : S) :
  (forall s x, f s x = g s x) -> for_each f l s = for_each g l s.
Proof.
  intros Hfg. revert s. induction l as [|x l IH]; intros s; cbn.
  - reflexivity.
  - rewrite Hfg. destruct (g s x) as [s'|e]; cbn; [apply IH|reflexivity].
Qed.

(** A range from a day to the same day is the single-date form, also when
    the string does not parse. *)
Theorem date_filter_same_day self (date1 : string) :
  date_filter self date1 (Some date1) = date_filter self date1 None.
Proof.
  unfold date_filter. f_equal. apply for_each_ext.
  intros acc t. unfold date_test.
  destruct (strptime date1) as [start|]; cbn; [|reflexivity].
  rewrite same_day_range. reflexivity.
Qed.
End DateFilterClaims.

(* ================================================================== *)
(** * Sums of category totals *)

Section Sums.
Context {A : Type} `{AmountLaws A}.

Lemma fold_add_shift (l : list A) (x a : A) :
  fold_left aadd l (aadd x a) = aadd (fold_left aadd l x) a.
Proof.
  revert x. induction l as [|b l IH]; intros x; cbn.
  - reflexivity.
  - rewrite <- IH. f_equal.
    rewrite <- !aadd_assoc. f_equal. apply aadd_comm.
Qed.

Lemma fold_add_perm (l l' : list A) (x : A) :
  Permutation l l' -> fold_left aadd l x = fold_left aadd l' x.
Proof.
  intros P. revert x. induction P; intros z; cbn.
  - reflexivity.
  - apply IHP.
  - f_equal. rewrite <- !aadd_assoc. f_equal. apply aadd_comm.
  - rewrite IHP1. apply IHP2.
Qed.

Context {K : Type} `{KeyLaws K}.

Lemma sum_dict_set_new (k : K) (a z : A) (d : dict K A) :
  dict_get k d = None ->
  fold_left aadd (values (dict_set k a d)) z
  = aadd (fold_left aadd (values d) z) a.
Proof.
  revert z. unfold values.
  induction d as [|[k' v'] d IH]; intros z; cbn.
  - reflexivity.
  - destruct (keqb k k'); [discriminate|]. cbn. apply IH.
Qed.

Lemma sum_dict_set_add (k : K) (total a z : A) (d : dict K A) :
  dict_get k d = Some total ->
  fold_left aadd (values (dict_set k (aadd total a) d)) z
  = aadd (fold_left aadd (values d) z) a.
Proof.
  revert z. unfold values.
  induction d as [|[k' v'] d IH]; intros z; cbn.
  - discriminate.
  - destruct (keqb k k'); cbn.
    + intros [= ->]. rewrite aadd_assoc. apply fold_add_shift.
    + apply IH.
Qed.

Lemma sum_values_accumulate (k : K) (a : A) (d : dict K A) :
  sum_values (accumulate k a d) = aadd (sum_values d) a.
Proof.
  unfold sum_values, accumulate.
  destruct (dict_get k d) as [total|] eqn:G.
  - apply sum_dict_set_add. exact G.
  - apply sum_dict_set_new. exact G.
Qed.

Lemma sum_values_group (kf : Transaction A -> K) (kind : string) txns
    (d : dict K A) :
  sum_values (fold_left (group_step kf kind) txns d)
  = fold_left
      (fun acc t =>
         if String.eqb (txn_type t) kind then aadd acc (amount t) else acc)
      txns (sum_values d).
Proof.
  revert d. induction txns as [|t txns IH]; intros d; cbn [fold_left].
  - reflexivity.
  - rewrite IH. f_equal. unfold group_step.
    destruct (String.eqb (txn_type t) kind); [|reflexivity].
    apply sum_values_accumulate.
Qed.

Lemma sum_values_sorted_items (d : dict K A) :
  sum_values (sorted_items d) = sum_values d.
Proof.
  unfold sum_values. apply fold_add_perm.
  apply Permutation_map. apply sorted_items_perm.
Qed.
End Sums.

Section SumClaims.
Context {A : Type} `{AmountLaws A}.
Variable w : World A.

Lemma sum_values_totals (kind : string) (txns : list (Transaction A)) :
  sum_values (sorted_items (totals_loop kind txns)) = total_of kind txns.
Proof.
  rewrite sum_values_sorted_items, totals_loop_group, sum_values_group.
  reflexivity.
Qed.

(** C3, for exact amounts. When the addition of amounts is associative
    and commutative, the values of [totals_each_income_category] add up
    to the income total and those of [totals_each_expense_category] to
    the expense total, so the formatted sums are the strings
    [get_total_income] and [get_total_expenses] return. *)
Theorem category_totals_add_up self (tr : FinanceTracker A) :
  (use_file self = false ->
   exists incomes expenses,
     totals_each_income_category w self tr = Ok (incomes, tr)
     /\ totals_each_expense_category w self tr = Ok (expenses, tr))
  /\ (forall incomes tr',
        totals_each_income_category w self tr = Ok (incomes, tr') ->
        sum_values incomes = total_of "income" (transactions tr')
        /\ fmt2 (sum_values incomes) = get_total_income tr')
  /\ (forall expenses tr',
        totals_each_expense_category w self tr = Ok (expenses, tr') ->
        sum_values expenses = total_of "expense" (transactions tr')
        /\ fmt2 (sum_values expenses) = get_total_expenses tr').
Proof.
  unfold totals_each_income_category, totals_each_expense_category.
  rewrite !totals_synced.
  split; [|split].
  - intros E. rewrite !synced_without_file by exact E.
    eexists. eexists. split; reflexivity.
  - intros incomes tr' E. apply synced_inv in E. destruct E as [-> _].
    unfold get_total_income. rewrite sum_values_totals.
    split; reflexivity.
  - intros expenses tr' E. apply synced_inv in E. destruct E as [-> _].
    unfold get_total_expenses. rewrite sum_values_totals.
    split; reflexivity.
Qed.
End SumClaims.

(* ================================================================== *)
(** * Order of keys, unknown kinds and the frame of the aggregates *)

Section OrderClaims.
Context {A : Type} `{Amount A}.
Variable w : World A.

Lemma monthly_keys_increasing kind (txns : list (Transaction A)) :
  Sorted month_lt (keys (sorted_items (monthly_basis_loop kind txns))).
Proof.
  eapply Sorted_impl_In;
    [|apply keys_sorted_items_increasing, NoDup_keys_monthly_basis_loop].
  intros a b _ _. apply klt_month_lt.
Qed.

Lemma totals_keys_increasing kind (txns : list (Transaction A)) :
  Sorted string_lt (keys (sorted_items (totals_loop kind txns))).
Proof.
  eapply Sorted_impl_In;
    [|apply keys_sorted_items_increasing, NoDup_keys_totals_loop].
  intros a b _ _. apply klt_string_lt.
Qed.

Lemma totals_keys_are_categories kind (txns : list (Transaction A)) k :
  In k (keys (sorted_items (totals_loop kind txns))) ->
  exists t, In t txns /\ category t = k.
Proof.
  rewrite In_keys_sorted_items, totals_loop_group, In_keys_group.
  intros [[]|[t [Hin [_ Hk]]]]. exists t. auto.
Qed.

Lemma totals_keys_case_normalized kind (txns : list (Transaction A)) :
  (forall t, In t txns -> lower (category t) = category t) ->
  Sorted case_normalized_le
    (keys (sorted_items (totals_loop kind txns))).
Proof.
  intros Hnorm.
  eapply Sorted_impl_In; [|apply totals_keys_increasing].
  intros a b Ha Hb L. unfold case_normalized_le.
  apply totals_keys_are_categories in Ha, Hb.
  destruct Ha as [ta [Hta <-]], Hb as [tb [Htb <-]].
  rewrite !Hnorm by assumption. apply string_lt_leb. exact L.
Qed.

(** C5, as the code has it. The keys of [monthly_income] and
    [monthly_expenses] are strictly increasing in the lexicographic order
    of (year, month). The keys of [totals_each_income_category] and
    [totals_each_expense_category] are strictly increasing in the plain
    order of strings, which is the case-normalized alphabetical order
    when the stored categories are case-normalized. *)
Theorem aggregate_keys_sorted self (tr : FinanceTracker A) :
  (use_file self = false ->
   exists mi me ti te,
     monthly_income w self tr = Ok (mi, tr)
     /\ monthly_expenses w self tr = Ok (me, tr)
     /\ totals_each_income_category w self tr = Ok (ti, tr)
     /\ totals_each_expense_category w self tr = Ok (te, tr))
  /\ (forall d tr',
        monthly_income w self tr = Ok (d, tr')
        \/ monthly_expenses w self tr = Ok (d, tr') ->
        Sorted month_lt (keys d))
  /\ (forall d tr',
        totals_each_income_category w self tr = Ok (d, tr')
        \/ totals_each_expense_category w self tr = Ok (d, tr') ->
        Sorted string_lt (keys d)
        /\ ((forall t, In t (transactions tr') ->
               lower (category t) = category t) ->
            Sorted case_normalized_le (keys d))).
Proof.
  unfold monthly_income, monthly_expenses, totals_each_income_category,
    totals_each_expense_category.
  rewrite !monthly_basis_synced, !totals_synced.
  split; [|split].
  - intros E. rewrite !synced_without_file by exact E.
    do 4 eexists. repeat split; reflexivity.
  - intros d tr' [E|E]; apply synced_inv in E; destruct E as [-> _];
      apply monthly_keys_increasing.
  - intros d tr' [E|E]; apply synced_inv in E; destruct E as [-> _];
      (split; [apply totals_keys_increasing
              |apply totals_keys_case_normalized]).
Qed.

(** C8, as the code has it. No aggregate checks its [txn_type] argument:
    the only exceptions of [_monthly_basis] and
    [_totals_each_txn_type_category] are those of the sync, whatever the
    kind; without a file they return the totals of the transactions
    whose type is the string given, which is the empty dict when no
    transaction has that type. *)
Theorem aggregates_accept_any_kind self (tr : FinanceTracker A)
    (kind : string) :
  (forall e,
     (_monthly_basis w self kind tr = Raise e
      <-> _sync_transactions w self tr = Raise e)
     /\ (_totals_each_txn_type_category w self kind tr = Raise e
         <-> _sync_transactions w self tr = Raise e))
  /\ (use_file self = false ->
      _monthly_basis w self kind tr
      = Ok (sorted_items (monthly_basis_loop kind (transactions tr)), tr)
      /\ _totals_each_txn_type_category w self kind tr
         = Ok (sorted_items (totals_loop kind (transactions tr)), tr))
  /\ ((forall t, In t (transactions tr) -> txn_type t <> kind) ->
      sorted_items (monthly_basis_loop kind (transactions tr)) = []
      /\ sorted_items (totals_loop kind (transactions tr)) = []).
Proof.
  rewrite monthly_basis_synced, totals_synced.
  split; [|split].
  - intros e. rewrite !synced_run.
    destruct (_sync_transactions w self tr) as [[u tr1]|e1];
      split; split; intros E; try discriminate E;
      injection E as ->; reflexivity.
  - intros E. rewrite !synced_without_file by exact E.
    split; reflexivity.
  - intros Hno.
    rewrite monthly_basis_loop_group, totals_loop_group.
    rewrite !group_no_match by exact Hno. split; reflexivity.
Qed.

(** C10. Built with [use_file=False], every aggregate returns and leaves
    the tracker as it found it: the same transactions in the same
    order. *)
Theorem aggregates_keep_transactions self (tr : FinanceTracker A) :
  use_file self = false ->
  (exists d, monthly_income w self tr = Ok (d, tr))
  /\ (exists d, monthly_expenses w self tr = Ok (d, tr))
  /\ (exists d, monthly_net_savings w self tr = Ok (d, tr))
  /\ (exists d, monthly_income_categories w self tr = Ok (d, tr))
  /\ (exists d, monthly_expenses_categories w self tr = Ok (d, tr))
  /\ (exists d, totals_each_income_category w self tr = Ok (d, tr))
  /\ (exists d, totals_each_expense_category w self tr = Ok (d, tr)).
Proof.
  intros E.
  unfold monthly_income, monthly_expenses, monthly_income_categories,
    monthly_expenses_categories, totals_each_income_category,
    totals_each_expense_category.
  rewrite monthly_net_savings_run, sync_without_file by exact E.
  rewrite !monthly_basis_synced, !monthly_categories_basis_synced,
    !totals_synced.
  rewrite !synced_without_file by exact E.
  repeat split; eexists; reflexivity.
Qed.
(** An aggregate called again, with no transaction added in between,
    returns the same result and leaves the same ledger. *)
Theorem aggregates_idempotent self (tr : FinanceTracker A) (kind : string) :
  (forall d tr',
     _monthly_basis w self kind tr = Ok (d, tr') ->
     _monthly_basis w self kind tr' = Ok (d, tr'))
  /\ (forall d tr',
        _monthly_categories_basis w self kind tr = Ok (d, tr') ->
        _monthly_categories_basis w self kind tr' = Ok (d, tr'))
  /\ (forall d tr',
        _totals_each_txn_type_category w self kind tr = Ok (d, tr') ->
        _totals_each_txn_type_category w self kind tr' = Ok (d, tr'))
  /\ (forall d tr',
        monthly_net_savings w self tr = Ok (d, tr') ->
        monthly_net_savings w self tr' = Ok (d, tr')).
Proof.
  rewrite monthly_basis_synced, monthly_categories_basis_synced,
    totals_synced.
  split; [|split; [|split]].
  - intros d tr' E. apply synced_inv in E. destruct E as (-> & _ & Hg).
    apply Hg.
  - intros d tr' E. apply synced_inv in E. destruct E as (-> & _ & Hg).
    apply Hg.
  - intros d tr' E. apply synced_inv in E. destruct E as (-> & _ & Hg).
    apply Hg.
  - intros d tr'. rewrite !monthly_net_savings_run.
    destruct (_sync_transactions w self tr) as [[[] tr1]|e] eqn:E;
      [|discriminate].
    intros [= <- <-]. rewrite (sync_again _ _ _ _ _ E). reflexivity.
Qed.
End OrderClaims.

(* ================================================================== *)
(** * The layout of the analysis report *)

Section LayoutFacts.
Context {A : Type} `{Amount A}.

Lemma fold_writerow {X} (step : list (row A) -> X -> list (row A))
    (f : X -> row A) (l : list X) (out : list (row A)) :
  (forall out x, step out x = writerow out (f x)) ->
  fold_left step l out = out ++ map f l.
Proof.
  intros Hstep. revert out. induction l as [|x l IH]; intros out; cbn.
  - rewrite app_nil_r. reflexivity.
  - rewrite IH, Hstep. unfold writerow.
    rewrite <- app_assoc. reflexivity.
Qed.

Lemma fold_month_rows_colon (d : dict MonthKey A) out :
  fold_left
    (fun out (item : MonthKey * A) =>
       let '(tuple_date, total) := item in
       writerow out [Str (month_year tuple_date ++ ":")%string; Num total])
    d out
  = out ++ map (month_row month_year_colon) d.
Proof. apply fold_writerow. intros o [k v]. reflexivity. Qed.

Lemma fold_month_rows (d : dict MonthKey A) out :
  fold_left
    (fun out (item : MonthKey * A) =>
       let '(tuple_date, total) := item in
       writerow out [Str (month_year tuple_date); Num total])
    d out
  = out ++ map (month_row month_year) d.
Proof. apply fold_writerow. intros o [k v]. reflexivity. Qed.

Lemma fold_category_rows (d : dict string A) out :
  fold_left
    (fun out (item : string * A) =>
       let '(cat, total) := item in
       writerow out [Str cat; Str (fmt2 total)])
    d out
  = out ++ map category_row d.
Proof. apply fold_writerow. intros o [k v]. reflexivity. Qed.

Lemma fold_month_category_rows (d : dict (MonthKey * string) A) out :
  fold_left
    (fun out (item : (MonthKey * string) * A) =>
       let '(combined_tuple, total) := item in
       writerow out
         [Str (snd combined_tuple);
          Str (month_year (fst combined_tuple)); Num total])
    d out
  = out ++ map month_category_row d.
Proof. apply fold_writerow. intros o [k v]. reflexivity. Qed.
End LayoutFacts.

Section ExportClaims.
Context {A : Type} `{Amount A}.
Variable w : World A.

Lemma bind_ok {X Y} (c : Run A X) (k : X -> Run A Y) tr x tr' :
  c tr = Ok (x, tr') -> bind c k tr = k x tr'.
Proof. unfold bind. intros ->. reflexivity. Qed.

Lemma bind_raise {X Y} (c : Run A X) (k : X -> Run A Y) tr e :
  c tr = Raise e -> bind c k tr = Raise e.
Proof. unfold bind. intros ->. reflexivity. Qed.

Lemma export_analysis_run self tr :
  export_analysis w self tr
  = match _sync_transactions w self tr with
    | Ok (_, tr') => Ok (analysis_of tr', tr')
    | Raise e => Raise e
    end.
Proof.
  unfold export_analysis.
  destruct (_sync_transactions w self tr) as [[[] tr1]|e] eqn:E;
    [|apply bind_raise; exact E].
  pose proof (sync_again _ _ _ _ _ E) as E1.
  rewrite (bind_ok _ _ _ _ _ E).
  erewrite bind_ok
    by (rewrite monthly_net_savings_run, E1; reflexivity).
  unfold monthly_income, monthly_expenses, monthly_income_categories,
    monthly_expenses_categories, totals_each_income_category,
    totals_each_expense_category.
  rewrite !monthly_basis_synced, !monthly_categories_basis_synced,
    !totals_synced.
  do 6 (erewrite bind_ok by (rewrite synced_run, E1; reflexivity)).
  cbv zeta.
  rewrite !fold_month_category_rows, !fold_category_rows,
    !fold_month_rows, !fold_month_rows_colon.
  unfold writerow, analysis_of, analysis_layout, section_rows.
  f_equal. f_equal.
  repeat (rewrite <- app_assoc; cbn [app]).
  reflexivity.
Qed.
End ExportClaims.

Section ExportLayoutClaim.
Context {A : Type} `{Amount A}.
Variable w : World A.

(** The report as the code writes it. After the balance, total income and
    total expenses rows the report holds, in this order, the sections monthly
    net savings, monthly income, monthly expenses, income totals by
    category, expense totals by category, monthly income by category and
    monthly expenses by category, each opened by a blank row and a header
    row. A month label is the month name, a space and the year; the
    labels of the net savings and the monthly income sections end in a
    colon, those of the other sections do not. *)
Theorem export_analysis_layout self (tr : FinanceTracker A) :
  (use_file self = false ->
   exists rows, export_analysis w self tr = Ok (rows, tr))
  /\ forall rows tr',
       export_analysis w self tr = Ok (rows, tr') ->
       exists net_savings incomes expenses income_totals expense_totals
              income_categories expense_categories,
         monthly_net_savings w self tr = Ok (net_savings, tr')
         /\ monthly_income w self tr = Ok (incomes, tr')
         /\ monthly_expenses w self tr = Ok (expenses, tr')
         /\ totals_each_income_category w self tr = Ok (income_totals, tr')
         /\ totals_each_expense_category w self tr
            = Ok (expense_totals, tr')
         /\ monthly_income_categories w self tr
            = Ok (income_categories, tr')
         /\ monthly_expenses_categories w self tr
            = Ok (expense_categories, tr')
         /\ rows
            = analysis_layout month_year_colon month_year_colon month_year
                tr' net_savings incomes expenses income_totals
                expense_totals income_categories expense_categories.
Proof.
  split.
  - intros E. rewrite export_analysis_run, sync_without_file by exact E.
    eexists. reflexivity.
  - intros rows tr'. rewrite export_analysis_run.
    destruct (_sync_transactions w self tr) as [[[] tr1]|e] eqn:E;
      [|discriminate].
    intros [= <- <-].
    unfold monthly_income, monthly_expenses, monthly_income_categories,
      monthly_expenses_categories, totals_each_income_category,
      totals_each_expense_category.
    rewrite monthly_net_savings_run, !monthly_basis_synced,
      !monthly_categories_basis_synced, !totals_synced, !synced_run, E.
    do 7 eexists. repeat split; reflexivity.
Qed.
End ExportLayoutClaim.

(* ================================================================== *)
(** * Runs on concrete ledgers *)

#[export] Instance int_AmountLaws : AmountLaws Z.
Proof. split; intros; cbn; lia. Qed.

Example transaction_init_salary_jan :
  Transaction_init "2024-01-05" " Income " 1000%float "salary" = Ok salary_jan.
Proof. reflexivity. Qed.

Example scenario1_balance :
  calc_current_balance ledger1 = "1800.00"
  /\ get_total_income ledger1 = "2000.00"
  /\ get_total_expenses ledger1 = "200.00".
Proof. vm_compute. repeat split. Qed.

Example scenario2_date_range :
  date_filter ledger1 "2024-01-01" (Some "2024-01-31")
  = Ok [salary_jan; food_jan].
Proof. vm_compute. reflexivity. Qed.

Example category_filter_is_case_sensitive :
  category_filter ledger_case "zebra" = []
  /\ category_filter ledger_case "Zebra"
     = [mkTransaction (mkDate 2024 3 2) "income" 7%float "Zebra"].
Proof. vm_compute. split; reflexivity. Qed.

(* ================================================================== *)
(** * The claims on concrete ledgers *)

(** C1 on the first scenario: January has both totals and nets 800,
    February has no expense and is absent. *)
Lemma monthly_net_savings_join_witness :
  exists net,
    monthly_net_savings no_files in_memory ledger1 = Ok (net, ledger1)
    /\ dict_get (2024, 1) net = Some 800%float
    /\ dict_get (2024, 2) net = None.
Proof.
  destruct (monthly_net_savings_join no_files in_memory ledger1)
    as [Hret Hjoin].
  destruct (Hret eq_refl) as [net Hnet]. exists net.
  split; [exact Hnet|].
  destruct (Hjoin net ledger1 Hnet)
    as (income_dict & expenses_dict & Hi & He & _ & Hv & Hn).
  vm_compute in Hi, He. injection Hi as <-. injection He as <-.
  split.
  - apply (Hv (2024, 1) 1000%float 200%float); reflexivity.
  - apply Hn. right. reflexivity.
Defined.

(** C3 on int amounts: bonus 300 and salary 1500 add up to the income
    total. *)
Lemma category_totals_add_up_witness :
  exists incomes,
    totals_each_income_category no_files in_memory ledger_int
    = Ok (incomes, ledger_int)
    /\ incomes = [("bonus", 300); ("salary", 1500)]
    /\ fmt2 (sum_values incomes) = get_total_income ledger_int.
Proof.
  destruct (category_totals_add_up (A := Z) no_files in_memory ledger_int)
    as (Hret & Hinc & _).
  destruct (Hret eq_refl) as (incomes & expenses & Hi & _).
  exists incomes. split; [exact Hi|]. split.
  - vm_compute in Hi. injection Hi as <-. reflexivity.
  - apply (Hinc incomes ledger_int Hi).
Defined.

(** C3 fails on floats: the total of [ledger_big] is formed as
    (1e16 + 1) + 1, which stays 1e16, while the category totals 1e16 and
    1 + 1 add up to 1e16 + 2. *)
Lemma category_totals_float_counterexample :
  exists incomes,
    totals_each_income_category no_files in_memory ledger_big
    = Ok (incomes, ledger_big)
    /\ fmt2 (sum_values incomes) = "10000000000000002.00"
    /\ get_total_income ledger_big = "10000000000000000.00"
    /\ fmt2 (sum_values incomes) <> get_total_income ledger_big.
Proof.
  eexists. split; [vm_compute; reflexivity|].
  split; [vm_compute; reflexivity|].
  split; [vm_compute; reflexivity|].
  vm_compute. discriminate.
Qed.

(** The same at ordinary magnitudes: (0.001 + 0.004) + 0.03 is just below
    0.035 and formats as 0.03, while 0.001 + (0.004 + 0.03) is just above
    and formats as 0.04. *)
Example category_totals_small_amounts :
  exists incomes,
    totals_each_income_category no_files in_memory ledger_small
    = Ok (incomes, ledger_small)
    /\ fmt2 (sum_values incomes) = "0.04"
    /\ get_total_income ledger_small = "0.03".
Proof.
  eexists. split; [vm_compute; reflexivity|].
  split; vm_compute; reflexivity.
Qed.

(** C4 on the second scenario: the two January transactions, by date. *)
Lemma date_filter_spec_witness :
  exists r,
    date_filter ledger1 "2024-01-01" (Some "2024-01-31") = Ok r
    /\ Sorted by_date r
    /\ List.length r = 2%nat
    /\ date_filter ledger1 "2024-01-31" (Some "2024-01-01") = Ok [].
Proof.
  destruct (date_filter_spec ledger1 "2024-01-01" (mkDate 2024 1 1) eq_refl)
    as [_ Hrange].
  destruct (Hrange "2024-01-31" (mkDate 2024 1 31) eq_refl)
    as (r & Hr & Hperm & _ & Hsorted & _).
  exists r. split; [exact Hr|]. split; [exact Hsorted|]. split.
  - rewrite (Permutation_length Hperm). reflexivity.
  - destruct (date_filter_spec ledger1 "2024-01-31" (mkDate 2024 1 31)
                eq_refl) as [_ Hback].
    destruct (Hback "2024-01-01" (mkDate 2024 1 1) eq_refl)
      as (r' & Hr' & _ & _ & _ & Hempty).
    rewrite Hr'. f_equal. apply Hempty.
    unfold date_le; cbn. lia.
Defined.

(** C5 on lower-case categories: plain order and case-normalized order
    agree. *)
Lemma aggregate_keys_sorted_witness :
  exists d,
    totals_each_income_category no_files in_memory ledger_int
    = Ok (d, ledger_int)
    /\ Sorted string_lt (keys d)
    /\ Sorted case_normalized_le (keys d).
Proof.
  destruct (aggregate_keys_sorted (A := Z) no_files in_memory ledger_int)
    as (Hret & _ & Htotals).
  destruct (Hret eq_refl) as (mi & me & ti & te & _ & _ & Hti & _).
  exists ti. split; [exact Hti|].
  destruct (Htotals ti ledger_int (or_introl Hti)) as [Hplain Hnorm].
  split; [exact Hplain|].
  apply Hnorm. intros t Hin. cbn in Hin.
  destruct Hin as [<-|[<-|[<-|[]]]]; reflexivity.
Defined.

(** C5 fails on a capitalized category: [sorted] puts "Zebra" before
    "apple", and "zebra" is not before "apple". *)
Lemma category_order_counterexample :
  exists d,
    totals_each_income_category no_files in_memory ledger_case
    = Ok (d, ledger_case)
    /\ keys d = ["Zebra"; "apple"]
    /\ ~ Sorted case_normalized_le (keys d).
Proof.
  eexists. split; [vm_compute; reflexivity|].
  split; [reflexivity|].
  intros Hs. cbn in Hs.
  inversion Hs as [|a l _ Hhd]; subst.
  inversion Hhd as [|b l' L]; subst.
  vm_compute in L. discriminate.
Qed.

(** C6 fails on a stored category with a capital: "Zebra" is "zebra" once
    case-normalized, and [category_filter] does not return it for
    "zebra". *)
Lemma category_filter_case_counterexample :
  category_filter ledger_case "zebra" = []
  /\ filter (fun t => String.eqb (lower (category t)) "zebra")
       (transactions ledger_case)
     = [mkTransaction (mkDate 2024 3 2) "income" 7%float "Zebra"].
Proof. vm_compute. split; reflexivity. Qed.

(** C6 on a ledger with a capitalized category, and on the first scenario,
    whose categories are lower-case. *)
Lemma category_filter_exact_witness :
  category_filter ledger_case "Zebra"
  = [mkTransaction (mkDate 2024 3 2) "income" 7%float "Zebra"]
  /\ category_filter ledger_case "apple"
     = [mkTransaction (mkDate 2024 3 1) "income" 5%float "apple"]
  /\ category_filter ledger1 "salary" = [salary_jan; salary_feb]
  /\ category_filter ledger1 "salary"
     = filter (fun t => String.eqb (lower (category t)) "salary")
         (transactions ledger1).
Proof.
  destruct (category_filter_exact ledger_case "Zebra") as [Hzebra _].
  destruct (category_filter_exact ledger_case "apple") as [Happle _].
  destruct (category_filter_exact ledger1 "salary") as [Hexact Hnorm].
  split; [rewrite Hzebra; reflexivity|].
  split; [rewrite Happle; reflexivity|].
  split.
  - rewrite Hexact. reflexivity.
  - apply Hnorm. intros t Hin. cbn in Hin.
    destruct Hin as [<-|[<-|[<-|[]]]]; reflexivity.
Defined.

(** C7 fails on a date argument in another format. *)
Lemma date_filter_raises_counterexample :
  date_filter ledger1 "2024/01/05" None = Raise ValueError
  /\ date_income_filter ledger1 "2024/01/05" None = Raise ValueError
  /\ date_category_filter ledger1 "2024-01-05" (Some "Jan 31") "food"
     = Raise ValueError.
Proof. vm_compute. repeat split. Qed.

(** C8 fails: an unknown kind gets an empty dict, not an exception. *)
Lemma unknown_kind_counterexample :
  _monthly_basis no_files in_memory "transfer" ledger1 = Ok ([], ledger1)
  /\ _totals_each_txn_type_category no_files in_memory "transfer" ledger1
     = Ok ([], ledger1).
Proof. vm_compute. split; reflexivity. Qed.

(** C8 on the first scenario. *)
Lemma aggregates_accept_any_kind_witness :
  _monthly_basis no_files in_memory "transfer" ledger1 = Ok ([], ledger1)
  /\ _totals_each_txn_type_category no_files in_memory "Income" ledger1
     = Ok ([], ledger1).
Proof.
  destruct (aggregates_accept_any_kind no_files in_memory ledger1 "transfer")
    as (_ & Hrun & Hempty).
  destruct (Hrun eq_refl) as [Hm _].
  destruct Hempty as [Em _].
  { intros t Hin. cbn in Hin.
    destruct Hin as [<-|[<-|[<-|[]]]]; discriminate. }
  destruct (aggregates_accept_any_kind no_files in_memory ledger1 "Income")
    as (_ & Hrun' & Hempty').
  destruct (Hrun' eq_refl) as [_ Ht].
  destruct Hempty' as [_ Et].
  { intros t Hin. cbn in Hin.
    destruct Hin as [<-|[<-|[<-|[]]]]; discriminate. }
  split.
  - rewrite Hm, Em. reflexivity.
  - rewrite Ht, Et. reflexivity.
Defined.

(** C9. On the first scenario the month label of the rows of the net
    savings and of the monthly income section is "January 2024:", with a
    colon, where the claim says "January 2024"; the rows of the monthly
    expenses section and of the sections by category, written by loops of
    the same shape, carry "January 2024". *)
Theorem export_analysis_label_slip :
  exists rows,
    export_analysis no_files in_memory ledger1 = Ok (rows, ledger1)
    /\ month_year (2024, 1) = "January 2024"
    /\ nth_error rows 4 = Some [Str "Monthly Net Savings"]
    /\ nth_error rows 5 = Some [Str "January 2024:"; Num 800%float]
    /\ nth_error rows 7 = Some [Str "Monthly Income"]
    /\ nth_error rows 8 = Some [Str "January 2024:"; Num 1000%float]
    /\ nth_error rows 11 = Some [Str "Monthly Expenses"]
    /\ nth_error rows 12 = Some [Str "January 2024"; Num 200%float]
    /\ nth_error rows 20 = Some [Str "Monthly Income by Category"]
    /\ nth_error rows 21
       = Some [Str "salary"; Str "January 2024"; Num 1000%float].
Proof.
  eexists. split; [vm_compute; reflexivity|].
  repeat split.
Qed.

(** The whole report of the first scenario. *)
Lemma export_analysis_layout_witness :
  exists rows,
    export_analysis no_files in_memory ledger1 = Ok (rows, ledger1)
    /\ rows
       = [[Str "Current Balance:"; Str "1800.00"];
          [Str "Total Income:"; Str "2000.00"];
          [Str "Total Expenses:"; Str "200.00"];
          []; [Str "Monthly Net Savings"];
          [Str "January 2024:"; Num 800%float];
          []; [Str "Monthly Income"];
          [Str "January 2024:"; Num 1000%float];
          [Str "February 2024:"; Num 1000%float];
          []; [Str "Monthly Expenses"];
          [Str "January 2024"; Num 200%float];
          []; [Str "Totals for Each Income Category"];
          [Str "salary"; Str "2000.00"];
          []; [Str "Totals for Each Expense Category"];
          [Str "food"; Str "200.00"];
          []; [Str "Monthly Income by Category"];
          [Str "salary"; Str "January 2024"; Num 1000%float];
          [Str "salary"; Str "February 2024"; Num 1000%float];
          []; [Str "Monthly Expenses by Category"];
          [Str "food"; Str "January 2024"; Num 200%float]].
Proof.
  destruct (export_analysis_layout no_files in_memory ledger1)
    as [Hret Hlayout].
  destruct (Hret eq_refl) as [rows Hrows]. exists rows.
  split; [exact Hrows|].
  destruct (Hlayout rows ledger1 Hrows)
    as (net & mi & me & ti & te & mic & mec
        & Hnet & Hmi & Hme & Hti & Hte & Hmic & Hmec & ->).
  vm_compute in Hnet, Hmi, Hme, Hti, Hte, Hmic, Hmec.
  injection Hnet as <-. injection Hmi as <-. injection Hme as <-.
  injection Hti as <-. injection Hte as <-.
  injection Hmic as <-. injection Hmec as <-.
  vm_compute. reflexivity.
Defined.

(** C10 on the first scenario. *)
Lemma aggregates_keep_transactions_witness :
  (exists d, monthly_net_savings no_files in_memory ledger1 = Ok (d, ledger1))
  /\ (exists d,
        totals_each_expense_category no_files in_memory ledger1
        = Ok (d, ledger1)).
Proof.
  destruct (aggregates_keep_transactions no_files in_memory ledger1 eq_refl)
    as (_ & _ & Hnet & _ & _ & _ & Hte).
  split; assumption.
Defined.


(** The same-day range on the first scenario. *)
Example date_filter_same_day_run :
  date_filter ledger1 "2024-01-10" (Some "2024-01-10") = Ok [food_jan].
Proof. vm_compute. reflexivity. Qed.

(** Idempotence with a file: the first call drops the three transactions
    the tracker held and loads the one of the file; the second call, from
    the ledger the first one left, gives the same. *)
Lemma aggregates_idempotent_witness :
  _monthly_basis (world_of demo_fs demo_amount) file_report "income"
    ledger_int
  = Ok ([((2024, 3), 5)],
        mkTracker [mkTransaction (mkDate 2024 3 1) "income" 5 "Zebra"])
  /\ _monthly_basis (world_of demo_fs demo_amount) file_report "income"
       (mkTracker [mkTransaction (mkDate 2024 3 1) "income" 5 "Zebra"])
     = Ok ([((2024, 3), 5)],
           mkTracker [mkTransaction (mkDate 2024 3 1) "income" 5 "Zebra"])
  /\ _totals_each_txn_type_category (world_of demo_fs demo_amount)
       file_report "income"
       (mkTracker [mkTransaction (mkDate 2024 3 1) "income" 5 "Zebra"])
     = Ok ([("Zebra", 5)],
           mkTracker [mkTransaction (mkDate 2024 3 1) "income" 5 "Zebra"])
  /\ monthly_net_savings no_files in_memory ledger1
     = Ok ([((2024, 1), 800%float)], ledger1).
Proof.
  destruct (aggregates_idempotent (world_of demo_fs demo_amount)
              file_report ledger_int "income")
    as (Hmonthly & _ & Htotals & _).
  destruct (aggregates_idempotent no_files in_memory ledger1 "income")
    as (_ & _ & _ & Hnet).
  assert (First :
    _monthly_basis (world_of demo_fs demo_amount) file_report "income"
      ledger_int
    = Ok ([((2024, 3), 5)],
          mkTracker [mkTransaction (mkDate 2024 3 1) "income" 5 "Zebra"]))
    by (vm_compute; reflexivity).
  split; [exact First|].
  split; [apply Hmonthly; exact First|].
  split; [apply Htotals; vm_compute; reflexivity|].
  apply Hnet. vm_compute. reflexivity.
Defined.

(* ================================================================== *)
(** * Further properties of the aggregates *)

Section AggregateValues.
Context {A : Type} `{Amount A}.
Variable w : World A.

Section GroupValues.
Context {K : Type} `{KeyLaws K}.
Variable kf : Transaction A -> K.
Variable kind : string.

Lemma dict_get_accumulate (k k' : K) (a : A) (d : dict K A) :
  dict_get k (accumulate k' a d)
  = if keqb k k'
    then Some (match dict_get k d with
               | Some total => aadd total a
               | None => a
               end)
    else dict_get k d.
Proof.
  unfold accumulate. destruct (keqb k k') eqn:E.
  - apply keqb_eq in E; subst k'.
    destruct (dict_get k d); apply dict_get_set_eq.
  - apply keqb_neq in E.
    destruct (dict_get k' d); apply dict_get_set_neq; exact E.
Qed.

(** The total under a key after the loop: what the dict held, then the
    amounts of the matching transactions, one after the other. *)
Lemma dict_get_group (k : K) txns (d : dict K A) :
  dict_get k (fold_left (group_step kf kind) txns d)
  = match dict_get k d with
    | Some total => Some (fold_left aadd (amounts_of kf kind k txns) total)
    | None => sum_in_order (amounts_of kf kind k txns)
    end.
Proof.
  revert d. unfold amounts_of.
  induction txns as [|t txns IH]; intros d; cbn [fold_left filter map].
  - destruct (dict_get k d); reflexivity.
  - rewrite IH. unfold group_step.
    destruct (String.eqb (txn_type t) kind); cbn [andb].
    + rewrite dict_get_accumulate.
      rewrite (keqb_sym_bool (kf t) k).
      destruct (keqb k (kf t)); cbn [map sum_in_order fold_left].
      * destruct (dict_get k d); reflexivity.
      * reflexivity.
    + reflexivity.
Qed.

Lemma dict_get_group_sorted (k : K) txns :
  dict_get k (sorted_items (fold_left (group_step kf kind) txns []))
  = sum_in_order (amounts_of kf kind k txns).
Proof.
  rewrite dict_get_sorted_items by (apply NoDup_keys_group; constructor).
  rewrite dict_get_group. reflexivity.
Qed.
End GroupValues.

(** Each total of an aggregate is the sum, in ledger order and without a
    starting zero, of the amounts of the transactions of the kind that
    fall under its key; a key under which none falls is absent. *)
Theorem aggregate_totals_in_order self (tr : FinanceTracker A)
    (kind : string) :
  (forall d tr',
     _monthly_basis w self kind tr = Ok (d, tr') ->
     forall k,
       dict_get k d
       = sum_in_order (amounts_of month_of kind k (transactions tr')))
  /\ (forall d tr',
        _monthly_categories_basis w self kind tr = Ok (d, tr') ->
        forall k,
          dict_get k d
          = sum_in_order
              (amounts_of month_category_of kind k (transactions tr')))
  /\ (forall d tr',
        _totals_each_txn_type_category w self kind tr = Ok (d, tr') ->
        forall k,
          dict_get k d
          = sum_in_order (amounts_of category kind k (transactions tr'))).
Proof.
  rewrite monthly_basis_synced, monthly_categories_basis_synced,
    totals_synced.
  split; [|split]; intros d tr' E k;
    apply synced_inv in E; destruct E as [-> _].
  - rewrite monthly_basis_loop_group. apply dict_get_group_sorted.
  - rewrite monthly_categories_loop_group.
    apply (dict_get_group_sorted month_category_of).
  - rewrite totals_loop_group. apply dict_get_group_sorted.
Qed.

Lemma klt_month_category_lt (a b : MonthKey * string) :
  klt a b -> month_category_lt a b.
Proof.
  destruct a as [a1 a2], b as [b1 b2].
  unfold klt, month_category_lt. cbn [kleb pair_Key fst snd].
  intros [L N]. destruct (keqb a1 b1) eqn:E.
  - apply keqb_eq in E. subst b1. right. split; [reflexivity|].
    apply klt_string_lt. split; [exact L|]. congruence.
  - left. apply klt_month_lt. split; [exact L|].
    apply keqb_neq. exact E.
Qed.

(** The keys of the monthly totals by category are strictly increasing by
    month and then by category, and those of the net savings strictly
    increasing by month. *)
Theorem categories_and_savings_keys_sorted self (tr : FinanceTracker A)
    (kind : string) :
  (forall d tr',
     _monthly_categories_basis w self kind tr = Ok (d, tr') ->
     Sorted month_category_lt (keys d))
  /\ (forall d tr',
        monthly_net_savings w self tr = Ok (d, tr') ->
        Sorted month_lt (keys d)).
Proof.
  split.
  - intros d tr'. rewrite monthly_categories_basis_synced. intros E.
    apply synced_inv in E. destruct E as [-> _].
    eapply Sorted_impl_In; [|apply keys_sorted_items_increasing].
    + intros a b _ _. apply klt_month_category_lt.
    + rewrite monthly_categories_loop_group.
      apply NoDup_keys_group. constructor.
  - intros d tr'. rewrite monthly_net_savings_run.
    destruct (_sync_transactions w self tr) as [[[] tr1]|e];
      [|discriminate].
    intros [= <- <-]. unfold net_savings_of.
    eapply Sorted_impl_In; [|apply keys_sorted_items_increasing].
    + intros a b _ _. apply klt_month_lt.
    + apply NoDup_keys_net_savings_loop.
Qed.

(** With [use_file=True] the file alone decides: whatever the tracker held
    before, the sync and every aggregate give the same outcome. *)
Theorem file_is_the_source self (tr tr' : FinanceTracker A) :
  use_file self = true ->
  _sync_transactions w self tr = _sync_transactions w self tr'
  /\ (forall kind,
        _monthly_basis w self kind tr = _monthly_basis w self kind tr'
        /\ _monthly_categories_basis w self kind tr
           = _monthly_categories_basis w self kind tr'
        /\ _totals_each_txn_type_category w self kind tr
           = _totals_each_txn_type_category w self kind tr')
  /\ monthly_net_savings w self tr = monthly_net_savings w self tr'
  /\ export_analysis w self tr = export_analysis w self tr'.
Proof.
  intros E.
  assert (S : _sync_transactions w self tr = _sync_transactions w self tr').
  { unfold _sync_transactions. rewrite E. reflexivity. }
  split; [exact S|]. split; [|split].
  - intros kind.
    rewrite monthly_basis_synced, monthly_categories_basis_synced,
      totals_synced, !synced_run, S.
    repeat split.
  - rewrite !monthly_net_savings_run, S. reflexivity.
  - rewrite !export_analysis_run, S. reflexivity.
Qed.
End AggregateValues.

Section MonthlySums.
Context {A : Type} `{AmountLaws A}.
Variable w : World A.

(** For exact amounts the monthly totals of a kind, and its monthly totals
    by category, add up to the total of the kind. *)
Theorem monthly_totals_add_up self (tr : FinanceTracker A) (kind : string) :
  (forall d tr',
     _monthly_basis w self kind tr = Ok (d, tr') ->
     sum_values d = total_of kind (transactions tr'))
  /\ (forall d tr',
        _monthly_categories_basis w self kind tr = Ok (d, tr') ->
        sum_values d = total_of kind (transactions tr')).
Proof.
  rewrite monthly_basis_synced, monthly_categories_basis_synced.
  split; intros d tr' E; apply synced_inv in E; destruct E as [-> _];
    rewrite sum_values_sorted_items.
  - rewrite monthly_basis_loop_group, sum_values_group. reflexivity.
  - rewrite monthly_categories_loop_group, sum_values_group. reflexivity.
Qed.
End MonthlySums.

(* ================================================================== *)
(** * Further properties of the filters *)

Section SortedFilter.
Context {X K : Type}.
Variable leb : K -> K -> bool.
Variable key : X -> K.
Hypothesis leb_refl : forall a, leb a a = true.
Hypothesis leb_total : forall a b, leb a b = true \/ leb b a = true.
Hypothesis leb_trans :
  forall a b c, leb a b = true -> leb b c = true -> leb a c = true.

Lemma insert_by_front (x : X) (l : list X) :
  Forall (fun y => leb (key x) (key y) = true) l ->
  insert_by leb key x l = x :: l.
Proof.
  intros F. destruct l as [|y l]; [reflexivity|].
  cbn. inversion F as [|? ? L _]; subst. rewrite L. reflexivity.
Qed.

Lemma Forall_filter_keep (P : X -> Prop) (p : X -> bool) (l : list X) :
  Forall P l -> Forall P (filter p l).
Proof.
  intros F. induction F as [|y l Py F IH]; cbn; [constructor|].
  destruct (p y); [constructor|]; assumption.
Qed.

Lemma sorted_by_above (x : X) (l : list X) :
  Sorted (key_le leb key) (x :: l) ->
  Forall (fun y => leb (key x) (key y) = true) l.
Proof.
  intros S. apply Sorted_StronglySorted in S.
  - inversion S; assumption.
  - intros a b c. unfold key_le. apply leb_trans.
Qed.

(** A filter goes through an insertion into a sorted list. *)
Lemma filter_insert_by (p : X -> bool) (x : X) (l : list X) :
  Sorted (key_le leb key) l ->
  filter p (insert_by leb key x l)
  = if p x then insert_by leb key x (filter p l) else filter p l.
Proof.
  induction l as [|y l IH]; intros S.
  - cbn. destruct (p x); reflexivity.
  - cbn [insert_by]. destruct (leb (key x) (key y)) eqn:L.
    + cbn [filter]. destruct (p x); [|reflexivity].
      symmetry. apply insert_by_front.
      assert (F : Forall (fun z => leb (key x) (key z) = true) (y :: l)).
      { constructor; [exact L|].
        eapply Forall_impl; [|apply (sorted_by_above y l S)].
        intros z Lz. cbn in Lz. eapply leb_trans; eassumption. }
      apply (Forall_filter_keep _ p) in F. exact F.
    + cbn [filter]. rewrite IH by (inversion S; assumption).
      destruct (p y), (p x); try reflexivity.
      cbn [insert_by]. rewrite L. reflexivity.
Qed.

(** [sorted] and a filter commute. *)
Lemma filter_sorted_by (p : X -> bool) (l : list X) :
  filter p (sorted_by leb key l) = sorted_by leb key (filter p l).
Proof.
  induction l as [|x l IH]; [reflexivity|].
  cbn [sorted_by filter].
  rewrite filter_insert_by by (apply sorted_by_sorted; exact leb_total).
  rewrite IH. destruct (p x); reflexivity.
Qed.

(** [sorted] is stable: the elements of one key keep their order. *)
Lemma same_key_insert_by (q : X -> bool) (x : X) (l : list X) :
  (forall y, q x = true -> q y = true -> key y = key x) ->
  filter q (insert_by leb key x l)
  = if q x then x :: filter q l else filter q l.
Proof.
  intros Hq. induction l as [|y l IH].
  - cbn. destruct (q x); reflexivity.
  - cbn [insert_by]. destruct (leb (key x) (key y)) eqn:L.
    + cbn. destruct (q x); reflexivity.
    + cbn [filter]. rewrite IH.
      destruct (q x) eqn:Qx, (q y) eqn:Qy; try reflexivity.
      rewrite (Hq y eq_refl Qy), leb_refl in L. discriminate.
Qed.

Lemma same_key_sorted_by (q : X -> bool) (l : list X) :
  (forall x y, q x = true -> q y = true -> key y = key x) ->
  filter q (sorted_by leb key l) = filter q l.
Proof.
  intros Hq. induction l as [|x l IH]; [reflexivity|].
  cbn [sorted_by filter].
  rewrite same_key_insert_by by (intros y; apply Hq).
  rewrite IH. reflexivity.
Qed.
End SortedFilter.

Lemma date_leb_refl (a : datetime) : date_leb a a = true.
Proof. apply date_leb_le. unfold date_le. lia. Qed.

Lemma date_leb_trans (a b c : datetime) :
  date_leb a b = true -> date_leb b c = true -> date_leb a c = true.
Proof. rewrite !date_leb_le. apply date_le_trans. Qed.

Lemma filter_filter {X} (p q : X -> bool) (l : list X) :
  filter p (filter q l) = filter (fun x => p x && q x) l.
Proof.
  induction l as [|x l IH]; [reflexivity|].
  cbn. destruct (q x); cbn.
  - rewrite IH, andb_true_r. destruct (p x); reflexivity.
  - rewrite IH, andb_false_r. reflexivity.
Qed.

Section FilterFacts.
Context {A : Type} `{Amount A}.
Implicit Types (self : FinanceTracker A) (t : Transaction A).

Lemma for_each_guard
    (body : list (Transaction A) -> Transaction A ->
            result (list (Transaction A)))
    (guard : Transaction A -> bool) txns acc :
  for_each
    (fun date_list t => if guard t then body date_list t else Ok date_list)
    txns acc
  = for_each body (filter guard txns) acc.
Proof.
  revert acc. induction txns as [|t txns IH]; intros acc; [reflexivity|].
  cbn [for_each filter]. destruct (guard t); cbn [for_each rbind].
  - destruct (body acc t); cbn; [apply IH|reflexivity].
  - apply IH.
Qed.

Lemma guarded_filters_compose self (date1 : string)
    (date2 : option string) :
  date_income_filter self date1 date2
  = date_filter
      (mkTracker
         (filter (fun t => String.eqb (txn_type t) "income")
            (transactions self)))
      date1 date2
  /\ date_expense_filter self date1 date2
     = date_filter
         (mkTracker
            (filter (fun t => String.eqb (txn_type t) "expense")
               (transactions self)))
         date1 date2
  /\ forall category_arg,
       date_category_filter self date1 date2 category_arg
       = date_filter (mkTracker (category_filter self category_arg))
           date1 date2.
Proof.
  unfold date_income_filter, date_expense_filter, _date_filter_by_type,
    date_category_filter, date_filter.
  cbn [transactions]. split; [|split].
  - rewrite for_each_guard. reflexivity.
  - rewrite for_each_guard. reflexivity.
  - intros category_arg.
    rewrite for_each_guard, category_filter_is_filter. reflexivity.
Qed.

(** The date filter of a type or of a category is the date filter of the
    ledger cut down to that type or category, exceptions included: a
    malformed date passes when no transaction of the type or category is
    there to be tested. *)
Theorem typed_filters_compose self (date1 : string)
    (date2 : option string) :
  date_income_filter self date1 date2
  = date_filter
      (mkTracker
         (filter (fun t => String.eqb (txn_type t) "income")
            (transactions self)))
      date1 date2
  /\ date_expense_filter self date1 date2
     = date_filter
         (mkTracker
            (filter (fun t => String.eqb (txn_type t) "expense")
               (transactions self)))
         date1 date2
  /\ forall category_arg,
       date_category_filter self date1 date2 category_arg
       = date_filter (mkTracker (category_filter self category_arg))
           date1 date2.
Proof. exact (guarded_filters_compose self date1 date2). Qed.

Lemma date_test_invalid date1 date2 acc t :
  dates_parse date1 date2 = false ->
  date_test date1 date2 acc t = Raise ValueError.
Proof.
  unfold dates_parse, date_test, parse_end.
  destruct date2 as [s|].
  - destruct (strptime date1); [|reflexivity].
    destruct (strptime s); [discriminate|reflexivity].
  - destruct (strptime date1); [discriminate|reflexivity].
Qed.

Lemma dates_parse_true date1 date2 :
  dates_parse date1 date2 = true ->
  exists start stop,
    strptime date1 = Some start /\ parse_end date2 = Some stop.
Proof.
  unfold dates_parse.
  destruct (strptime date1) as [start|]; [|discriminate].
  destruct (parse_end date2) as [stop|]; [|discriminate].
  eauto.
Qed.

(** What [date_filter] returns, in all cases. *)
Lemma date_filter_cases self date1 date2 :
  (exists start stop,
     strptime date1 = Some start /\ parse_end date2 = Some stop
     /\ date_filter self date1 date2
        = Ok (sorted_by_date
                (filter (in_range start stop) (transactions self))))
  \/ (dates_parse date1 date2 = false
      /\ date_filter self date1 date2
         = match transactions self with
           | [] => Ok []
           | _ :: _ => Raise ValueError
           end).
Proof.
  destruct (dates_parse date1 date2) eqn:E.
  - left. destruct (dates_parse_true _ _ E) as (start & stop & E1 & E2).
    exists start, stop. split; [exact E1|]. split; [exact E2|].
    apply date_filter_valid; assumption.
  - right. split; [reflexivity|]. unfold date_filter.
    destruct (transactions self) as [|t txns]; [reflexivity|].
    cbn [for_each]. rewrite date_test_invalid by exact E. reflexivity.
Qed.

Lemma none_kept_existsb {X R} (guard : X -> bool) (l : list X) (a b : R) :
  match filter guard l with
  | [] => a
  | _ :: _ => b
  end
  = if existsb guard l then b else a.
Proof.
  induction l as [|x l IH]; [reflexivity|].
  cbn. destruct (guard x); [reflexivity|exact IH].
Qed.

Lemma malformed_dates date1 date2 :
  strptime date1 = None
  \/ (exists s, date2 = Some s /\ strptime s = None) ->
  dates_parse date1 date2 = false.
Proof.
  unfold dates_parse. intros [E|(s & -> & E)].
  - rewrite E. reflexivity.
  - cbn. rewrite E. destruct (strptime date1); reflexivity.
Qed.

(** What a date filter with a guard does with a date string that does not
    parse: ValueError at the first transaction that passes the guard. *)
Lemma guarded_filter_invalid (guard : Transaction A -> bool) txns date1
    date2 :
  dates_parse date1 date2 = false ->
  for_each
    (fun date_list t =>
       if guard t then date_test date1 date2 date_list t else Ok date_list)
    txns []
  = if existsb guard txns then Raise ValueError else Ok [].
Proof.
  intros E. rewrite for_each_guard.
  rewrite <- (none_kept_existsb guard txns (Ok []) (Raise ValueError)).
  destruct (filter guard txns) as [|t l]; [reflexivity|].
  cbn [for_each]. rewrite date_test_invalid by exact E. reflexivity.
Qed.

(** C7, as the code has it. With date strings that parse, the five filters
    return, and return exactly the matching transactions sorted by date
    (the empty list when nothing matches); [category_filter] parses
    nothing and always returns. A date string that does not parse raises
    ValueError in [Transaction.__init__] when it is the date of a
    transaction. When it is an argument of a date filter, the first or the
    second, it raises ValueError inside the filter as soon as a
    transaction is tested: any transaction for [date_filter], one of the
    type for the income and the expense filter, one of the category for
    [date_category_filter]; with no such transaction the filter returns
    the empty list. *)
Theorem filters_return_on_valid_dates self (date1 : string)
    (date2 : option string) :
  (forall start stop,
     strptime date1 = Some start -> parse_end date2 = Some stop ->
     date_filter self date1 date2
     = Ok (sorted_by_date
             (filter (in_range start stop) (transactions self)))
     /\ date_income_filter self date1 date2
        = Ok (sorted_by_date
                (filter
                   (fun t =>
                      String.eqb (txn_type t) "income"
                      && in_range start stop t)
                   (transactions self)))
     /\ date_expense_filter self date1 date2
        = Ok (sorted_by_date
                (filter
                   (fun t =>
                      String.eqb (txn_type t) "expense"
                      && in_range start stop t)
                   (transactions self)))
     /\ (forall category_arg,
           date_category_filter self date1 date2 category_arg
           = Ok (sorted_by_date
                   (filter
                      (fun t =>
                         String.eqb (category t) category_arg
                         && in_range start stop t)
                      (transactions self))))
     /\ ((forall t, In t (transactions self) ->
            in_range start stop t = false) ->
         date_filter self date1 date2 = Ok []))
  /\ (forall category_arg,
        (forall t, In t (transactions self) ->
           category t <> category_arg) ->
        category_filter self category_arg = [])
  /\ (strptime date1 = None
      \/ (exists s, date2 = Some s /\ strptime s = None) ->
      date_filter self date1 date2
      = match transactions self with
        | [] => Ok []
        | _ :: _ => Raise ValueError
        end
      /\ date_income_filter self date1 date2
         = (if existsb (fun t => String.eqb (txn_type t) "income")
                 (transactions self)
            then Raise ValueError else Ok [])
      /\ date_expense_filter self date1 date2
         = (if existsb (fun t => String.eqb (txn_type t) "expense")
                 (transactions self)
            then Raise ValueError else Ok [])
      /\ forall category_arg,
           date_category_filter self date1 date2 category_arg
           = if existsb (fun t => String.eqb (category t) category_arg)
                  (transactions self)
             then Raise ValueError else Ok [])
  /\ (forall type_str (amount : A) category_arg,
        strptime date1 = None ->
        Transaction_init date1 type_str amount category_arg
        = Raise ValueError).
Proof.
  split; [|split; [|split]].
  - intros start stop E1 E2.
    split; [apply date_filter_valid; assumption|].
    split; [|split; [|split]].
    + unfold date_income_filter, _date_filter_by_type.
      rewrite (guarded_filter_valid
                 (fun t => String.eqb (txn_type t) "income")
                 _ _ _ _ _ E1 E2).
      reflexivity.
    + unfold date_expense_filter, _date_filter_by_type.
      rewrite (guarded_filter_valid
                 (fun t => String.eqb (txn_type t) "expense")
                 _ _ _ _ _ E1 E2).
      reflexivity.
    + intros category_arg. unfold date_category_filter.
      rewrite (guarded_filter_valid
                 (fun t => String.eqb (category t) category_arg)
                 _ _ _ _ _ E1 E2).
      reflexivity.
    + intros Hno. rewrite (date_filter_valid _ _ _ _ _ E1 E2).
      replace (filter (in_range start stop) (transactions self))
        with (@nil (Transaction A)); [reflexivity|].
      symmetry. induction (transactions self) as [|t txns IH];
        [reflexivity|].
      cbn. rewrite Hno by (left; reflexivity).
      apply IH. intros t' Hin. apply Hno. right. exact Hin.
  - intros category_arg Hno.
    rewrite category_filter_is_filter.
    induction (transactions self) as [|t txns IH]; [reflexivity|].
    cbn. destruct (String.eqb_spec (category t) category_arg) as [E|N].
    + exfalso. apply (Hno t); [left; reflexivity|exact E].
    + apply IH. intros t' Hin. apply Hno. right. exact Hin.
  - intros M. apply malformed_dates in M. split; [|split; [|split]].
    + unfold date_filter.
      destruct (transactions self) as [|t txns]; [reflexivity|].
      cbn [for_each]. rewrite date_test_invalid by exact M. reflexivity.
    + unfold date_income_filter, _date_filter_by_type.
      rewrite (guarded_filter_invalid
                 (fun t => String.eqb (txn_type t) "income") _ _ _ M).
      destruct (existsb _ _); reflexivity.
    + unfold date_expense_filter, _date_filter_by_type.
      rewrite (guarded_filter_invalid
                 (fun t => String.eqb (txn_type t) "expense") _ _ _ M).
      destruct (existsb _ _); reflexivity.
    + intros category_arg. unfold date_category_filter.
      rewrite (guarded_filter_invalid
                 (fun t => String.eqb (category t) category_arg) _ _ _ M).
      destruct (existsb _ _); reflexivity.
  - intros type_str amount category_arg E.
    unfold Transaction_init. rewrite E. reflexivity.
Qed.

(** A date filter raises nothing but ValueError, and raises it exactly
    when a date string does not parse and there is a transaction to test:
    any transaction for [date_filter], one of the type or category for the
    others. *)
Theorem date_filters_raise_exactly self (date1 : string)
    (date2 : option string) (e : exn) :
  (date_filter self date1 date2 = Raise e
   <-> e = ValueError /\ dates_parse date1 date2 = false
       /\ transactions self <> [])
  /\ (date_income_filter self date1 date2 = Raise e
      <-> e = ValueError /\ dates_parse date1 date2 = false
          /\ exists t, In t (transactions self) /\ txn_type t = "income")
  /\ (date_expense_filter self date1 date2 = Raise e
      <-> e = ValueError /\ dates_parse date1 date2 = false
          /\ exists t, In t (transactions self) /\ txn_type t = "expense")
  /\ (forall category_arg,
        date_category_filter self date1 date2 category_arg = Raise e
        <-> e = ValueError /\ dates_parse date1 date2 = false
            /\ exists t,
                 In t (transactions self) /\ category t = category_arg).
Proof.
  assert (G : forall self',
    date_filter self' date1 date2 = Raise e
    <-> e = ValueError /\ dates_parse date1 date2 = false
        /\ transactions self' <> []).
  { intros self'.
    destruct (date_filter_cases self' date1 date2)
      as [(start & stop & E1 & E2 & ->)|[E ->]].
    - split; [discriminate|]. intros (_ & E & _).
      unfold dates_parse in E. rewrite E1, E2 in E. discriminate.
    - destruct (transactions self') as [|t txns].
      + split; [discriminate|]. intros (_ & _ & N). contradiction.
      + split.
        * intros [= <-]. repeat split; [exact E|discriminate].
        * intros (-> & _ & _). reflexivity. }
  assert (NE : forall (p : Transaction A -> bool) (P : Transaction A -> Prop),
    (forall t, p t = true <-> P t) ->
    filter p (transactions self) <> []
    <-> exists t, In t (transactions self) /\ P t).
  { intros p P HpP. split.
    - intros N. destruct (filter p (transactions self)) as [|t l] eqn:F;
        [contradiction|].
      assert (Hin : In t (filter p (transactions self)))
        by (rewrite F; left; reflexivity).
      apply filter_In in Hin. exists t. split; [tauto|].
      apply HpP. tauto.
    - intros (t & Hin & Pt) F.
      assert (Hin' : In t (filter p (transactions self)))
        by (apply filter_In; split; [exact Hin|apply HpP; exact Pt]).
      rewrite F in Hin'. contradiction. }
  destruct (guarded_filters_compose self date1 date2) as (-> & -> & Hc).
  split; [apply G|]. split; [|split].
  - rewrite G. cbn [transactions].
    rewrite (NE _ (fun t => txn_type t = "income"))
      by (intros t; apply String.eqb_eq).
    reflexivity.
  - rewrite G. cbn [transactions].
    rewrite (NE _ (fun t => txn_type t = "expense"))
      by (intros t; apply String.eqb_eq).
    reflexivity.
  - intros category_arg. rewrite Hc, G. cbn [transactions].
    rewrite category_filter_is_filter.
    rewrite (NE _ (fun t => category t = category_arg))
      by (intros t; apply String.eqb_eq).
    reflexivity.
Qed.

Lemma in_range_by_date start stop t t' :
  date t = date t' -> in_range start stop t = in_range start stop t'.
Proof. unfold in_range. intros ->. reflexivity. Qed.

Lemma date_filter_sub (guard : Transaction A -> bool) txns date1 date2 r :
  date_filter (mkTracker txns) date1 date2 = Ok r ->
  date_filter (mkTracker (filter guard txns)) date1 date2
  = Ok (filter guard r).
Proof.
  destruct (date_filter_cases (mkTracker txns) date1 date2)
    as [(start & stop & E1 & E2 & ->)|[E ->]]; cbn [transactions].
  - intros [= <-].
    rewrite (date_filter_valid _ _ _ _ _ E1 E2). cbn [transactions].
    f_equal. unfold sorted_by_date.
    rewrite (filter_sorted_by date_leb date date_leb_total date_leb_trans).
    f_equal. rewrite !filter_filter. apply filter_ext.
    intros t. apply andb_comm.
  - destruct txns as [|t txns]; [|discriminate].
    intros [= <-]. reflexivity.
Qed.

(** When [date_filter] returns, the filters by type and by category return
    its result cut down to the type or category, in the same order. *)
Theorem typed_filters_select self (date1 : string) (date2 : option string)
    (r : list (Transaction A)) :
  date_filter self date1 date2 = Ok r ->
  date_income_filter self date1 date2
  = Ok (filter (fun t => String.eqb (txn_type t) "income") r)
  /\ date_expense_filter self date1 date2
     = Ok (filter (fun t => String.eqb (txn_type t) "expense") r)
  /\ forall category_arg,
       date_category_filter self date1 date2 category_arg
       = Ok (filter (fun t => String.eqb (category t) category_arg) r).
Proof.
  intros E.
  destruct (guarded_filters_compose self date1 date2) as (-> & -> & Hc).
  destruct self as [txns]. cbn [transactions] in *.
  split; [|split].
  - apply date_filter_sub. exact E.
  - apply date_filter_sub. exact E.
  - intros category_arg.
    rewrite Hc, category_filter_is_filter. cbn [transactions].
    apply date_filter_sub. exact E.
Qed.

(** The sort of [date_filter] is stable: when a transaction of a day is
    returned, all the transactions of that day are, in ledger order. *)
Theorem date_filter_keeps_ledger_order self (date1 : string)
    (date2 : option string) (r : list (Transaction A)) (d : datetime) :
  date_filter self date1 date2 = Ok r ->
  (exists t, In t r /\ date t = d) ->
  dated d r = dated d (transactions self).
Proof.
  destruct (date_filter_cases self date1 date2)
    as [(start & stop & E1 & E2 & ->)|[E ->]].
  - intros [= <-] (t & Hin & Hd). unfold dated, sorted_by_date.
    rewrite (same_key_sorted_by date_leb date date_leb_refl).
    + rewrite filter_filter. apply filter_ext_in.
      intros t' _. destruct (date_eqb (date t') d) eqn:Q; [|reflexivity].
      apply date_eqb_eq in Q. cbn.
      apply (Permutation_in _ (sorted_by_date_perm _)) in Hin.
      apply filter_In in Hin. destruct Hin as [_ Hr].
      rewrite <- Hr. apply in_range_by_date. congruence.
    + intros x y Qx Qy. apply date_eqb_eq in Qx, Qy. congruence.
  - destruct (transactions self); [|discriminate].
    intros [= <-] (t & [] & _).
Qed.

(** [add_transaction] puts the transaction last: a category filter gains
    it at its end when the category matches, and the total of its kind
    grows by its amount while the other totals stay. *)
Theorem add_transaction_effect self t :
  (forall category_arg,
     category_filter (add_transaction self t) category_arg
     = category_filter self category_arg
       ++ (if String.eqb (category t) category_arg then [t] else []))
  /\ (forall kind,
        total_of kind (transactions (add_transaction self t))
        = if String.eqb (txn_type t) kind
          then aadd (total_of kind (transactions self)) (amount t)
          else total_of kind (transactions self))
  /\ (txn_type t <> "income" ->
      get_total_income (add_transaction self t) = get_total_income self)
  /\ (txn_type t <> "expense" ->
      get_total_expenses (add_transaction self t)
      = get_total_expenses self).
Proof.
  assert (T : forall kind,
    total_of kind (transactions (add_transaction self t))
    = if String.eqb (txn_type t) kind
      then aadd (total_of kind (transactions self)) (amount t)
      else total_of kind (transactions self)).
  { intros kind. unfold total_of, add_transaction. cbn [transactions].
    rewrite fold_left_app. reflexivity. }
  split; [|split; [exact T|split]].
  - intros category_arg. rewrite !category_filter_is_filter.
    unfold add_transaction. cbn [transactions].
    rewrite filter_app. reflexivity.
  - intros N. unfold get_total_income. rewrite T.
    apply String.eqb_neq in N. rewrite N. reflexivity.
  - intros N. unfold get_total_expenses. rewrite T.
    apply String.eqb_neq in N. rewrite N. reflexivity.
Qed.
End FilterFacts.

Section AddThenAggregate.
Context {A : Type} `{Amount A}.
Variable w : World A.

(** For a report without a file: after [add_transaction] the total of the
    key of the new transaction, in the aggregate of its kind, is the old
    total plus its amount (its amount alone for a new key), and every
    other total is as before. *)
Theorem add_transaction_aggregates self (tr : FinanceTracker A)
    (t : Transaction A) (kind : string) :
  use_file self = false ->
  exists before after before_c after_c,
    _monthly_basis w self kind tr = Ok (before, tr)
    /\ _monthly_basis w self kind (add_transaction tr t)
       = Ok (after, add_transaction tr t)
    /\ _totals_each_txn_type_category w self kind tr = Ok (before_c, tr)
    /\ _totals_each_txn_type_category w self kind (add_transaction tr t)
       = Ok (after_c, add_transaction tr t)
    /\ (forall k,
          dict_get k after
          = if String.eqb (txn_type t) kind && keqb k (month_of t)
            then Some (match dict_get k before with
                       | Some total => aadd total (amount t)
                       | None => amount t
                       end)
            else dict_get k before)
    /\ (forall k,
          dict_get k after_c
          = if String.eqb (txn_type t) kind && keqb k (category t)
            then Some (match dict_get k before_c with
                       | Some total => aadd total (amount t)
                       | None => amount t
                       end)
            else dict_get k before_c).
Proof.
  intros E. rewrite monthly_basis_synced, totals_synced.
  rewrite !synced_without_file by exact E.
  do 4 eexists. repeat (split; [reflexivity|]).
  unfold add_transaction. cbn [transactions].
  rewrite monthly_basis_loop_group, totals_loop_group.
  rewrite monthly_basis_loop_group, totals_loop_group.
  rewrite !fold_left_app. cbn [fold_left].
  split; intros k.
  - rewrite !dict_get_sorted_items.
    + unfold group_step at 1.
      destruct (String.eqb (txn_type t) kind); cbn [andb]; [|reflexivity].
      apply dict_get_accumulate.
    + apply NoDup_keys_group. constructor.
    + unfold group_step at 1.
      destruct (String.eqb (txn_type t) kind).
      * apply NoDup_keys_accumulate, NoDup_keys_group. constructor.
      * apply NoDup_keys_group. constructor.
  - rewrite !dict_get_sorted_items.
    + unfold group_step at 1.
      destruct (String.eqb (txn_type t) kind); cbn [andb]; [|reflexivity].
      apply dict_get_accumulate.
    + apply NoDup_keys_group. constructor.
    + unfold group_step at 1.
      destruct (String.eqb (txn_type t) kind).
      * apply NoDup_keys_accumulate, NoDup_keys_group. constructor.
      * apply NoDup_keys_group. constructor.
Qed.
End AddThenAggregate.

(* ================================================================== *)
(** * Dates and types of transactions *)

Lemma lower_ascii_idem (c : ascii) :
  lower_ascii (lower_ascii c) = lower_ascii c.
Proof. destruct c as [[] [] [] [] [] [] [] []]; reflexivity. Qed.

Lemma is_space_lower_ascii (c : ascii) :
  is_space (lower_ascii c) = is_space c.
Proof. destruct c as [[] [] [] [] [] [] [] []]; reflexivity. Qed.

Lemma lower_idem (s : string) : lower (lower s) = lower s.
Proof.
  induction s as [|c s IH]; cbn; [reflexivity|].
  rewrite lower_ascii_idem, IH. reflexivity.
Qed.

Lemma lstrip_lower (s : string) : lstrip (lower s) = lower (lstrip s).
Proof.
  induction s as [|c s IH]; cbn; [reflexivity|].
  rewrite is_space_lower_ascii. destruct (is_space c); [exact IH|reflexivity].
Qed.

Lemma rstrip_lower (s : string) : rstrip (lower s) = lower (rstrip s).
Proof.
  induction s as [|c s IH]; cbn; [reflexivity|].
  rewrite IH, is_space_lower_ascii.
  destruct (rstrip s); cbn; [destruct (is_space c)|]; reflexivity.
Qed.

Lemma strip_lower (s : string) : strip (lower s) = lower (strip s).
Proof. unfold strip. rewrite lstrip_lower, rstrip_lower. reflexivity. Qed.

Lemma rstrip_cons (c : ascii) (s : string) :
  rstrip (String c s)
  = match rstrip s with
    | EmptyString => if is_space c then EmptyString else String c EmptyString
    | String c' s' => String c (String c' s')
    end.
Proof. reflexivity. Qed.

Lemma rstrip_idem (s : string) : rstrip (rstrip s) = rstrip s.
Proof.
  induction s as [|c s IH]; [reflexivity|].
  rewrite rstrip_cons.
  destruct (rstrip s) as [|c' s'] eqn:R.
  - destruct (is_space c) eqn:Sp; [reflexivity|].
    rewrite rstrip_cons. cbn [rstrip]. rewrite Sp. reflexivity.
  - rewrite rstrip_cons, IH. reflexivity.
Qed.

(** Empty, or starting with a character that is no space. *)
Definition no_leading_space (s : string) : Prop :=
  match s with
  | EmptyString => True
  | String c _ => is_space c = false
  end.

Lemma lstrip_no_leading_space (s : string) : no_leading_space (lstrip s).
Proof.
  induction s as [|c s IH]; cbn; [exact I|].
  destruct (is_space c) eqn:Sp; [exact IH|exact Sp].
Qed.

Lemma rstrip_no_leading_space (s : string) :
  no_leading_space s -> no_leading_space (rstrip s).
Proof.
  destruct s as [|c s]; cbn; [auto|]. intros Sp.
  destruct (rstrip s); [rewrite Sp|]; exact Sp.
Qed.

Lemma lstrip_fixed (s : string) : no_leading_space s -> lstrip s = s.
Proof. destruct s as [|c s]; cbn; [reflexivity|]. intros ->. reflexivity. Qed.

Lemma strip_idem (s : string) : strip (strip s) = strip s.
Proof.
  unfold strip.
  rewrite (lstrip_fixed (rstrip (lstrip s)))
    by apply rstrip_no_leading_space, lstrip_no_leading_space.
  apply rstrip_idem.
Qed.

(** The type a transaction is given is a fixed point of the
    normalization. *)
Lemma normalize_idem (s : string) :
  lower (strip (lower (strip s))) = lower (strip s).
Proof. rewrite strip_lower, lower_idem, strip_idem. reflexivity. Qed.

Lemma strptime_chars (y1 y2 y3 y4 : ascii) (rest : list ascii) :
  strptime (string_of_list_ascii (y1 :: y2 :: y3 :: y4 :: "-"%char :: rest))
  = match digit_of y1, digit_of y2, digit_of y3, digit_of y4 with
    | Some a, Some b, Some c, Some d =>
        match parse_month rest with
        | Some (m, rest') =>
            match parse_day rest' with
            | Some dd =>
                let r := mkDate (1000 * a + 100 * b + 10 * c + d) m dd in
                if valid_date r then Some r else None
            | None => None
            end
        | None => None
        end
    | _, _, _, _ => None
    end.
Proof.
  unfold strptime. rewrite list_ascii_of_string_of_list_ascii. reflexivity.
Qed.

(** [strptime] yields dates of the calendar only. *)
Lemma strptime_valid (s : string) (d : datetime) :
  strptime s = Some d -> valid_date d = true.
Proof.
  rewrite <- (string_of_list_ascii_of_string s).
  destruct (list_ascii_of_string s) as [|y1 [|y2 [|y3 [|y4 [|c rest]]]]];
    try (cbn; discriminate).
  destruct (Ascii.eqb_spec c "-"%char) as [->|N].
  - rewrite strptime_chars.
    destruct (digit_of y1), (digit_of y2), (digit_of y3), (digit_of y4);
      try discriminate.
    destruct (parse_month rest) as [[m rest']|]; [|discriminate].
    destruct (parse_day rest') as [dd|]; [|discriminate].
    cbv zeta.
    destruct (valid_date _) eqn:V; [|discriminate].
    intros [= <-]. exact V.
  - unfold strptime. rewrite list_ascii_of_string_of_list_ascii.
    destruct c as [[] [] [] [] [] [] [] []];
      try discriminate; exfalso; apply N; reflexivity.
Qed.

(** A number of a range of [k] numbers from [lo] on is one of them. *)
Lemma range_cases (lo n : Z) (k : nat) :
  lo <= n < lo + Z.of_nat k ->
  In n (map (fun i => lo + Z.of_nat i) (seq 0 k)).
Proof.
  intros R. apply in_map_iff. exists (Z.to_nat (n - lo)).
  split; [lia|]. apply in_seq. lia.
Qed.

Ltac by_cases_of n lo k :=
  let C := fresh "C" in
  assert (C : In n (map (fun i => lo + Z.of_nat i) (seq 0 k)))
    by (apply range_cases; cbn; lia);
  cbn in C;
  repeat (destruct C as [<-|C]; [reflexivity|]); contradiction.

Lemma digit_of_digit_char (n : Z) :
  0 <= n <= 9 -> digit_of (digit_char n) = Some n.
Proof. intros R. by_cases_of n 0 10%nat. Qed.

Lemma parse_month_pad2 (m : Z) (rest : list ascii) :
  1 <= m <= 12 ->
  parse_month (pad2 m ++ "-"%char :: rest) = Some (m, rest).
Proof. intros R. by_cases_of m 1 12%nat. Qed.

Lemma parse_day_pad2 (d : Z) :
  1 <= d <= 31 -> parse_day (pad2 d) = Some d.
Proof. intros R. by_cases_of d 1 31%nat. Qed.

Lemma valid_date_bounds (d : datetime) :
  valid_date d = true ->
  1 <= year d <= 9999 /\ 1 <= month d <= 12 /\ 1 <= day d <= 31.
Proof.
  unfold valid_date. rewrite !andb_true_iff, !Z.leb_le.
  intros [[[[[Y1 Y2] M1] M2] D1] D2].
  assert (days_in_month (year d) (month d) <= 31).
  { unfold days_in_month.
    destruct (month d =? 2); [destruct (is_leap (year d)); lia|].
    destruct ((month d =? 4) || (month d =? 6) || (month d =? 9)
              || (month d =? 11)); lia. }
  lia.
Qed.

Lemma year_digits (y : Z) :
  1 <= y <= 9999 ->
  0 <= y / 1000 <= 9 /\ 0 <= y / 100 mod 10 <= 9
  /\ 0 <= y / 10 mod 10 <= 9 /\ 0 <= y mod 10 <= 9
  /\ 1000 * (y / 1000) + 100 * (y / 100 mod 10) + 10 * (y / 10 mod 10)
     + y mod 10 = y.
Proof. intros R. Z.to_euclidean_division_equations. lia. Qed.

Lemma strptime_strftime_valid {libc : Libc} (d : datetime) :
  valid_date d = true -> 1000 <= year d ->
  strptime (strftime d) = Some d.
Proof.
  intros V Y. destruct (valid_date_bounds d V) as (Ry & Rm & Rd).
  destruct (year_digits (year d) Ry) as (B1 & B2 & B3 & B4 & E).
  unfold strftime, year_chars.
  replace (1000 <=? year d) with true by (symmetry; apply Z.leb_le; exact Y).
  rewrite orb_true_r. unfold pad4. cbn [app].
  rewrite strptime_chars.
  rewrite !digit_of_digit_char by assumption.
  rewrite parse_month_pad2 by exact Rm.
  rewrite parse_day_pad2 by exact Rd.
  cbv zeta. rewrite E.
  destruct d as [y m dd]. cbn [year month day] in *. rewrite V.
  reflexivity.
Qed.

(** A date written by [strftime] is read back by [strptime], and
    [strptime] returns dates of the calendar only. *)
Theorem strptime_strftime {libc : Libc} (d : datetime) :
  (valid_date d = true -> 1000 <= year d -> strptime (strftime d) = Some d)
  /\ (forall s, strptime s = Some d -> valid_date d = true).
Proof.
  split.
  - apply strptime_strftime_valid.
  - intros s. apply strptime_valid.
Qed.

Section TransactionInit.
Context {A : Type}.

Lemma Transaction_init_ok (date_str type_str : string) (a : A)
    (category_arg : string) (t : Transaction A) :
  Transaction_init date_str type_str a category_arg = Ok t ->
  strptime date_str = Some (date t)
  /\ t = mkTransaction (date t) (lower (strip type_str)) a category_arg.
Proof.
  unfold Transaction_init.
  destruct (strptime date_str) as [d|]; [|discriminate].
  cbn. intros [= <-]. split; reflexivity.
Qed.

Lemma Transaction_init_cases (date_str type_str : string) (a : A)
    (category_arg : string) :
  (forall t,
     Transaction_init date_str type_str a category_arg = Ok t ->
     well_formed t /\ strptime date_str = Some (date t)
     /\ txn_type t = lower (strip type_str)
     /\ amount t = a /\ category t = category_arg)
  /\ (forall e,
        Transaction_init date_str type_str a category_arg = Raise e ->
        e = ValueError /\ strptime date_str = None).
Proof.
  split.
  - intros t E. apply Transaction_init_ok in E. destruct E as [Ed Et].
    rewrite Et at 1 3 4 5. cbn [txn_type amount category date].
    split; [|auto]. split.
    + rewrite Et. cbn [date]. apply (strptime_valid _ _ Ed).
    + cbn [txn_type]. apply normalize_idem.
  - intros e. unfold Transaction_init.
    destruct (strptime date_str); cbn; [discriminate|].
    intros [= <-]. split; reflexivity.
Qed.

(** [Transaction.__init__] returns a transaction with a date of the
    calendar and a stripped, lower-case type, and with the amount and the
    category exactly as given; it raises nothing but ValueError, and that
    only for a date string that does not parse. *)
Theorem Transaction_init_well_formed (date_str type_str : string) (a : A)
    (category_arg : string) :
  (forall t,
     Transaction_init date_str type_str a category_arg = Ok t ->
     well_formed t /\ strptime date_str = Some (date t)
     /\ txn_type t = lower (strip type_str)
     /\ amount t = a /\ category t = category_arg)
  /\ (forall e,
        Transaction_init date_str type_str a category_arg = Raise e ->
        e = ValueError /\ strptime date_str = None).
Proof. exact (Transaction_init_cases date_str type_str a category_arg). Qed.
End TransactionInit.

(* ================================================================== *)
(** * Storage *)

Lemma for_each_app {X S} (body : S -> X -> result S) (l1 l2 : list X)
    (s : S) :
  for_each body (l1 ++ l2) s
  = rbind (for_each body l1 s) (for_each body l2).
Proof.
  revert s. induction l1 as [|x l1 IH]; intros s; cbn; [reflexivity|].
  destruct (body s x); cbn; [apply IH|reflexivity].
Qed.

Section StorageFacts.
Context {A : Type}.
Variable w : World A.

Lemma read_line_ok (tr tr1 : FinanceTracker A) (line : list string) :
  read_line w tr line = Ok tr1 ->
  exists t, tr1 = add_transaction tr t /\ well_formed t.
Proof.
  unfold read_line, item.
  destruct (nth_error line 0) as [date_str|]; [|discriminate].
  destruct (nth_error line 1) as [type_str|]; [|discriminate].
  destruct (nth_error line 2) as [amount_str|]; [|discriminate].
  cbn [of_option rbind].
  destruct (float_round2 w amount_str) as [a|]; [|discriminate].
  cbn [of_option rbind].
  destruct (nth_error line 3) as [category_arg|]; [|discriminate].
  cbn [of_option rbind].
  destruct (Transaction_init date_str type_str a category_arg) as [t|e]
    eqn:E; [|discriminate].
  cbn. intros [= <-]. exists t. split; [reflexivity|].
  apply (Transaction_init_cases date_str type_str a category_arg).
  exact E.
Qed.

Lemma read_lines_ok (lines : list (list string))
    (tr tr1 : FinanceTracker A) :
  for_each (read_line w) lines tr = Ok tr1 ->
  exists new,
    transactions tr1 = transactions tr ++ new
    /\ List.length new = List.length lines
    /\ Forall well_formed new.
Proof.
  revert tr. induction lines as [|line lines IH]; intros tr; cbn.
  - intros [= <-]. exists []. rewrite app_nil_r. auto.
  - destruct (read_line w tr line) as [tr2|e] eqn:E; [|discriminate].
    cbn. intros E'. apply read_line_ok in E.
    destruct E as (t & -> & Wt).
    destruct (IH _ E') as (new & Et & El & Fw).
    exists (t :: new). split; [|split].
    + rewrite Et. cbn [add_transaction transactions].
      rewrite <- app_assoc. reflexivity.
    + cbn. rewrite El. reflexivity.
    + constructor; assumption.
Qed.

Lemma read_transaction_by_delimiter (name : string)
    (tr : FinanceTracker A) :
  read_transaction w (Some name) tr
  = match delimiter_of name with
    | Some delimiter => read_delimited w name delimiter tr
    | None => Ok (tt, tr)
    end.
Proof.
  unfold read_transaction, delimiter_of.
  destruct (endswith (lower name) ".csv"); [reflexivity|].
  destruct (endswith (lower name) ".tsv"); reflexivity.
Qed.

(** [Storage.read_transaction] adds to what the tracker holds: when it
    returns, the old transactions are followed by one new transaction for
    each row after the header, each with a date of the calendar and a
    normalized type. A name that ends neither in [.csv] nor in [.tsv] is
    not opened at all; a missing file raises FileNotFoundError and a file
    without a row StopIteration. *)
Theorem read_transaction_appends (name : string) (tr : FinanceTracker A) :
  (delimiter_of name = None ->
   read_transaction w (Some name) tr = Ok (tt, tr))
  /\ (forall delimiter,
        delimiter_of name = Some delimiter ->
        (csv_rows w name delimiter = None ->
         read_transaction w (Some name) tr = Raise FileNotFoundError)
        /\ (csv_rows w name delimiter = Some [] ->
            read_transaction w (Some name) tr = Raise StopIteration)
        /\ forall u tr1,
             read_transaction w (Some name) tr = Ok (u, tr1) ->
             exists header lines new,
               csv_rows w name delimiter = Some (header :: lines)
               /\ transactions tr1 = transactions tr ++ new
               /\ List.length new = List.length lines
               /\ Forall well_formed new).
Proof.
  rewrite read_transaction_by_delimiter. split.
  - intros ->. reflexivity.
  - intros delimiter ->. unfold read_delimited. split; [|split].
    + intros ->. reflexivity.
    + intros ->. reflexivity.
    + intros u tr1.
      destruct (csv_rows w name delimiter) as [[|header lines]|];
        try discriminate.
      destruct (for_each (read_line w) lines tr) as [tr2|e] eqn:E;
        [|discriminate].
      cbn. intros [= _ <-].
      destruct (read_lines_ok _ _ _ E) as (new & Et & El & Fw).
      exists header, lines, new. auto.
Qed.
End StorageFacts.

Section AppendThenRead.
Context {A : Type} `{Amount A} {libc : Libc}.
Variable to_amount : string -> option A.

Lemma read_line_txn_cells (fs : FileSystem) (tr : FinanceTracker A)
    (t : Transaction A) :
  storable to_amount t ->
  read_line (world_of fs to_amount) tr (txn_cells t)
  = Ok (add_transaction tr t).
Proof.
  intros ([V N] & Y & Ha & _). unfold read_line, item, txn_cells.
  cbn [nth_error of_option rbind world_of float_round2].
  rewrite Ha. cbn [of_option rbind].
  unfold Transaction_init. rewrite (strptime_strftime_valid _ V Y).
  cbn [of_option rbind]. rewrite N. destruct t; reflexivity.
Qed.

Lemma writes_to (name : string) :
  delimiter_of name <> None ->
  endswith (lower name) ".csv" || endswith (lower name) ".tsv" = true.
Proof.
  unfold delimiter_of.
  destruct (endswith (lower name) ".csv"); [reflexivity|].
  destruct (endswith (lower name) ".tsv"); [reflexivity|].
  intros N. contradiction N. reflexivity.
Qed.

(** One call of [append_transaction], then [read_transaction]: on a
    missing file, on a file that could be read, on an empty file. *)
Lemma append_read_step (fs : FileSystem) (name : string)
    (t : Transaction A) (tr : FinanceTracker A) :
  delimiter_of name <> None -> storable to_amount t ->
  let after := world_of (append_transaction fs name t) to_amount in
  (fs name = None ->
   read_transaction after (Some name) tr = Ok (tt, add_transaction tr t))
  /\ (forall tr1,
        read_transaction (world_of fs to_amount) (Some name) tr
        = Ok (tt, tr1) ->
        read_transaction after (Some name) tr
        = Ok (tt, add_transaction tr1 t))
  /\ (fs name = Some [] ->
      read_transaction after (Some name) tr = Ok (tt, tr)).
Proof.
  intros D St after. subst after.
  rewrite !read_transaction_by_delimiter.
  pose proof (writes_to name D) as X.
  destruct (delimiter_of name) as [delimiter|] eqn:Ed; [|contradiction].
  unfold read_delimited, append_transaction, append_rows.
  rewrite X. cbn [world_of csv_rows]. rewrite String.eqb_refl.
  split; [|split].
  - intros ->. cbn [app for_each].
    rewrite read_line_txn_cells by assumption. reflexivity.
  - intros tr1. destruct (fs name) as [[|header lines]|]; try discriminate.
    cbn [app].
    destruct (for_each (read_line (world_of fs to_amount)) lines tr)
      as [tr2|e] eqn:E; [|discriminate].
    cbn. intros [= <-]. rewrite for_each_app.
    rewrite (for_each_ext _ (read_line (world_of fs to_amount)))
      by (intros; reflexivity).
    rewrite E. cbn [rbind for_each].
    rewrite read_line_txn_cells by assumption. reflexivity.
  - intros ->. reflexivity.
Qed.

Lemma append_all_read (name : string) (txns : list (Transaction A))
    (fs : FileSystem) (tr tr1 : FinanceTracker A) :
  delimiter_of name <> None -> Forall (storable to_amount) txns ->
  read_transaction (world_of fs to_amount) (Some name) tr = Ok (tt, tr1) ->
  read_transaction (world_of (append_all fs name txns) to_amount)
    (Some name) tr
  = Ok (tt, mkTracker (transactions tr1 ++ txns)).
Proof.
  intros D F. revert fs tr1.
  induction F as [|t txns St F IH]; intros fs tr1 E.
  - unfold append_all. cbn [fold_left]. rewrite E, app_nil_r.
    destruct tr1; reflexivity.
  - unfold append_all. cbn [fold_left].
    destruct (append_read_step fs name t tr D St) as (_ & Hstep & _).
    apply Hstep in E. apply IH in E. unfold append_all in E. rewrite E.
    cbn [add_transaction transactions]. rewrite <- app_assoc. reflexivity.
Qed.

(** What the program appends to a file it reads back. After
    [append_transaction] is called for storable transactions in turn on a
    file that was missing, [read_transaction] adds exactly these
    transactions, in the order of the calls, to the tracker. On a file
    that was there but empty no header is written, and the first
    transaction is then skipped as if its row were the header: all but
    the first are read back. *)
Theorem append_then_read (fs : FileSystem) (name : string)
    (t : Transaction A) (txns : list (Transaction A))
    (tr : FinanceTracker A) :
  delimiter_of name <> None ->
  Forall (storable to_amount) (t :: txns) ->
  let after := world_of (append_all fs name (t :: txns)) to_amount in
  (fs name = None ->
   read_transaction after (Some name) tr
   = Ok (tt, mkTracker (transactions tr ++ t :: txns)))
  /\ (fs name = Some [] ->
      read_transaction after (Some name) tr
      = Ok (tt, mkTracker (transactions tr ++ txns))).
Proof.
  intros D F after. subst after. inversion F as [|? ? St F' ]; subst.
  destruct (append_read_step fs name t tr D St) as (Hnew & _ & Hempty).
  unfold append_all. cbn [fold_left]. split; intros E.
  - apply Hnew in E.
    apply (append_all_read name txns _ _ _ D F') in E.
    unfold append_all in E. rewrite E.
    cbn [add_transaction transactions]. rewrite <- app_assoc. reflexivity.
  - apply Hempty in E.
    apply (append_all_read name txns _ _ _ D F') in E.
    unfold append_all in E. rewrite E. reflexivity.
Qed.
End AppendThenRead.

(* ================================================================== *)
(** * The prompt, the filter report and the chart data *)

Lemma yes_or_no_loop_skips (prompt : string) (skipped : list string)
    (rest out : list string) :
  Forall (fun line => is_answer line = false) skipped ->
  yes_or_no_loop prompt (skipped ++ rest) out
  = yes_or_no_loop prompt rest
      (out
       ++ flat_map
            (fun _ => [(prompt ++ ", yes or no? ")%string;
                       "Invalid response"])
            skipped).
Proof.
  intros F. revert out. induction F as [|line skipped N F IH]; intros out.
  - cbn. rewrite app_nil_r. reflexivity.
  - cbn [app yes_or_no_loop flat_map]. unfold is_answer in N.
    apply orb_false_iff in N. destruct N as [-> ->].
    rewrite IH. rewrite <- !app_assoc. reflexivity.
Qed.

(** [yes_or_no] answers with the first line that is yes or no in any
    case of letters, skipping the others with "Invalid response" and a new
    prompt each; the lines after the answer stay unread. With no such line
    it reads everything and ends in the EOFError of [input]. *)
Theorem yes_or_no_first_answer (prompt : string) (console : Console) :
  (forall skipped answer rest,
     stdin console = skipped ++ answer :: rest ->
     Forall (fun line => is_answer line = false) skipped ->
     is_answer answer = true ->
     yes_or_no prompt console
     = (Some (String.eqb (lower answer) "yes"),
        mkConsole rest (stdout console ++ asked prompt skipped)))
  /\ (Forall (fun line => is_answer line = false) (stdin console) ->
      yes_or_no prompt console
      = (None,
         mkConsole [] (stdout console ++ asked prompt (stdin console)))).
Proof.
  unfold yes_or_no, asked. split.
  - intros skipped answer rest -> F Ha.
    rewrite yes_or_no_loop_skips by exact F.
    cbn [yes_or_no_loop]. unfold is_answer in Ha.
    rewrite <- !app_assoc.
    destruct (String.eqb (lower answer) "yes"); [reflexivity|].
    cbn in Ha. rewrite Ha. reflexivity.
  - intros F.
    rewrite <- (app_nil_r (stdin console)) at 1.
    rewrite yes_or_no_loop_skips by exact F.
    cbn [yes_or_no_loop]. rewrite <- !app_assoc. reflexivity.
Qed.

Section FilterReport.
Context {A : Type} `{Amount A} {libc : Libc}.
Variable w : World A.

Lemma write_txns_rows (out : list (row A)) (txns : list (Transaction A)) :
  write_txns out txns
  = out ++ map (fun txn => map Str (txn_cells txn)) txns.
Proof.
  unfold write_txns.
  apply (fold_writerow _ (fun txn => map Str (txn_cells txn))).
  reflexivity.
Qed.

Lemma run_filter_ok
    (f : FinanceTracker A -> result (list (Transaction A)))
    (tracker : FinanceTracker A) l :
  f tracker = Ok l -> run_filter f tracker = Ok (l, tracker).
Proof. unfold run_filter. intros ->. reflexivity. Qed.

Lemma run_filter_raise
    (f : FinanceTracker A -> result (list (Transaction A)))
    (tracker : FinanceTracker A) e :
  f tracker = Raise e -> run_filter f tracker = Raise e.
Proof. unfold run_filter. intros ->. reflexivity. Qed.

(** The export once the sync has left the ledger [tr1] and the four date
    filters have returned. *)
Lemma export_filters_rows self category_arg date1 date2
    (tr tr1 : FinanceTracker A) r2 r3 r4 r5 :
  _sync_transactions w self tr = Ok (tt, tr1) ->
  date_filter tr1 date1 date2 = Ok r2 ->
  date_income_filter tr1 date1 date2 = Ok r3 ->
  date_expense_filter tr1 date1 date2 = Ok r4 ->
  date_category_filter tr1 date1 date2 category_arg = Ok r5 ->
  export_filters w self category_arg date1 date2 tr
  = Ok (filters_layout category_arg date1 date2
          (category_filter tr1 category_arg) r2 r3 r4 r5, tr1).
Proof.
  intros Es E2 E3 E4 E5. unfold export_filters.
  rewrite (bind_ok _ _ _ _ _ Es).
  erewrite bind_ok by (apply run_filter_ok; reflexivity).
  erewrite bind_ok by (apply run_filter_ok; exact E2).
  erewrite bind_ok by (apply run_filter_ok; exact E3).
  erewrite bind_ok by (apply run_filter_ok; exact E4).
  erewrite bind_ok by (apply run_filter_ok; exact E5).
  cbv zeta. f_equal. f_equal.
  unfold filters_layout, filter_section, span, writerow.
  destruct date2 as [date2|]; rewrite !write_txns_rows;
    repeat (rewrite <- app_assoc; cbn [app]); reflexivity.
Qed.

(** [export_filters] writes its five sections in the order category,
    dates, income, expense, category and dates, each under its header and
    with a blank row between two sections; the headers say "on DATE"
    without an end date and "from DATE to DATE" with one, and the last one
    starts with the capitalized category. When a date filter raises,
    the export raises the same exception and writes no row; without a file
    and with dates that parse it returns. *)
Theorem export_filters_layout self (category_arg date1 : string)
    (date2 : option string) (tr : FinanceTracker A) :
  (forall rows tr',
     export_filters w self category_arg date1 date2 tr = Ok (rows, tr') ->
     exists r2 r3 r4 r5,
       _sync_transactions w self tr = Ok (tt, tr')
       /\ date_filter tr' date1 date2 = Ok r2
       /\ date_income_filter tr' date1 date2 = Ok r3
       /\ date_expense_filter tr' date1 date2 = Ok r4
       /\ date_category_filter tr' date1 date2 category_arg = Ok r5
       /\ rows
          = filters_layout category_arg date1 date2
              (category_filter tr' category_arg) r2 r3 r4 r5)
  /\ (forall tr1 e,
        _sync_transactions w self tr = Ok (tt, tr1) ->
        date_filter tr1 date1 date2 = Raise e ->
        export_filters w self category_arg date1 date2 tr = Raise e)
  /\ (use_file self = false -> dates_parse date1 date2 = true ->
      exists rows,
        export_filters w self category_arg date1 date2 tr = Ok (rows, tr)).
Proof.
  split; [|split].
  - intros rows tr'.
    destruct (_sync_transactions w self tr) as [[[] tr1]|e] eqn:Es.
    + destruct (date_filter tr1 date1 date2) as [r2|e2] eqn:E2.
      * destruct (guarded_filters_compose tr1 date1 date2)
          as (E3 & E4 & E5).
        specialize (E5 category_arg).
        destruct tr1 as [txns]. cbn [transactions] in *.
        rewrite category_filter_is_filter in E5. cbn [transactions] in E5.
        rewrite (date_filter_sub _ _ _ _ _ E2) in E3.
        rewrite (date_filter_sub _ _ _ _ _ E2) in E4.
        rewrite (date_filter_sub _ _ _ _ _ E2) in E5.
        rewrite (export_filters_rows _ _ _ _ _ _ _ _ _ _ Es E2 E3 E4 E5).
        intros [= <- <-]. do 4 eexists.
        repeat (split; [first [reflexivity|eassumption]|]).
        reflexivity.
      * unfold export_filters. rewrite (bind_ok _ _ _ _ _ Es).
        erewrite bind_ok by (apply run_filter_ok; reflexivity).
        erewrite bind_raise by (apply run_filter_raise; exact E2).
        discriminate.
    + unfold export_filters. rewrite (bind_raise _ _ _ _ Es). discriminate.
  - intros tr1 e Es E2. unfold export_filters.
    rewrite (bind_ok _ _ _ _ _ Es).
    erewrite bind_ok by (apply run_filter_ok; reflexivity).
    apply bind_raise. apply run_filter_raise. exact E2.
  - intros Ef Ed.
    destruct (dates_parse_true _ _ Ed) as (start & stop & E1 & E2).
    pose proof (sync_without_file w self tr Ef) as Es.
    pose proof (date_filter_valid tr _ _ _ _ E1 E2) as F2.
    destruct (guarded_filters_compose tr date1 date2) as (E3 & E4 & E5).
    specialize (E5 category_arg).
    destruct tr as [txns]. cbn [transactions] in *.
    rewrite category_filter_is_filter in E5. cbn [transactions] in E5.
    rewrite (date_filter_sub _ _ _ _ _ F2) in E3.
    rewrite (date_filter_sub _ _ _ _ _ F2) in E4.
    rewrite (date_filter_sub _ _ _ _ _ F2) in E5.
    eexists.
    apply (export_filters_rows _ _ _ _ _ _ _ _ _ _ Es F2 E3 E4 E5).
Qed.

Lemma chart_basis_fold (d : dict string A) (labels : list string)
    (totals : list A) :
  fold_left
    (fun lists (item : string * A) =>
       let '(category_list, totals_list) := lists in
       let '(cat, total) := item in
       (category_list ++ [capitalize cat], totals_list ++ [total]))
    d (labels, totals)
  = (labels ++ map capitalize (keys d), totals ++ values d).
Proof.
  revert labels totals. unfold keys, values.
  induction d as [|[cat total] d IH]; intros labels totals; cbn.
  - rewrite !app_nil_r. reflexivity.
  - rewrite IH, <- !app_assoc. reflexivity.
Qed.

(** [_chart_basis] returns two lists that go together: as many labels and
    totals as the dict has keys, in the order of the dict, the label at a
    position being the capitalized key and the total its value. *)
Theorem chart_basis_parallel (d : dict string A) :
  List.length (fst (_chart_basis d)) = List.length d
  /\ List.length (snd (_chart_basis d)) = List.length d
  /\ forall i cat total,
       nth_error d i = Some (cat, total) ->
       nth_error (fst (_chart_basis d)) i = Some (capitalize cat)
       /\ nth_error (snd (_chart_basis d)) i = Some total.
Proof.
  unfold _chart_basis. rewrite chart_basis_fold. cbn [app fst snd].
  unfold keys, values. rewrite !length_map.
  split; [reflexivity|]. split; [reflexivity|].
  intros i cat total E. rewrite !nth_error_map, E. split; reflexivity.
Qed.
End FilterReport.

(* ================================================================== *)
(** * Transactions of other types *)

Section OtherTypes.
Context {A : Type} `{Amount A}.

Lemma total_of_filter (kind : string) (p : Transaction A -> bool)
    (txns : list (Transaction A)) :
  (forall t, txn_type t = kind -> p t = true) ->
  total_of kind (filter p txns) = total_of kind txns.
Proof.
  intros Hp. unfold total_of. generalize (azero (A := A)) as acc.
  induction txns as [|t txns IH]; intros acc; [reflexivity|].
  cbn [filter fold_left].
  destruct (String.eqb_spec (txn_type t) kind) as [E|N].
  - rewrite (Hp t E). cbn [fold_left].
    apply String.eqb_eq in E. rewrite E. apply IH.
  - destruct (p t); [|apply IH].
    cbn [fold_left]. apply String.eqb_neq in N. rewrite N. apply IH.
Qed.

(** A transaction whose type is neither "income" nor "expense", as a file
    may hold one, counts for nothing in the balance and the two totals:
    they are those of the ledger without such transactions. The filters
    still return it. *)
Theorem balance_ignores_other_types (self : FinanceTracker A) :
  let kept := mkTracker (filter counted (transactions self)) in
  calc_current_balance kept = calc_current_balance self
  /\ get_total_income kept = get_total_income self
  /\ get_total_expenses kept = get_total_expenses self
  /\ forall t,
       In t (transactions self) -> counted t = false ->
       In t (category_filter self (category t)).
Proof.
  cbv zeta.
  assert (Ti : total_of "income" (filter counted (transactions self))
               = total_of "income" (transactions self)).
  { apply total_of_filter. intros t E. unfold counted. rewrite E.
    reflexivity. }
  assert (Te : total_of "expense" (filter counted (transactions self))
               = total_of "expense" (transactions self)).
  { apply total_of_filter. intros t E. unfold counted. rewrite E.
    reflexivity. }
  split; [|split; [|split]].
  - unfold calc_current_balance. rewrite !balance_fold. cbn [transactions].
    fold (total_of "income" (filter counted (transactions self))).
    fold (total_of "expense" (filter counted (transactions self))).
    fold (total_of "income" (transactions self)).
    fold (total_of "expense" (transactions self)).
    rewrite Ti, Te. reflexivity.
  - unfold get_total_income. cbn [transactions]. rewrite Ti. reflexivity.
  - unfold get_total_expenses. cbn [transactions]. rewrite Te. reflexivity.
  - intros t Hin _. rewrite category_filter_is_filter.
    apply filter_In. split; [exact Hin|apply String.eqb_refl].
Qed.
End OtherTypes.

(* ================================================================== *)
(** * Further runs on concrete ledgers *)

Lemma aggregate_totals_in_order_witness :
  exists d,
    monthly_income no_files in_memory ledger_int = Ok (d, ledger_int)
    /\ dict_get (2024, 2) d = Some 800
    /\ dict_get (2023, 2) d = None.
Proof.
  destruct (aggregate_totals_in_order (A := Z) no_files in_memory ledger_int
              "income") as (Hm & _ & _).
  eexists. split; [vm_compute; reflexivity|].
  split.
  - rewrite (Hm _ ledger_int) by (vm_compute; reflexivity). reflexivity.
  - rewrite (Hm _ ledger_int) by (vm_compute; reflexivity). reflexivity.
Defined.

Lemma categories_and_savings_keys_sorted_witness :
  exists d,
    monthly_income_categories no_files in_memory ledger_int
    = Ok (d, ledger_int)
    /\ keys d
       = [((2024, 1), "salary"); ((2024, 2), "bonus"); ((2024, 2), "salary")]
    /\ Sorted month_category_lt (keys d).
Proof.
  destruct (categories_and_savings_keys_sorted (A := Z) no_files in_memory
              ledger_int "income") as [Hc _].
  eexists. split; [vm_compute; reflexivity|]. split; [reflexivity|].
  apply (Hc _ ledger_int). vm_compute. reflexivity.
Defined.

Lemma file_is_the_source_witness :
  monthly_income (world_of demo_fs demo_amount) file_report ledger_int
  = monthly_income (world_of demo_fs demo_amount) file_report (mkTracker [])
  /\ monthly_income (world_of demo_fs demo_amount) file_report ledger_int
     = Ok ([((2024, 3), 5)],
           mkTracker [mkTransaction (mkDate 2024 3 1) "income" 5 "Zebra"]).
Proof.
  destruct (file_is_the_source (world_of demo_fs demo_amount) file_report
              ledger_int (mkTracker []) eq_refl) as (_ & Hk & _).
  destruct (Hk "income") as (Hm & _).
  split; [exact Hm|]. vm_compute. reflexivity.
Defined.

Lemma monthly_totals_add_up_witness :
  exists d,
    monthly_income no_files in_memory ledger_int = Ok (d, ledger_int)
    /\ sum_values d = 1800.
Proof.
  destruct (monthly_totals_add_up (A := Z) no_files in_memory ledger_int
              "income") as [Hm _].
  eexists. split; [vm_compute; reflexivity|].
  rewrite (Hm _ ledger_int) by (vm_compute; reflexivity). reflexivity.
Defined.

Lemma typed_filters_select_witness :
  date_income_filter ledger1 "2024-01-01" (Some "2024-01-31")
  = Ok [salary_jan]
  /\ date_category_filter ledger1 "2024-01-01" (Some "2024-01-31") "food"
     = Ok [food_jan].
Proof.
  destruct (typed_filters_select ledger1 "2024-01-01" (Some "2024-01-31")
              [salary_jan; food_jan]) as (Hi & _ & Hc).
  { vm_compute. reflexivity. }
  split; [exact Hi|]. exact (Hc "food").
Defined.

Lemma date_filter_keeps_ledger_order_witness :
  exists r,
    date_filter ledger_days "2024-01-01" (Some "2024-01-31") = Ok r
    /\ dated (mkDate 2024 1 6) r
       = [mkTransaction (mkDate 2024 1 6) "income" 1 "first";
          mkTransaction (mkDate 2024 1 6) "expense" 3 "second"].
Proof.
  eexists. split; [vm_compute; reflexivity|].
  rewrite (date_filter_keeps_ledger_order ledger_days "2024-01-01"
             (Some "2024-01-31") _ (mkDate 2024 1 6)).
  - reflexivity.
  - vm_compute. reflexivity.
  - exists (mkTransaction (mkDate 2024 1 6) "income" 1 "first").
    split; [right; left; reflexivity|reflexivity].
Defined.

Lemma add_transaction_effect_witness :
  get_total_income (add_transaction ledger1 food_jan) = "2000.00"
  /\ category_filter (add_transaction ledger1 food_jan) "food"
     = [food_jan; food_jan].
Proof.
  destruct (add_transaction_effect ledger1 food_jan) as (Hc & _ & Hi & _).
  split.
  - rewrite Hi by discriminate. vm_compute. reflexivity.
  - rewrite Hc. reflexivity.
Defined.

Lemma add_transaction_aggregates_witness :
  exists after,
    monthly_expenses no_files in_memory (add_transaction ledger1 food_jan)
    = Ok (after, add_transaction ledger1 food_jan)
    /\ dict_get (2024, 1) after = Some 400%float
    /\ dict_get (2024, 2) after = None.
Proof.
  destruct (add_transaction_aggregates no_files in_memory ledger1 food_jan
              "expense" eq_refl)
    as (before & after & bc & ac & Hb & Ha & _ & _ & Hk & _).
  exists after. split; [exact Ha|].
  vm_compute in Hb. injection Hb as <-.
  split; rewrite Hk; reflexivity.
Defined.

Lemma strptime_strftime_witness :
  strftime (libc := glibc) (mkDate 2024 1 5) = "2024-01-05"
  /\ strptime (strftime (libc := glibc) (mkDate 2024 1 5))
     = Some (mkDate 2024 1 5).
Proof.
  destruct (strptime_strftime (libc := glibc) (mkDate 2024 1 5))
    as [Hr _].
  split; [reflexivity|]. apply Hr; [reflexivity|cbn; lia].
Defined.

(** Below the year 1000 the round trip depends on the C library: the bare
    number that glibc writes is not a year for [strptime]. *)
Example strftime_below_1000 :
  strftime (libc := glibc) (mkDate 999 1 1) = "999-01-01"
  /\ strptime (strftime (libc := glibc) (mkDate 999 1 1)) = None
  /\ strftime (libc := mkLibc true) (mkDate 999 1 1) = "0999-01-01"
  /\ strptime (strftime (libc := mkLibc true) (mkDate 999 1 1))
     = Some (mkDate 999 1 1).
Proof. vm_compute. repeat split. Qed.

Lemma Transaction_init_well_formed_witness :
  exists t,
    Transaction_init "2024-1-5" "  InCome " 1000%float "Salary" = Ok t
    /\ txn_type t = "income" /\ category t = "Salary"
    /\ date t = mkDate 2024 1 5 /\ well_formed t.
Proof.
  destruct (Transaction_init_well_formed "2024-1-5" "  InCome " 1000%float
              "Salary") as [Hok _].
  eexists. split; [reflexivity|].
  repeat (split; [reflexivity|]).
  apply (Hok _ eq_refl).
Defined.

Lemma read_transaction_appends_witness :
  exists tr1,
    read_transaction (world_of demo_fs demo_amount) (Some "ledger.csv")
      ledger_int = Ok (tt, tr1)
    /\ transactions tr1
       = transactions ledger_int
         ++ [mkTransaction (mkDate 2024 3 1) "income" 5 "Zebra"]
    /\ read_transaction (world_of demo_fs demo_amount) (Some "ledger.txt")
         ledger_int = Ok (tt, ledger_int)
    /\ read_transaction (world_of demo_fs demo_amount) (Some "other.TSV")
         ledger_int = Raise FileNotFoundError.
Proof.
  eexists. split; [vm_compute; reflexivity|]. split; [reflexivity|].
  destruct (read_transaction_appends (world_of demo_fs demo_amount)
              "ledger.txt" ledger_int) as [Hnone _].
  destruct (read_transaction_appends (world_of demo_fs demo_amount)
              "other.TSV" ledger_int) as [_ Htsv].
  split; [apply Hnone; reflexivity|].
  destruct (Htsv "009"%char eq_refl) as [Hmissing _].
  apply Hmissing. reflexivity.
Defined.

Lemma append_then_read_witness :
  read_transaction
    (world_of
       (append_all (libc := glibc) demo_fs "new.csv"
          [salary_int; mkTransaction (mkDate 2024 3 1) "expense" 5 "food"])
       demo_amount)
    (Some "new.csv") (mkTracker [])
  = Ok (tt,
        mkTracker
          [salary_int; mkTransaction (mkDate 2024 3 1) "expense" 5 "food"])
  /\ append_all (libc := glibc) demo_fs "new.csv"
       [salary_int; mkTransaction (mkDate 2024 3 1) "expense" 5 "food"]
       "new.csv"
     = Some [titlenames; ["2024-01-05"; "income"; "1000.00"; "salary"];
             ["2024-03-01"; "expense"; "5.00"; "food"]].
Proof.
  split; [|vm_compute; reflexivity].
  destruct (append_then_read (libc := glibc) demo_amount demo_fs "new.csv"
              salary_int
              [mkTransaction (mkDate 2024 3 1) "expense" 5 "food"]
              (mkTracker [])) as [Hnew _].
  - discriminate.
  - repeat constructor; cbn; lia.
  - apply Hnew. reflexivity.
Defined.

Lemma yes_or_no_first_answer_witness :
  yes_or_no "Continue" (mkConsole ["maybe"; "YES"; "no"] [])
  = (Some true,
     mkConsole ["no"]
       ["Continue, yes or no? "; "Invalid response";
        "Continue, yes or no? "])
  /\ yes_or_no "Continue" (mkConsole ["maybe"] [])
     = (None,
        mkConsole []
          ["Continue, yes or no? "; "Invalid response";
           "Continue, yes or no? "]).
Proof.
  destruct (yes_or_no_first_answer "Continue"
              (mkConsole ["maybe"; "YES"; "no"] [])) as [Hans _].
  destruct (yes_or_no_first_answer "Continue" (mkConsole ["maybe"] []))
    as [_ Heof].
  split.
  - apply (Hans ["maybe"] "YES" ["no"]);
      [reflexivity|repeat constructor|reflexivity].
  - apply Heof. repeat constructor.
Defined.

Lemma export_filters_layout_witness :
  (exists rows,
     export_filters (libc := glibc) no_files in_memory "food" "2024-01-10"
       None ledger1
     = Ok (rows, ledger1)
     /\ rows
        = [[Str "Transactions filter: food"];
           [Str "2024-01-10"; Str "expense"; Str "200.00"; Str "food"];
           [];
           [Str "Transactions on 2024-01-10"];
           [Str "2024-01-10"; Str "expense"; Str "200.00"; Str "food"];
           [];
           [Str "Income transactions on 2024-01-10"];
           [];
           [Str "Expense transactions on 2024-01-10"];
           [Str "2024-01-10"; Str "expense"; Str "200.00"; Str "food"];
           [];
           [Str "Food transactions on 2024-01-10"];
           [Str "2024-01-10"; Str "expense"; Str "200.00"; Str "food"]])
  /\ (exists rows,
        export_filters (libc := glibc) no_files in_memory "rent" "0999-01-01"
          (Some "0999-12-31") ledger_old
        = Ok (rows, ledger_old)
        /\ rows
           = [[Str "Transactions filter: rent"];
              [Str "999-01-01"; Str "expense"; Str "200.00"; Str "rent"];
              [];
              [Str "Transactions from 0999-01-01 to 0999-12-31"];
              [Str "999-01-01"; Str "expense"; Str "200.00"; Str "rent"];
              [];
              [Str "Income transactions from 0999-01-01 to 0999-12-31"];
              [];
              [Str "Expense transactions from 0999-01-01 to 0999-12-31"];
              [Str "999-01-01"; Str "expense"; Str "200.00"; Str "rent"];
              [];
              [Str "Rent transactions from 0999-01-01 to 0999-12-31"];
              [Str "999-01-01"; Str "expense"; Str "200.00"; Str "rent"]]).
Proof.
  split.
  - destruct (export_filters_layout (libc := glibc) no_files in_memory
                "food" "2024-01-10" None ledger1) as (Hrows & _ & Hret).
    destruct (Hret eq_refl eq_refl) as [rows Er].
    exists rows. split; [exact Er|].
    destruct (Hrows rows ledger1 Er)
      as (r2 & r3 & r4 & r5 & _ & E2 & E3 & E4 & E5 & ->).
    vm_compute in E2, E3, E4, E5.
    injection E2 as <-. injection E3 as <-.
    injection E4 as <-. injection E5 as <-.
    vm_compute. reflexivity.
  - destruct (export_filters_layout (libc := glibc) no_files in_memory
                "rent" "0999-01-01" (Some "0999-12-31") ledger_old)
      as (Hrows & _ & Hret).
    destruct (Hret eq_refl eq_refl) as [rows Er].
    exists rows. split; [exact Er|].
    destruct (Hrows rows ledger_old Er)
      as (r2 & r3 & r4 & r5 & _ & E2 & E3 & E4 & E5 & ->).
    vm_compute in E2, E3, E4, E5.
    injection E2 as <-. injection E3 as <-.
    injection E4 as <-. injection E5 as <-.
    vm_compute. reflexivity.
Defined.

Lemma chart_basis_parallel_witness :
  nth_error (fst (_chart_basis [("bonus", 300); ("salary", 1500)])) 1
  = Some "Salary"
  /\ nth_error (snd (_chart_basis [("bonus", 300); ("salary", 1500)])) 1
     = Some 1500.
Proof.
  destruct (chart_basis_parallel (A := Z)
              [("bonus", 300); ("salary", 1500)]) as (_ & _ & Hn).
  apply (Hn 1%nat "salary" 1500 eq_refl).
Defined.

Lemma balance_ignores_other_types_witness :
  calc_current_balance
    (add_transaction ledger1
       (mkTransaction (mkDate 2024 1 7) "transfer" 50%float "bank"))
  = "1800.00".
Proof.
  destruct (balance_ignores_other_types
              (add_transaction ledger1
                 (mkTransaction (mkDate 2024 1 7) "transfer" 50%float
                    "bank"))) as [Hb _].
  rewrite <- Hb. vm_compute. reflexivity.
Defined.

(** C7 on the first scenario: dates that parse, and dates that do not. *)
Lemma filters_return_on_valid_dates_witness :
  date_income_filter ledger1 "2024-01-01" (Some "2024-01-31")
  = Ok [salary_jan]
  /\ date_filter ledger1 "2023-01-01" None = Ok []
  /\ date_expense_filter ledger1 "2024-01-01" (Some "Jan 31")
     = Raise ValueError
  /\ date_category_filter ledger1 "2024/01/05" None "food"
     = Raise ValueError
  /\ date_category_filter ledger1 "2024/01/05" None "rent" = Ok [].
Proof.
  destruct (filters_return_on_valid_dates ledger1 "2024-01-01"
              (Some "2024-01-31")) as [Hvalid _].
  destruct (Hvalid (mkDate 2024 1 1) (Some (mkDate 2024 1 31))
              eq_refl eq_refl) as (_ & Hincome & _).
  split; [rewrite Hincome; reflexivity|].
  destruct (filters_return_on_valid_dates ledger1 "2023-01-01" None)
    as [Hvalid' _].
  destruct (Hvalid' (mkDate 2023 1 1) None eq_refl eq_refl)
    as (_ & _ & _ & _ & Hnone).
  split.
  { apply Hnone. intros t Hin. cbn in Hin.
    destruct Hin as [<-|[<-|[<-|[]]]]; reflexivity. }
  destruct (filters_return_on_valid_dates ledger1 "2024-01-01"
              (Some "Jan 31")) as (_ & _ & Hbad2 & _).
  destruct Hbad2 as (_ & _ & Hexpense & _).
  { right. exists "Jan 31". split; reflexivity. }
  split; [rewrite Hexpense; reflexivity|].
  destruct (filters_return_on_valid_dates ledger1 "2024/01/05" None)
    as (_ & _ & Hbad1 & _).
  destruct Hbad1 as (_ & _ & _ & Hcategory).
  { left. reflexivity. }
  split; rewrite Hcategory; reflexivity.
Defined.
